(** * Room lifecycle and widget tools of the tldraw sync worker

    A shallow embedding of [src/worker/CanvasToolHandler.ts] (the
    [CanvasToolHandler] class and the [TldrawDurableObject] that hosts it)
    together with the properties its specification states about it.

    Records of the room are JavaScript objects handled dynamically (the
    handler types them as [any]); they are modelled as JSON-like values with
    the language's truthiness, [||], [?.] and object-spread semantics written
    out. *)

From Stdlib Require Import String Ascii List ZArith Bool Lia Arith.
From Stdlib Require Import DecimalString.
From Equations Require Import Equations.
Import ListNotations.

Open Scope string_scope.

(* ===================================================================== *)
(** ** JavaScript values *)
(* ===================================================================== *)

Module Js.

(** Values that travel through the handlers.  Numbers only ever get copied
    and tested for truthiness, so an integer stands for a JavaScript number
    ([-0] and [0] are both [0]; a JSON body cannot carry [NaN]).  An object
    is the ordered list of its own properties.  [JNative text] is a built-in
    function or object reached through a prototype chain, known by the text
    [String()] prints for it. *)
#[local] Unset Elimination Schemes.
Inductive JValue : Type :=
| JUndefined
| JNull
| JBool (b : bool)
| JNum (n : Z)
| JStr (s : string)
| JArr (items : list JValue)
| JObj (fields : list (string * JValue))
| JNative (text : string).
#[local] Set Elimination Schemes.

Definition Obj : Type := list (string * JValue).

(** [!!v] *)
Definition truthy (v : JValue) : bool :=
  match v with
  | JUndefined | JNull => false
  | JBool b => b
  | JNum n => negb (n =? 0)%Z
  | JStr s => negb (s =? "")
  | JArr _ | JObj _ | JNative _ => true
  end.

(** [a || b] *)
Definition js_or (a b : JValue) : JValue := if truthy a then a else b.

(** Own-property lookup [o[k]], [undefined] when [k] is not an own key. *)
Fixpoint obj_get (o : Obj) (k : string) : JValue :=
  match o with
  | [] => JUndefined
  | (k', v) :: o' => if k' =? k then v else obj_get o' k
  end.

Fixpoint obj_has (o : Obj) (k : string) : bool :=
  match o with
  | [] => false
  | (k', _) :: o' => (k' =? k) || obj_has o' k
  end.

(** Defining the own property [k]: an existing key keeps its place and gets
    the new value, a new key goes last. *)
Fixpoint obj_set (o : Obj) (k : string) (v : JValue) : Obj :=
  match o with
  | [] => [(k, v)]
  | (k', v') :: o' =>
      if k' =? k then (k', v) :: o' else (k', v') :: obj_set o' k v
  end.

(** [{ ...a, ...b }] on the own properties of [b], left to right. *)
Definition obj_spread (a b : Obj) : Obj :=
  fold_left (fun acc kv => obj_set acc (fst kv) (snd kv)) b a.

(** An object literal [{ k1: v1, ..., kn: vn }] (later duplicates win). *)
Definition obj_literal (kvs : Obj) : Obj := obj_spread [] kvs.

(** [v?.k], and [v.k] where [v] is known not to be [undefined]/[null]:
    [undefined] unless [v] is an object with the own key.  The keys read
    this way are fixed names, none of them a member of a primitive wrapper
    or of [Object.prototype]. *)
Definition opt_get (v : JValue) (k : string) : JValue :=
  match v with
  | JObj o => obj_get o k
  | _ => JUndefined
  end.

(** [v.k]: throws a [TypeError] on [undefined]/[null], modelled by [None]. *)
Definition member (v : JValue) (k : string) : option JValue :=
  match v with
  | JUndefined | JNull => None
  | JObj o => Some (obj_get o k)
  | _ => Some JUndefined
  end.

(** Strict equality [v === "s"] against a string. *)
Definition str_eq (v : JValue) (s : string) : bool :=
  match v with
  | JStr s' => s' =? s
  | _ => false
  end.

(** The names every ordinary object inherits from [Object.prototype]. *)
Definition object_prototype_keys : list string :=
  [ "constructor"; "__defineGetter__"; "__defineSetter__"; "hasOwnProperty";
    "__lookupGetter__"; "__lookupSetter__"; "isPrototypeOf";
    "propertyIsEnumerable"; "toString"; "valueOf"; "__proto__";
    "toLocaleString" ].

Definition inherited (k : string) : bool :=
  existsb (String.eqb k) object_prototype_keys.

(** [String(Object.prototype[k])] for an inherited name [k]:
    [__proto__] reads the prototype object itself, [constructor] is the
    function [Object], every other name is a built-in function of that
    name. *)
Definition inherited_text (k : string) : string :=
  if k =? "__proto__" then "[object Object]"
  else if k =? "constructor" then "function Object() { [native code] }"
  else "function " ++ k ++ "() { [native code] }".

(** [o[k]] for a computed key: own properties first, then
    [Object.prototype]. *)
Definition obj_index (o : Obj) (k : string) : JValue :=
  if obj_has o k then obj_get o k
  else if inherited k then JNative (inherited_text k)
  else JUndefined.

(** [v[k]] where [v] is expected to be a dictionary.  The schema of the
    room lets only dictionaries (or nothing) through where the handlers index
    by a computed key; members of other values are not modelled and read as
    [undefined]. *)
Definition index (v : JValue) (k : string) : JValue :=
  match v with
  | JObj o => obj_index o k
  | _ => JUndefined
  end.

(** [String(v)], also what a template literal and a property key make of
    [v]; an array joins its elements with commas. *)
Fixpoint to_text (v : JValue) : string :=
  match v with
  | JUndefined => "undefined"
  | JNull => "null"
  | JBool true => "true"
  | JBool false => "false"
  | JNum n => NilZero.string_of_int (Z.to_int n)
  | JStr s => s
  | JArr items =>
      (fix join (l : list JValue) : string :=
         let elem x := match x with
                       | JUndefined | JNull => EmptyString
                       | _ => to_text x
                       end in
         match l with
         | [] => EmptyString
         | [x] => elem x
         | x :: l' => elem x ++ "," ++ join l'
         end) items
  | JObj _ => "[object Object]"
  | JNative text => text
  end.

End Js.
Import Js.

(* ===================================================================== *)
(** ** Template substitution ([processTemplate]) *)
(* ===================================================================== *)

Module Template.

(** The literal text the pattern [/\{\{miyagi-storage:([^}]+)\}\}/g] opens
    and closes with. *)
Definition placeholder_open : string := "{{miyagi-storage:".
Definition placeholder_close : string := "}}".

Definition close_brace : ascii := "}"%char.

(** [strip_prefix p s] is the rest of [s] after the literal [p], if [s]
    starts with it. *)
Fixpoint strip_prefix (p s : string) : option string :=
  match p, s with
  | EmptyString, _ => Some s
  | String a p', String b s' =>
      if Ascii.eqb a b then strip_prefix p' s' else None
  | String _ _, EmptyString => None
  end.

(** The greedy run of the capture group: the longest stretch of characters
    other than the closing brace, and what follows it. *)
Fixpoint take_key (s : string) : string * string :=
  match s with
  | EmptyString => (EmptyString, EmptyString)
  | String c s' =>
      if Ascii.eqb c close_brace then (EmptyString, s)
      else let (k, r) := take_key s' in (String c k, r)
  end.

(** One attempt of the pattern at the start of [s]: the captured key and
    the text after the match.  The group is greedy and needs one character
    at least; giving characters back cannot help, because the character
    after a shorter key is not a closing brace. *)
Definition match_here (s : string) : option (string * string) :=
  match strip_prefix placeholder_open s with
  | None => None
  | Some r =>
      let (k, r') := take_key r in
      if k =? "" then None
      else match strip_prefix placeholder_close r' with
           | None => None
           | Some rest => Some (k, rest)
           end
  end.

(** The replacement callback [(_, key) => context.miyagiStorage[key] || ''],
    whose result [replace] turns into text. *)
Record Context : Type := { widgetId : JValue; miyagiStorage : JValue }.

Definition replacement (context : Context) (key : string) : string :=
  to_text (js_or (index (miyagiStorage context) key) (JStr "")).

Definition inspect {A : Type} (a : A) : { b : A | a = b } := exist _ a eq_refl.

(** [String.prototype.replace] with a global pattern: scan from the left,
    on a match emit the replacement and go on after the match, otherwise
    copy one character and try again one position further. *)
Equations? replace_all (context : Context) (s : string) : string
  by wf (String.length s) lt :=
replace_all context EmptyString := EmptyString;
replace_all context (String c s') with inspect (match_here (String c s')) := {
  | exist _ (Some (k, rest)) _ => replacement context k ++ replace_all context rest
  | exist _ None _ => String c (replace_all context s')
}.
Proof.
  (* What is left after a match is shorter than the text matched. *)
  assert (strip : forall p s r, strip_prefix p s = Some r ->
                    String.length s = String.length p + String.length r).
  { induction p as [|a p IH]; intros s r H; simpl in *.
    - now inversion H.
    - destruct s as [|b s]; [discriminate|].
      destruct (Ascii.eqb a b); [|discriminate].
      simpl. now rewrite (IH _ _ H). }
  assert (take : forall s, String.length s
                   = String.length (fst (take_key s)) + String.length (snd (take_key s))).
  { induction s as [|a s IH]; simpl; [reflexivity|].
    destruct (Ascii.eqb a close_brace); simpl; [reflexivity|].
    destruct (take_key s) as [k' r']; simpl in *. now rewrite IH. }
  match goal with
  | H : match_here ?s = Some _ |- _ => revert H; unfold match_here;
      destruct (strip_prefix placeholder_open s) as [r|] eqn:Ho; [|discriminate];
      pose proof (take r) as Hk; destruct (take_key r) as [k' r'];
      destruct (k' =? ""); [discriminate|];
      destruct (strip_prefix placeholder_close r') as [rest'|] eqn:Hc; [|discriminate];
      intros H; inversion H; subst; clear H;
      apply strip in Ho, Hc; cbn [fst snd] in Hk;
      simpl in *; lia
  end.
Qed.

(** [processTemplate(htmlContent, context)]; [context.widgetId] is not
    read. *)
Definition processTemplate (htmlContent : string) (context : Context) : string :=
  replace_all context htmlContent.

(** *** The text as a reader of the spec sees it

    A text is a sequence of stretches of plain text and of placeholders of
    the storage namespace. *)
Inductive Piece : Type :=
| Text (t : string)
| Placeholder (key : string).

Definition render_piece (p : Piece) : string :=
  match p with
  | Text t => t
  | Placeholder key => placeholder_open ++ key ++ placeholder_close
  end.

Fixpoint render (ps : list Piece) : string :=
  match ps with
  | [] => EmptyString
  | p :: ps' => render_piece p ++ render ps'
  end.

Definition open_brace : ascii := "{"%char.

(** Plain text in which no placeholder can start, whatever follows it:
    every opening brace is followed by a character other than an opening
    brace. *)
Fixpoint quiet (t : string) : bool :=
  match t with
  | EmptyString => true
  | String c t' =>
      if Ascii.eqb c open_brace then
        match t' with
        | EmptyString => false
        | String c' _ => negb (Ascii.eqb c' open_brace) && quiet t'
        end
      else quiet t'
  end.

Fixpoint no_close (key : string) : bool :=
  match key with
  | EmptyString => true
  | String c key' => negb (Ascii.eqb c close_brace) && no_close key'
  end.

(** A key the pattern can capture: not empty, without a closing brace. *)
Definition is_key (key : string) : bool :=
  negb (key =? "") && no_close key.

Definition well_formed (p : Piece) : bool :=
  match p with
  | Text t => quiet t
  | Placeholder key => is_key key
  end.

(** The substitution in the words of the spec: a placeholder gives
    [storage[key]] when the key is present and the empty string when it is
    absent; plain text stays. *)
Definition spec_substitute (storage : Obj) (p : Piece) : string :=
  match p with
  | Text t => t
  | Placeholder key => if obj_has storage key then to_text (obj_get storage key) else ""
  end.

Fixpoint spec_substitute_all (storage : Obj) (ps : list Piece) : string :=
  match ps with
  | [] => EmptyString
  | p :: ps' => spec_substitute storage p ++ spec_substitute_all storage ps'
  end.

(** The keys that read the storage itself: own keys, and names the storage
    does not inherit. *)
Definition own_or_unknown (storage : Obj) (p : Piece) : bool :=
  match p with
  | Text _ => true
  | Placeholder key => obj_has storage key || negb (inherited key)
  end.

(** [s] holds a placeholder of the storage namespace somewhere. *)
Definition has_placeholder (s : string) : Prop :=
  exists before key after,
    s = before ++ placeholder_open ++ key ++ placeholder_close ++ after
    /\ is_key key = true.

(** The placeholder of [key] that follows [before] is the first one of the
    text: no placeholder of the text starts further left. *)
Definition leftmost (before key after : string) : Prop :=
  forall before' key' after',
    before ++ placeholder_open ++ key ++ placeholder_close ++ after
    = before' ++ placeholder_open ++ key' ++ placeholder_close ++ after' ->
    is_key key' = true ->
    String.length before <= String.length before'.

End Template.
Import Template.

(* ===================================================================== *)
(** ** The record store of a room *)
(* ===================================================================== *)

Module Room.

(** The records of a room in the order [getCurrentSnapshot().documents]
    lists them ([documents.map(doc => doc.state)]). *)
Definition Store : Type := list Obj.

Definition same_id (a b : JValue) : bool :=
  match a, b with
  | JStr x, JStr y => x =? y
  | _, _ => false
  end.

(** [store.put(record)] inside [room.updateStore]: the record replaces the
    one stored under its [id], or is added last.  This is the write of a
    record the store accepts; what it refuses is decided before the write,
    by the validator the creating handlers take as [validate]. *)
Fixpoint put (store : Store) (record : Obj) : Store :=
  match store with
  | [] => [record]
  | r :: store' =>
      if same_id (obj_get r "id") (obj_get record "id") then record :: store'
      else r :: put store' record
  end.

(** What a handler asks of the store. *)
Inductive Effect : Type :=
| NoWrite
| Put (record : Obj).

Definition apply_effect (store : Store) (e : Effect) : Store :=
  match e with
  | NoWrite => store
  | Put r => put store r
  end.

End Room.
Import Room.

(* ===================================================================== *)
(** ** The widget schema ([miyagiWidgetShapeSchema]) *)
(* ===================================================================== *)

Module Schema.

Definition is_number (v : JValue) : bool :=
  match v with JNum _ => true | _ => false end.

Definition is_string (v : JValue) : bool :=
  match v with JStr _ => true | _ => false end.

(** [T.optional(T.dict(T.string, T.string))] *)
Definition is_optional_string_dict (v : JValue) : bool :=
  match v with
  | JUndefined => true
  | JObj o => forallb (fun kv => is_string (snd kv)) o
  | _ => false
  end.

Definition widget_prop_names : list string :=
  [ "w"; "h"; "widgetId"; "templateId"; "htmlContent"; "color"; "miyagiStorage" ].

(** The [props] validator of a [miyagi-widget] shape: every declared
    property has its type and no other property is present. *)
Definition miyagiWidgetShapeSchema (props : JValue) : bool :=
  match props with
  | JObj o =>
      is_number (obj_get o "w") && is_number (obj_get o "h")
      && is_string (obj_get o "widgetId") && is_string (obj_get o "templateId")
      && is_string (obj_get o "htmlContent") && is_string (obj_get o "color")
      && is_optional_string_dict (obj_get o "miyagiStorage")
      && forallb (fun kv => existsb (String.eqb (fst kv)) widget_prop_names) o
  | _ => false
  end.

Definition is_widget (record : Obj) : bool :=
  str_eq (obj_get record "typeName") "shape"
  && str_eq (obj_get record "type") "miyagi-widget".

(** A store whose widget shapes passed the schema. *)
Definition store_ok (store : Store) : bool :=
  forallb (fun r => if is_widget r then miyagiWidgetShapeSchema (obj_get r "props")
                    else true) store.

End Schema.
Import Schema.

(* ===================================================================== *)
(** ** The tool handlers ([CanvasToolHandler]) *)
(* ===================================================================== *)

Module CanvasToolHandler.

(** What a handler's [try] block can throw. *)
Inductive Exn : Type :=
| MissingRoomId                (* [new Error('Missing roomId')] from [getRoom] *)
| TypeError                    (* a member read on [undefined]/[null], a call of a non-function *)
| Rejected (message : string). (* a rejected promise: [updateStore] on a record the store refuses *)

(** The responses a handler builds: the value given to [JSON.stringify] on
    success, [{ success: false, error }] with its status on a refusal, and
    the [catch] block's status 500 carrying the message of what was thrown. *)
Inductive Response : Type :=
| Ok (body : Obj)
| Failure (status : Z) (error : string)
| Caught (e : Exn).

(** The outcome of [await this.getRoom()], with the room shown by the
    records of its current snapshot. *)
Definition RoomResult : Type := (Exn + Store)%type.

(** [searchParams.get(name)]: a string or [null]. *)
Definition param (p : option string) : JValue :=
  match p with
  | Some s => JStr s
  | None => JNull
  end.

(** [s.split(',')] *)
Fixpoint split_comma (s : string) : list string :=
  match s with
  | EmptyString => [EmptyString]
  | String c s' =>
      if Ascii.eqb c ","%char then EmptyString :: split_comma s'
      else match split_comma s' with
           | [] => [String c EmptyString]
           | piece :: pieces => String c piece :: pieces
           end
  end.

(** [list.includes(v)] on a list of strings. *)
Definition includes (l : list string) (v : JValue) : bool :=
  match v with
  | JStr s => existsb (String.eqb s) l
  | _ => false
  end.

(** [!fields || fields.includes(name)] *)
Definition wants (fields : option (list string)) (name : string) : bool :=
  match fields with
  | None => true
  | Some l => includes l (JStr name)
  end.

Fixpoint traverse {A B : Type} (f : A -> option B) (l : list A) : option (list B) :=
  match l with
  | [] => Some []
  | a :: l' =>
      match f a with
      | None => None
      | Some b => match traverse f l' with
                  | None => None
                  | Some bs => Some (b :: bs)
                  end
      end
  end.

(** *** [handleGetPages] *)

Definition is_page (record : Obj) : bool :=
  str_eq (obj_get record "typeName") "page".

Definition page_entry (page : Obj) : Obj :=
  [ ("id", obj_get page "id");
    ("name", js_or (obj_get page "name") (JStr "Untitled"));
    ("index", obj_get page "index") ].

(** [pages[0]?.id] *)
Definition first_id (pages : list Obj) : JValue :=
  match pages with
  | [] => JUndefined
  | p :: _ => obj_get p "id"
  end.

Definition handleGetPages (room : RoomResult) : Response :=
  match room with
  | inl e => Caught e
  | inr store =>
      let allPages := filter is_page store in
      let pages := map page_entry allPages in
      Ok [ ("pages", JArr (map JObj pages));
           ("defaultPage", js_or (first_id pages) JNull) ]
  end.

(** *** [handleGetWidgets] *)

(** [!pageId || record.parentId === pageId] *)
Definition on_page (pageId : option string) (record : Obj) : bool :=
  negb (truthy (param pageId))
  || match pageId with
     | Some p => str_eq (obj_get record "parentId") p
     | None => false
     end.

Definition when (b : bool) (k : string) (v : JValue) (o : Obj) : Obj :=
  if b then obj_set o k v else o.

(** The body of [widgetShapes.map]; [shape.props.widgetId] throws when the
    shape has no [props]. *)
Definition widget_entry (fields : option (list string)) (shape : Obj) : option Obj :=
  let props := obj_get shape "props" in
  match member props "widgetId" with
  | None => None
  | Some widgetId =>
      let widget :=
        [ ("id", obj_get shape "id");
          ("widgetId", widgetId);
          ("templateId", opt_get props "templateId") ] in
      let widget := when (wants fields "htmlContent")
                      "htmlContent" (opt_get props "htmlContent") widget in
      let widget := when (wants fields "miyagiStorage")
                      "miyagiStorage" (js_or (opt_get props "miyagiStorage") (JObj [])) widget in
      let widget := when (wants fields "position")
                      "position" (JObj [ ("x", obj_get shape "x"); ("y", obj_get shape "y") ]) widget in
      let widget := when (wants fields "size")
                      "size" (JObj [ ("w", opt_get props "w"); ("h", opt_get props "h") ]) widget in
      let widget := when (wants fields "properties") "properties" props widget in
      Some widget
  end.

Definition select_widgets (pageId : option string) (ids : option (list string))
    (store : Store) : list Obj :=
  let widgetShapes := filter (fun record => is_widget record && on_page pageId record) store in
  match ids with
  | Some l =>
      if (0 <? List.length l)%nat
      then filter (fun shape => includes l (obj_get shape "id")) widgetShapes
      else widgetShapes
  | None => widgetShapes
  end.

Definition handleGetWidgets (pageId ids fields : option string) (room : RoomResult)
    : Response :=
  let ids := option_map split_comma ids in
  let fields := option_map split_comma fields in
  match room with
  | inl e => Caught e
  | inr store =>
      match traverse (widget_entry fields) (select_widgets pageId ids store) with
      | None => Caught TypeError
      | Some widgets =>
          Ok [ ("widgets", JArr (map JObj widgets));
               ("pageId", js_or (param pageId) (JStr "page:page")) ]
      end
  end.

(** *** The writing handlers *)

(** The own properties [{ ...v }] copies out of [v]; only objects are
    spread by the handlers on a room that passed the schema. *)
Definition own_props (v : JValue) : Obj :=
  match v with
  | JObj o => o
  | _ => []
  end.

Section Collaborators.

(** The canned markup of [getTemplateHtml] and [generateBasicWidget] is
    content that no handler looks into: both are parameters here.
    [generateBasicWidget] gives [None] when [prompt.toLowerCase] is not a
    function. *)
Variable getTemplateHtml : JValue -> JValue.
Variable generateBasicWidget : JValue -> option JValue.

(** [await room.updateStore(store => store.put(record))]: the store checks
    the record it is given against the schema of the room and throws on one
    it refuses, before anything is written.  The validators belong to the
    libraries the schema is built with: [validate record] is the message of
    what is thrown, if anything is. *)
Variable validate : Obj -> option string.

(** [generateId()] draws [rand] from [Math.random], [now] is [Date.now()]. *)
Variable rand : string.
Variable now : Z.

(** [handleAddWidget]; [room] is consulted after the [templateId] check. *)
Definition handleAddWidget (body : JValue) (room : RoomResult) : Response * Effect :=
  match member body "templateId" with
  | None => (Caught TypeError, NoWrite)
  | Some templateId =>
      let pageId := opt_get body "pageId" in
      let position := opt_get body "position" in
      let size := opt_get body "size" in
      if negb (truthy templateId) then (Failure 400 "Missing templateId", NoWrite)
      else match room with
      | inl e => (Caught e, NoWrite)
      | inr _ =>
          let shapeId := JStr ("shape:" ++ rand) in
          let widgetId := JStr (to_text templateId ++ "_" ++ to_text (JNum now)) in
          let targetPageId := js_or pageId (JStr "page:page") in
          let htmlContent := getTemplateHtml templateId in
          let newShape :=
            [ ("id", shapeId);
              ("typeName", JStr "shape");
              ("type", JStr "miyagi-widget");
              ("parentId", targetPageId);
              ("index", JStr "a1");
              ("x", js_or (opt_get position "x") (JNum 300));
              ("y", js_or (opt_get position "y") (JNum 200));
              ("rotation", JNum 0);
              ("isLocked", JBool false);
              ("opacity", JNum 1);
              ("meta", JObj []);
              ("props", JObj
                 [ ("w", js_or (opt_get size "w") (JNum 300));
                   ("h", js_or (opt_get size "h") (JNum 200));
                   ("widgetId", widgetId);
                   ("templateId", templateId);
                   ("htmlContent", htmlContent);
                   ("color", JStr "black");
                   ("miyagiStorage", JObj []) ]) ] in
          match validate newShape with
          | Some message => (Caught (Rejected message), NoWrite)
          | None =>
              (Ok [ ("success", JBool true);
                    ("shapeId", shapeId);
                    ("widgetId", widgetId);
                    ("templateId", templateId) ],
               Put newShape)
          end
      end
  end.

(** [handleGenerateWidget]; [room] is the outcome of [getRoom], which is
    only called when [autoAdd] is truthy. *)
Definition handleGenerateWidget (body : JValue) (room : RoomResult) : Response * Effect :=
  match member body "prompt" with
  | None => (Caught TypeError, NoWrite)
  | Some prompt =>
      let pageId := opt_get body "pageId" in
      let position := opt_get body "position" in
      let autoAdd := opt_get body "autoAdd" in
      if negb (truthy prompt) then (Failure 400 "Missing prompt", NoWrite)
      else match generateBasicWidget prompt with
      | None => (Caught TypeError, NoWrite)
      | Some htmlContent =>
          let templateId := JStr "generated-widget" in
          let result := [ ("htmlContent", htmlContent); ("templateId", templateId) ] in
          if truthy autoAdd then
            match room with
            | inl e => (Caught e, NoWrite)
            | inr _ =>
                let shapeId := JStr ("shape:" ++ rand) in
                let widgetId := JStr ("generated_" ++ to_text (JNum now)) in
                let targetPageId := js_or pageId (JStr "page:page") in
                let newShape :=
                  [ ("id", shapeId);
                    ("typeName", JStr "shape");
                    ("type", JStr "miyagi-widget");
                    ("parentId", targetPageId);
                    ("index", JStr "a1");
                    ("x", js_or (opt_get position "x") (JNum 400));
                    ("y", js_or (opt_get position "y") (JNum 300));
                    ("rotation", JNum 0);
                    ("isLocked", JBool false);
                    ("opacity", JNum 1);
                    ("meta", JObj []);
                    ("props", JObj
                       [ ("w", JNum 300);
                         ("h", JNum 200);
                         ("widgetId", widgetId);
                         ("templateId", templateId);
                         ("htmlContent", htmlContent);
                         ("color", JStr "black");
                         ("miyagiStorage", JObj []) ]) ] in
                match validate newShape with
                | Some message => (Caught (Rejected message), NoWrite)
                | None =>
                    (Ok (obj_set (obj_set result "shapeId" shapeId) "widgetId" widgetId),
                     Put newShape)
                end
            end
          else (Ok result, NoWrite)
      end
  end.

End Collaborators.

(** The predicate of [allRecords.find] in the handlers that address one
    widget. *)
Definition is_widget_with_id (shapeId : string) (record : Obj) : bool :=
  str_eq (obj_get record "id") shapeId
  && str_eq (obj_get record "typeName") "shape"
  && str_eq (obj_get record "type") "miyagi-widget".

Definition not_found (shapeId : string) : Response :=
  Failure 404 ("Widget shape not found: " ++ shapeId).

(** The [updatedShape] of [handleEditWidgetHtml]:
    [{ ...shape, props: { ...shape.props, htmlContent, miyagiStorage } }]. *)
Definition updatedShape (shape : Obj) (processedHtml : string) (preserveStorage : JValue)
    : Obj :=
  let props := obj_get shape "props" in
  obj_set shape "props"
    (JObj (obj_set (obj_set (own_props props) "htmlContent" (JStr processedHtml))
             "miyagiStorage"
             (if truthy preserveStorage then opt_get props "miyagiStorage" else JObj []))).

(** [handleEditWidgetHtml]; [shapeId] is the route parameter.  The record
    it writes is one the store holds, with a string for content and the
    storage it had or an empty one. *)
Definition handleEditWidgetHtml (shapeId : string) (body : JValue) (room : RoomResult)
    : Response * Effect :=
  match member body "htmlContent" with
  | None => (Caught TypeError, NoWrite)
  | Some htmlContent =>
      let preserveStorage := opt_get body "preserveStorage" in
      if negb (truthy htmlContent) then (Failure 400 "Missing htmlContent", NoWrite)
      else match room with
      | inl e => (Caught e, NoWrite)
      | inr store =>
          match find (is_widget_with_id shapeId) store with
          | None => (not_found shapeId, NoWrite)
          | Some shape =>
              if negb (str_eq (obj_get shape "type") "miyagi-widget")
              then (not_found shapeId, NoWrite)
              else
                let props := obj_get shape "props" in
                match member props "widgetId", htmlContent with
                | Some widgetId, JStr html =>
                    let processedHtml :=
                      processTemplate html
                        {| widgetId := widgetId;
                           miyagiStorage := js_or (opt_get props "miyagiStorage") (JObj []) |} in
                    (Ok [ ("success", JBool true); ("processedHtml", JStr processedHtml) ],
                     Put (updatedShape shape processedHtml preserveStorage))
                | _, _ => (Caught TypeError, NoWrite)
                end
          end
      end
  end.

(** *** What the properties below speak of *)

(** The records [select_widgets] keeps. *)
Definition selected (pageId : option string) (ids : option (list string)) (r : Obj) : bool :=
  is_widget r
  && match pageId with
     | Some p => (p =? "") || str_eq (obj_get r "parentId") p
     | None => true
     end
  && match ids with
     | Some l => includes l (obj_get r "id")
     | None => true
     end.

(** The entry built for a shape whose [props] is an object. *)
Definition entry_of (fields : option (list string)) (shape props : Obj) : Obj :=
  let widget :=
    [ ("id", obj_get shape "id");
      ("widgetId", obj_get props "widgetId");
      ("templateId", obj_get props "templateId") ] in
  let widget := when (wants fields "htmlContent") "htmlContent" (obj_get props "htmlContent") widget in
  let widget := when (wants fields "miyagiStorage") "miyagiStorage"
                  (js_or (obj_get props "miyagiStorage") (JObj [])) widget in
  let widget := when (wants fields "position") "position"
                  (JObj [ ("x", obj_get shape "x"); ("y", obj_get shape "y") ]) widget in
  let widget := when (wants fields "size") "size"
                  (JObj [ ("w", obj_get props "w"); ("h", obj_get props "h") ]) widget in
  when (wants fields "properties") "properties" (JObj props) widget.

(** The names every listed widget carries, and the projections [fields]
    chooses from. *)
Definition always_listed : list string := [ "id"; "widgetId"; "templateId" ].

Definition optional_projections : list string :=
  [ "htmlContent"; "miyagiStorage"; "position"; "size"; "properties" ].

(** The store after a call of a writing handler on it. *)
Definition after (store : Store) (call : RoomResult -> Response * Effect) : Store :=
  apply_effect store (snd (call (inr store))).

End CanvasToolHandler.
Import CanvasToolHandler.

(* ===================================================================== *)
(** ** The durable object: [getRoom] *)
(* ===================================================================== *)

Module TldrawDurableObject.

(** The state of the promise [getRoom] memoizes; a room instance is known
    by the rank of its creation. *)
Inductive Settled : Type :=
| Pending
| Fulfilled (room : nat)
| Failed (message : string).

(** The fields [getRoom] reads and writes, the promises created so far (a
    promise is known by its position) and two counters of what the
    construction sequence did: reads of the bucket and rooms created. *)
Record State : Type := {
  roomId : option string;
  roomPromise : option nat;
  promises : list Settled;
  loads : nat;
  rooms : nat
}.

(** After the constructor: [roomId] is what storage held, nothing is
    loaded. *)
Definition init (stored : option string) : State :=
  {| roomId := stored; roomPromise := None; promises := []; loads := 0; rooms := 0 |}.

(** [!this.roomId] *)
Definition unbound (s : State) : bool :=
  negb (truthy (param (roomId s))).

(** A call [getRoom()]: it throws, or returns the memoized promise, which
    it first creates when there is none.  Creating it runs the async body up
    to its first [await], the read of the bucket. *)
Definition getRoom (s : State) : (Exn + nat) * State :=
  if unbound s then (inl MissingRoomId, s)
  else match roomPromise s with
       | Some p => (inr p, s)
       | None =>
           let p := List.length (promises s) in
           (inr p,
            {| roomId := roomId s;
               roomPromise := Some p;
               promises := (promises s ++ [Pending])%list;
               loads := S (loads s);
               rooms := rooms s |})
       end.

(** How the read of the bucket (and of the snapshot it found) ends. *)
Inductive Load : Type :=
| Found       (* a prior snapshot: [initialSnapshot] is its JSON *)
| Absent      (* no object under the key: a new empty room *)
| Broken (message : string).  (* the read or the parse rejected *)

Fixpoint settle (promises : list Settled) (p : nat) (v : Settled) : list Settled :=
  match promises, p with
  | [], _ => []
  | Pending :: rest, O => v :: rest
  | done :: rest, O => done :: rest
  | x :: rest, S p' => x :: settle rest p' v
  end.

Definition is_pending (promises : list Settled) (p : nat) : bool :=
  match nth_error promises p with
  | Some Pending => true
  | _ => false
  end.

(** The rest of the async body of promise [p], run when its read ends: a
    room is created and fulfils the promise, or the promise rejects.  A body
    runs once, so nothing happens for a promise that is not pending. *)
Definition resume (s : State) (p : nat) (l : Load) : State :=
  if is_pending (promises s) p then
    match l with
    | Broken m =>
        {| roomId := roomId s; roomPromise := roomPromise s;
           promises := settle (promises s) p (Failed m);
           loads := loads s; rooms := rooms s |}
    | _ =>
        {| roomId := roomId s; roomPromise := roomPromise s;
           promises := settle (promises s) p (Fulfilled (S (rooms s)));
           loads := loads s; rooms := S (rooms s) |}
    end
  else s.

(** The connect route: [if (!this.roomId) this.roomId = request.params.roomId]. *)
Definition bind (s : State) (r : string) : State :=
  if unbound s then
    {| roomId := Some r; roomPromise := roomPromise s; promises := promises s;
       loads := loads s; rooms := rooms s |}
  else s.

(** What happens to the object, in the order the host runs it. *)
Inductive Event : Type :=
| Connect (r : string)
| CallGetRoom
| Resume (p : nat) (l : Load).

(** What a call of [getRoom] gave its caller. *)
Inductive Output : Type :=
| Threw (e : Exn)
| Returned (p : nat).

Definition step (s : State) (e : Event) : State * list Output :=
  match e with
  | Connect r => (bind s r, [])
  | CallGetRoom =>
      match getRoom s with
      | (inl e, s') => (s', [Threw e])
      | (inr p, s') => (s', [Returned p])
      end
  | Resume p l => (resume s p l, [])
  end.

Fixpoint run (s : State) (es : list Event) : State * list Output :=
  match es with
  | [] => (s, [])
  | e :: es' =>
      let (s1, o1) := step s e in
      let (s2, o2) := run s1 es' in
      (s2, (o1 ++ o2)%list)
  end.

(** What [await p] gives in state [s]. *)
Definition awaited (s : State) (p : nat) : Settled :=
  nth p (promises s) Pending.

(** What holds of the object however it got to its state: nothing was
    constructed, or one construction was started by a bound object and is
    pending, has given the first room, or has failed. *)
Definition constructed_once (s : State) : Prop :=
  (roomPromise s = None /\ promises s = [] /\ loads s = 0 /\ rooms s = 0)
  \/ (roomPromise s = Some 0 /\ loads s = 1 /\ unbound s = false
      /\ ((promises s = [Pending] /\ rooms s = 0)
          \/ (promises s = [Fulfilled 1] /\ rooms s = 1)
          \/ (exists m, promises s = [Failed m] /\ rooms s = 0))).

End TldrawDurableObject.

(* ===================================================================== *)
(** ** Throttled persistence ([schedulePersistToR2]) *)
(* ===================================================================== *)

Module Persistence.

(** The interval given to [throttle], in milliseconds ([10_000]). *)
Definition wait : Z := 10000.

(** Modelled from the spec: [throttle] is imported from [lodash.throttle],
    whose code is not among the sources.  The spec gives it as the standard
    throttle with both edges: the first call in a window fires at once, the
    calls that follow within the window coalesce into one trailing call at
    window end.  It is written out the way the library does it, as its
    [debounce] with [leading], [trailing] and [maxWait] equal to [wait]:
    [timerId] is the time the armed timer is due at, [lastArgs] says that a
    call has come since the last invocation, [lastCallTime] and
    [lastInvokeTime] are the times of the last call and of the last
    invocation. *)
Record Throttle : Type := {
  timerId : option Z;
  lastArgs : bool;
  lastCallTime : option Z;
  lastInvokeTime : Z
}.

Definition idle : Throttle :=
  {| timerId := None; lastArgs := false; lastCallTime := None; lastInvokeTime := 0 |}.

(** [shouldInvoke(time)]: the first call, a call [wait] after the last
    call, a clock that went back, or [maxWait] after the last invocation. *)
Definition shouldInvoke (th : Throttle) (time : Z) : bool :=
  match lastCallTime th with
  | None => true
  | Some called =>
      (wait <=? time - called)%Z
      || (time - called <? 0)%Z
      || (wait <=? time - lastInvokeTime th)%Z
  end.

(** [remainingWait(time)]; it is asked for after a call only. *)
Definition remainingWait (th : Throttle) (time : Z) : Z :=
  match lastCallTime th with
  | Some called =>
      Z.min (wait - (time - called)) (wait - (time - lastInvokeTime th))
  | None => 0%Z
  end.

(** A call of the throttled function at [time]: the new state, and whether
    the function is invoked now.  A call that is to invoke does so on the
    leading edge when no timer is armed, and else re-arms the timer; either
    way a timer of [wait] runs from it.  Another call arms a timer when none
    is armed and waits for it. *)
Definition call (th : Throttle) (time : Z) : Throttle * bool :=
  if shouldInvoke th time then
    match timerId th with
    | None =>
        ({| timerId := Some (time + wait)%Z; lastArgs := false;
            lastCallTime := Some time; lastInvokeTime := time |}, true)
    | Some _ =>
        ({| timerId := Some (time + wait)%Z; lastArgs := false;
            lastCallTime := Some time; lastInvokeTime := time |}, true)
    end
  else
    match timerId th with
    | None =>
        ({| timerId := Some (time + wait)%Z; lastArgs := true;
            lastCallTime := Some time; lastInvokeTime := lastInvokeTime th |}, false)
    | Some due =>
        ({| timerId := Some due; lastArgs := true;
            lastCallTime := Some time; lastInvokeTime := lastInvokeTime th |}, false)
    end.

(** [timerExpired] at [time]: the trailing edge, which invokes the function
    if a call is waiting, or a timer armed anew for the wait that remains. *)
Definition expire (th : Throttle) (time : Z) : Throttle * bool :=
  if shouldInvoke th time then
    ({| timerId := None; lastArgs := false; lastCallTime := lastCallTime th;
        lastInvokeTime := if lastArgs th then time else lastInvokeTime th |},
     lastArgs th)
  else
    ({| timerId := Some (time + remainingWait th time)%Z; lastArgs := lastArgs th;
        lastCallTime := lastCallTime th; lastInvokeTime := lastInvokeTime th |},
     false).

(** The room, its throttle and the bucket: [bound] says that [roomPromise]
    and [roomId] are set, [reading] counts the invocations of the running
    task that await [getRoom], [saved] lists every [r2.put] with its time and
    the snapshot it wrote. *)
Record World : Type := {
  bound : bool;
  room : Store;
  throttle : Throttle;
  reading : nat;
  saved : list (Z * Store)
}.

(** A room that was constructed: both fields are set. *)
Definition start (store : Store) : World :=
  {| bound := true; room := store; throttle := idle; reading := 0; saved := [] |}.

(** The throttled function is invoked:
    [if (!this.roomPromise || !this.roomId) return], then
    [await this.getRoom()].  What follows the [await] runs when the running
    task has come to its end. *)
Definition invoke (w : World) : World :=
  if bound w then
    {| bound := bound w; room := room w; throttle := throttle w;
       reading := S (reading w); saved := saved w |}
  else w.

(** The running task ends at [time]: each invocation that awaits reads
    [room.getCurrentSnapshot()] now and puts it under the room's key. *)
Definition end_task (w : World) (time : Z) : World :=
  {| bound := bound w; room := room w; throttle := throttle w; reading := 0;
     saved := (saved w ++ repeat (time, room w) (reading w))%list |}.

(** The armed timer fires, in a task of its own at the time it is due. *)
Definition fire (w : World) : World :=
  match timerId (throttle w) with
  | None => w
  | Some due =>
      let (th, invoked) := expire (throttle w) due in
      let w' := {| bound := bound w; room := room w; throttle := th;
                   reading := reading w; saved := saved w |} in
      end_task (if invoked then invoke w' else w') due
  end.

Definition due_by (w : World) (time : Z) : bool :=
  match timerId (throttle w) with
  | Some due => (due <=? time)%Z
  | None => false
  end.

(** Time reaches [time]: a timer due by then has fired, and so has the one
    it armed anew, if that is due by then; the second never arms a third. *)
Definition advance (w : World) (time : Z) : World :=
  let w := if due_by w time then fire w else w in
  if due_by w time then fire w else w.

(** A mutation made by the running task at [time] leaves the records
    [store'] and raises [onDataChange], which calls the throttled
    function. *)
Definition notify (time : Z) (w : World) (store' : Store) : World :=
  let (th, invoked) := call (throttle w) time in
  let w' := {| bound := bound w; room := store'; throttle := th;
               reading := reading w; saved := saved w |} in
  if invoked then invoke w' else w'.

(** A task: the time it runs at and the states its mutations leave, one
    after the other, before the running code yields. *)
Definition Task : Type := (Z * list Store)%type.

Definition task (w : World) (k : Task) : World :=
  let (time, mutations) := k in
  end_task (fold_left (notify time) mutations (advance w time)) time.

(** No further task comes: the timers fire when they are due. *)
Definition drain (w : World) : World := fire (fire w).

Definition run (w : World) (tasks : list Task) : World :=
  drain (fold_left task tasks w).

(** *** What the properties below speak of *)

(** The saves made at time [t]. *)
Definition saves_at (t : Z) (w : World) : list Store :=
  map snd (filter (fun s => (fst s =? t)%Z) (saved w)).

(** The states the mutations of [tasks] leave, in order. *)
Definition mutations (tasks : list Task) : list Store :=
  concat (map snd tasks).

(** The tasks come in the order of their times, none before [time]. *)
Fixpoint in_order (time : Z) (tasks : list Task) : Prop :=
  match tasks with
  | [] => True
  | k :: rest => (time <= fst k)%Z /\ in_order (fst k) rest
  end.

(** The tasks fall inside the window opened at [t0]. *)
Definition within (t0 : Z) (tasks : list Task) : Prop :=
  in_order t0 tasks /\ Forall (fun k => (fst k < t0 + wait)%Z) tasks.

(** A call at [t0] is a leading edge: the room is constructed, nothing
    awaits, no timer is armed and the throttle is to invoke. *)
Definition ready (w : World) (t0 : Z) : Prop :=
  bound w = true /\ reading w = 0 /\ timerId (throttle w) = None
  /\ shouldInvoke (throttle w) t0 = true.

(** The throttle inside the window opened at [t0], last called at
    [called]. *)
Definition opened (t0 called : Z) (waiting : bool) : Throttle :=
  {| timerId := Some (t0 + wait)%Z; lastArgs := waiting;
     lastCallTime := Some called; lastInvokeTime := t0 |}.

End Persistence.

(* ===================================================================== *)
(** ** A small room *)
(* ===================================================================== *)

Module Sample.

Definition page1 : Obj :=
  [ ("id", JStr "page:p1"); ("typeName", JStr "page"); ("name", JStr "Page 1");
    ("index", JStr "a1"); ("meta", JObj []) ].

Definition page2 : Obj :=
  [ ("id", JStr "page:p2"); ("typeName", JStr "page"); ("index", JStr "a2");
    ("meta", JObj []) ].

Definition widget (id parent wid template html : string) (storage : JValue) : Obj :=
  [ ("id", JStr id); ("typeName", JStr "shape"); ("type", JStr "miyagi-widget");
    ("parentId", JStr parent); ("index", JStr "a1"); ("x", JNum 10); ("y", JNum 20);
    ("rotation", JNum 0); ("isLocked", JBool false); ("opacity", JNum 1);
    ("meta", JObj []);
    ("props", JObj [ ("w", JNum 300); ("h", JNum 200); ("widgetId", JStr wid);
                     ("templateId", JStr template); ("htmlContent", JStr html);
                     ("color", JStr "black"); ("miyagiStorage", storage) ]) ].

Definition widget1 : Obj :=
  widget "shape:w1" "page:p1" "timer_1" "timer" "<p>old</p>" (JObj [("name", JStr "Ann")]).

Definition widget2 : Obj :=
  widget "shape:w2" "page:p2" "notepad_2" "notepad" "<p>note</p>" (JObj []).

(** A shape that is not a widget. *)
Definition arrow : Obj :=
  [ ("id", JStr "shape:a1"); ("typeName", JStr "shape"); ("type", JStr "arrow");
    ("parentId", JStr "page:p1"); ("index", JStr "a2"); ("x", JNum 0); ("y", JNum 0);
    ("props", JObj []) ].

Definition store : Store := [ page1; widget1; arrow; page2; widget2 ].

(** A validator for the examples: it refuses a widget whose properties
    fail the schema, and nothing else. *)
Definition validate (record : Obj) : option string :=
  if is_widget record && negb (miyagiWidgetShapeSchema (obj_get record "props"))
  then Some "ValidationError" else None.

End Sample.

(* ===================================================================== *)
(** ** The canned markup ([getTemplateHtml], [generateBasicWidget]) *)
(* ===================================================================== *)

Module Markup.

(** The double quote of the attribute values. *)
Definition dq : string := String (Ascii.ascii_of_nat 34) EmptyString.

Definition timer_markup : string :=
  "<div style=" ++ dq ++ "padding: 20px; background: #f0f0f0; border-radius: 8px;" ++
  dq ++ "><h3>Timer Widget</h3><div>00:00</div></div>".

Definition notepad_markup : string :=
  "<div style=" ++ dq ++
  "padding: 20px; background: #fff; border: 1px solid #ddd; border-radius: 8px;" ++ dq ++
  "><h3>Notepad</h3><textarea style=" ++ dq ++
  "width: 100%; height: 100px; border: none; resize: none;" ++ dq ++ " placeholder=" ++
  dq ++ "{{miyagi-storage:notepad-content}}" ++ dq ++ "></textarea></div>".

Definition clock_markup : string :=
  "<div style=" ++ dq ++
  "padding: 20px; background: #333; color: white; border-radius: 8px; text-align: center;" ++
  dq ++ "><h3>Clock</h3><div id=" ++ dq ++ "clock-time" ++ dq ++
  ">12:00 PM</div></div>".

Definition weather_markup : string :=
  "<div style=" ++ dq ++
  "padding: 20px; background: linear-gradient(135deg, #74b9ff, #0984e3); color: white; border-radius: 8px;" ++
  dq ++ "><h3>Weather</h3><div>Sunny, 72Â°F</div></div>".

(** The generic markup, with the identifier as its heading. *)
Definition fallback_markup (templateId : string) : string :=
  "<div style=" ++ dq ++ "padding: 20px; background: #f8f9fa; border-radius: 8px;" ++
  dq ++ "><h3>" ++
  templateId ++ "</h3><p>Widget content</p></div>".

(** The object literal [templates]. *)
Definition templates : Obj :=
  [ ("timer", JStr timer_markup);
    ("notepad", JStr notepad_markup);
    ("clock", JStr clock_markup);
    ("weather", JStr weather_markup) ].

(** [getTemplateHtml(templateId)]: [templates[templateId] || fallback], the
    key being what [templateId] converts to. *)
Definition getTemplateHtml (templateId : JValue) : JValue :=
  js_or (obj_index templates (to_text templateId))
        (JStr (fallback_markup (to_text templateId))).

Definition calculator_markup : string :=
  "<div style=" ++ dq ++ "padding: 20px; background: #f8f9fa; border-radius: 8px;" ++
  dq ++ "><h3>Calculator</h3><div style=" ++ dq ++
  "display: grid; grid-template-columns: repeat(4, 1fr); gap: 5px; margin-top: 10px;" ++
  dq ++ "><button>7</button><button>8</button><button>9</button><button>/</button>" ++
  "<button>4</button><button>5</button><button>6</button><button>*</button>" ++
  "<button>1</button><button>2</button><button>3</button><button>-</button>" ++
  "<button>0</button><button>.</button><button>=</button><button>+</button>" ++
  "</div></div>".

Definition todo_markup : string :=
  "<div style=" ++ dq ++ "padding: 20px; background: #f8f9fa; border-radius: 8px;" ++
  dq ++ "><h3>Todo List</h3><div><input type=" ++ dq ++ "checkbox" ++ dq ++
  "> Task 1</div><div><input type=" ++ dq ++ "checkbox" ++ dq ++
  "> Task 2</div><div><input type=" ++ dq ++ "checkbox" ++ dq ++
  "> Task 3</div></div>".

Definition generic_markup (prompt : string) : string :=
  "<div style=" ++ dq ++ "padding: 20px; background: #f8f9fa; border-radius: 8px;" ++
  dq ++ "><h3>Generated Widget</h3><p>" ++
  prompt ++ "</p></div>".

Definition starts_with (p s : string) : bool :=
  match strip_prefix p s with
  | Some _ => true
  | None => false
  end.

(** [hay.includes(needle)] *)
Fixpoint contains (needle hay : string) : bool :=
  starts_with needle hay
  || match hay with
     | EmptyString => false
     | String _ hay' => contains needle hay'
     end.

Section Lowercase.

(** [String.prototype.toLowerCase], a built-in taken as it is. *)
Variable toLowerCase : string -> string.

(** [generateBasicWidget(prompt)]; a prompt that is not a string has no
    [toLowerCase] to call, which throws ([None]). *)
Definition generateBasicWidget (prompt : JValue) : option JValue :=
  match prompt with
  | JStr p =>
      let lowerPrompt := toLowerCase p in
      if contains "calculator" lowerPrompt then Some (JStr calculator_markup)
      else if contains "todo" lowerPrompt || contains "task" lowerPrompt
           then Some (JStr todo_markup)
           else Some (JStr (generic_markup p))
  | _ => None
  end.

End Lowercase.

End Markup.

(* ===================================================================== *)
(** ** The durable object: connections, storage and restarts *)
(* ===================================================================== *)

Module Connection.

Import TldrawDurableObject.

(** The object together with what outlives it: [storage] is the ['roomId']
    entry of [ctx.storage]; [pairs] counts the [WebSocketPair]s created. *)
Record Hosted : Type := {
  object : State;
  storage : option string;
  pairs : nat
}.

(** The constructor: [roomId] is read from storage. *)
Definition construct (stored : option string) : Hosted :=
  {| object := init stored; storage := stored; pairs := 0 |}.

(** How [handleConnect] leaves its caller at the end of its synchronous
    part. *)
Inductive Reply : Type :=
| Refused (status : Z) (message : string)  (* [error(400, 'Missing userId')] *)
| Suspended (p : nat)  (* awaiting promise [p]; then the socket joins the room, status 101 *)
| Escaped (e : Exn).   (* thrown to the router's [catch] *)

(** [handleConnect(request)] up to [await this.getRoom()]; [userId] is
    [request.query.userId]. *)
Definition handleConnect (h : Hosted) (userId : option string) : Hosted * Reply :=
  if negb (truthy (param userId)) then (h, Refused 400 "Missing userId")
  else
    let pairs' := S (pairs h) in
    match getRoom (object h) with
    | (inl e, s) => ({| object := s; storage := storage h; pairs := pairs' |}, Escaped e)
    | (inr p, s) => ({| object := s; storage := storage h; pairs := pairs' |}, Suspended p)
    end.

(** The route [/api/connect/:roomId]: an object without a room identifier
    stores the one of the request and takes it, then the connection is
    handled. *)
Definition connect_route (h : Hosted) (roomIdParam : string) (userId : option string)
    : Hosted * Reply :=
  let h :=
    if unbound (object h)
    then {| object := bind (object h) roomIdParam;
            storage := Some roomIdParam;
            pairs := pairs h |}
    else h in
  handleConnect h userId.

(** A canvas tool route whose handler comes to [await this.getRoom()]. *)
Definition tool_route (h : Hosted) : Hosted * (Exn + nat) :=
  let (r, s) := getRoom (object h) in
  ({| object := s; storage := storage h; pairs := pairs h |}, r).

(** What reaches the hosted object; [Restart] is the host discarding the
    object and constructing it anew over the same storage. *)
Inductive Request : Type :=
| ConnectTo (roomIdParam : string) (userId : option string)
| Tool
| Loaded (p : nat) (l : Load)
| Restart.

Definition serve (h : Hosted) (r : Request) : Hosted :=
  match r with
  | ConnectTo roomIdParam userId => fst (connect_route h roomIdParam userId)
  | Tool => fst (tool_route h)
  | Loaded p l => {| object := resume (object h) p l; storage := storage h; pairs := pairs h |}
  | Restart => construct (storage h)
  end.

Definition serve_all (h : Hosted) (rs : list Request) : Hosted :=
  fold_left serve rs h.

End Connection.

(* ===================================================================== *)
(** ** The durable object: the canvas tool routes *)
(* ===================================================================== *)

Module Routes.

(** What a tool route reads of its request: the query parameters, the
    [:shapeId] parameter of the path (of the routes that have one) and the
    JSON body. *)
Record ToolRequest : Type := {
  pageId : option string;
  ids : option string;
  fields : option string;
  shapeId : string;
  json : JValue
}.

Section Handler.

Variable getTemplateHtml : JValue -> JValue.
Variable generateBasicWidget : JValue -> option JValue.
Variable validate : Obj -> option string.
Variable rand : string.
Variable now : Z.

(** [this.canvasToolHandler[name]] as a handler of requests: the methods of
    that kind that the class [CanvasToolHandler] declares, by name.  It
    declares these five; its other members (the helpers and [getRoom]) are
    named by no route. *)
Definition method (name : string)
    : option (ToolRequest -> RoomResult -> Response * Effect) :=
  if name =? "handleGetPages" then
    Some (fun _ room => (handleGetPages room, NoWrite))
  else if name =? "handleGetWidgets" then
    Some (fun q room => (handleGetWidgets (pageId q) (ids q) (fields q) room, NoWrite))
  else if name =? "handleAddWidget" then
    Some (fun q => handleAddWidget getTemplateHtml validate rand now (json q))
  else if name =? "handleEditWidgetHtml" then
    Some (fun q => handleEditWidgetHtml (shapeId q) (json q))
  else if name =? "handleGenerateWidget" then
    Some (fun q => handleGenerateWidget generateBasicWidget validate rand now (json q))
  else None.

(** The canvas tool routes of the router, and the method each one calls. *)
Inductive Route : Type :=
| GetPages | GetWidgets | AddWidget | EditWidget | UpdateStorage | GenerateWidget.

Definition target (r : Route) : string :=
  match r with
  | GetPages => "handleGetPages"
  | GetWidgets => "handleGetWidgets"
  | AddWidget => "handleAddWidget"
  | EditWidget => "handleEditWidgetHtml"
  | UpdateStorage => "handleUpdateWidgetStorage"
  | GenerateWidget => "handleGenerateWidget"
  end.

(** What a route gives: the answer of the handler it reached, or what the
    call threw, which the [catch] of the router answers with [error(e)],
    status 500. *)
Inductive Outcome : Type :=
| Handled (answer : Response) (effect : Effect)
| Thrown (e : Exn).

(** [return this.canvasToolHandler.m(request)]: the call of a member that
    is not there is the call of [undefined], a [TypeError]. *)
Definition route (r : Route) (q : ToolRequest) (room : RoomResult) : Outcome :=
  match method (target r) with
  | Some handle => let (answer, effect) := handle q room in Handled answer effect
  | None => Thrown TypeError
  end.

End Handler.

(** The store that a route leaves. *)
Definition left_by (store : Store) (o : Outcome) : Store :=
  match o with
  | Handled _ effect => apply_effect store effect
  | Thrown _ => store
  end.

End Routes.

(* ===================================================================== *)
(** ** What the further properties speak of *)
(* ===================================================================== *)

(** No record of the store is stored under the identifier [id]. *)
Definition fresh (id : string) (store : Store) : bool :=
  forallb (fun r => negb (str_eq (obj_get r "id") id)) store.

(** No page of the store is stored under the identifier [id]. *)
Definition page_free (id : string) (store : Store) : bool :=
  forallb (fun r => negb (is_page r && str_eq (obj_get r "id") id)) store.

(** The requests that reach the connect route, and the restarts. *)
Definition is_connect (r : Connection.Request) : bool :=
  match r with
  | Connection.ConnectTo _ _ => true
  | _ => false
  end.

Definition is_restart (r : Connection.Request) : bool :=
  match r with
  | Connection.Restart => true
  | _ => false
  end.

(** What a failed load leaves: a bound object whose memoized promise [p]
    rejected with [m], the bucket read [n] times. *)
Definition load_failed (h : Connection.Hosted) (p : nat) (m : string) (n : nat) : Prop :=
  TldrawDurableObject.unbound (Connection.object h) = false
  /\ TldrawDurableObject.roomPromise (Connection.object h) = Some p
  /\ TldrawDurableObject.awaited (Connection.object h) p = TldrawDurableObject.Failed m
  /\ TldrawDurableObject.loads (Connection.object h) = n.

(* ===================================================================== *)
(** * Properties *)
(* ===================================================================== *)

(** ** Objects and the store *)

Section ObjectFacts.

Lemma obj_get_set_same (o : Obj) (k : string) (v : JValue) :
  obj_get (obj_set o k v) k = v.
Proof.
  induction o as [|[k' v'] o IH]; simpl.
  - now rewrite String.eqb_refl.
  - destruct (k' =? k) eqn:E; simpl; rewrite E; auto.
Qed.

Lemma obj_get_set_other (o : Obj) (k k0 : string) (v : JValue) :
  k0 <> k -> obj_get (obj_set o k v) k0 = obj_get o k0.
Proof.
  intros Hk. induction o as [|[k' v'] o IH]; simpl.
  - destruct (k =? k0) eqn:E; [apply String.eqb_eq in E; congruence | reflexivity].
  - destruct (k' =? k) eqn:E; simpl.
    + apply String.eqb_eq in E; subst k'.
      destruct (k =? k0) eqn:E0; [apply String.eqb_eq in E0; congruence | reflexivity].
    + destruct (k' =? k0); auto.
Qed.

Lemma obj_has_set_same (o : Obj) (k : string) (v : JValue) :
  obj_has (obj_set o k v) k = true.
Proof.
  induction o as [|[k' v'] o IH]; simpl.
  - now rewrite String.eqb_refl.
  - destruct (k' =? k) eqn:E; simpl; rewrite E; auto.
Qed.

Lemma obj_has_set_other (o : Obj) (k k0 : string) (v : JValue) :
  k0 <> k -> obj_has (obj_set o k v) k0 = obj_has o k0.
Proof.
  intros Hk. induction o as [|[k' v'] o IH]; simpl.
  - destruct (k =? k0) eqn:E; [apply String.eqb_eq in E; congruence | reflexivity].
  - destruct (k' =? k) eqn:E; simpl.
    + reflexivity.
    + now rewrite IH.
Qed.

Lemma obj_get_absent (o : Obj) (k : string) :
  obj_has o k = false -> obj_get o k = JUndefined.
Proof.
  induction o as [|[k' v'] o IH]; simpl; [reflexivity|].
  destruct (k' =? k); simpl; [discriminate | exact IH].
Qed.

(** What a key reads after [{ ...a, ...b }]: the value [b] gives it, if [b]
    has the key, and the value of [a] otherwise. *)
Lemma obj_get_spread (a b : Obj) (k : string) :
  obj_get (obj_spread a b) k = if obj_has b k then obj_get (obj_spread [] b) k else obj_get a k.
Proof.
  unfold obj_spread. revert a.
  induction b as [|[kb vb] b IH]; intros a; cbn [fold_left obj_has fst snd].
  - reflexivity.
  - rewrite (IH (obj_set a kb vb)), (IH (obj_set [] kb vb)).
    destruct (obj_has b k).
    + now rewrite orb_true_r.
    + rewrite orb_false_r. destruct (kb =? k) eqn:E.
      * apply String.eqb_eq in E; subst kb. now rewrite !obj_get_set_same.
      * assert (k <> kb) by (intros ->; now rewrite String.eqb_refl in E).
        rewrite obj_get_set_other by assumption. reflexivity.
Qed.

Lemma obj_has_spread (a b : Obj) (k : string) :
  obj_has (obj_spread a b) k = obj_has a k || obj_has b k.
Proof.
  unfold obj_spread. revert a.
  induction b as [|[kb vb] b IH]; intros a; simpl.
  - now rewrite orb_false_r.
  - rewrite IH. destruct (kb =? k) eqn:E; simpl.
    + apply String.eqb_eq in E; subst kb. rewrite obj_has_set_same.
      now rewrite orb_true_r.
    + rewrite obj_has_set_other; [reflexivity|].
      intros ->. now rewrite String.eqb_refl in E.
Qed.

End ObjectFacts.

(** ** Template substitution *)

Section TemplateFacts.

Lemma append_assoc (a b c : string) : (a ++ b) ++ c = a ++ (b ++ c).
Proof. induction a as [|x a IH]; simpl; [reflexivity | now rewrite IH]. Qed.

Lemma strip_prefix_app (p s : string) : strip_prefix p (p ++ s) = Some s.
Proof.
  induction p as [|a p IH]; simpl; [reflexivity|].
  now rewrite Ascii.eqb_refl.
Qed.

Lemma strip_prefix_split (p s r : string) : strip_prefix p s = Some r -> s = p ++ r.
Proof.
  revert s; induction p as [|a p IH]; intros s H; simpl in *.
  - now inversion H.
  - destruct s as [|b s]; [discriminate|].
    destruct (Ascii.eqb a b) eqn:E; [|discriminate].
    apply Ascii.eqb_eq in E; subst b. now rewrite (IH _ H).
Qed.

Lemma take_key_split (s : string) :
  s = fst (take_key s) ++ snd (take_key s) /\ no_close (fst (take_key s)) = true.
Proof.
  induction s as [|c s [IH1 IH2]]; simpl; [now split|].
  destruct (Ascii.eqb c close_brace) eqn:E; simpl; [now split|].
  destruct (take_key s) as [k r]; simpl in *. rewrite E. split; [now rewrite <- IH1 | exact IH2].
Qed.

Lemma take_key_stop (key u : string) :
  no_close key = true ->
  take_key (key ++ String close_brace u) = (key, String close_brace u).
Proof.
  induction key as [|c key IH]; simpl; intros H.
  - reflexivity.
  - apply andb_prop in H as [Hc Hk]. apply negb_true_iff in Hc. rewrite Hc.
    now rewrite (IH Hk).
Qed.

Lemma take_key_app (key rest : string) :
  no_close key = true ->
  take_key (key ++ placeholder_close ++ rest) = (key, placeholder_close ++ rest).
Proof. intros H. exact (take_key_stop key (String close_brace rest) H). Qed.

Lemma replace_all_copy (context : Context) (c : ascii) (s' : string) :
  match_here (String c s') = None ->
  replace_all context (String c s') = String c (replace_all context s').
Proof.
  intros H. rewrite replace_all_equation_2.
  destruct (inspect (match_here (String c s'))) as [[[k r]|] e]; [congruence|].
  reflexivity.
Qed.

Lemma replace_all_match (context : Context) (s key rest : string) :
  match_here s = Some (key, rest) ->
  replace_all context s = replacement context key ++ replace_all context rest.
Proof.
  intros H. destruct s as [|c s']; [discriminate|].
  rewrite replace_all_equation_2.
  destruct (inspect (match_here (String c s'))) as [[[k' r]|] e]; [|congruence].
  assert (k' = key /\ r = rest) as [-> ->] by (rewrite H in e; now inversion e).
  reflexivity.
Qed.

(** The pattern matches at the start of a text exactly when the text starts
    with a placeholder of the storage namespace. *)
Lemma match_here_placeholder (key rest : string) :
  is_key key = true ->
  match_here (placeholder_open ++ key ++ placeholder_close ++ rest) = Some (key, rest).
Proof.
  intros H. apply andb_prop in H as [Hne Hk].
  unfold match_here. rewrite strip_prefix_app, (take_key_app _ _ Hk).
  apply negb_true_iff in Hne. rewrite Hne.
  now rewrite strip_prefix_app.
Qed.

Lemma match_here_inv (s key rest : string) :
  match_here s = Some (key, rest) ->
  s = placeholder_open ++ key ++ placeholder_close ++ rest /\ is_key key = true.
Proof.
  unfold match_here.
  destruct (strip_prefix placeholder_open s) as [r|] eqn:Ho; [|discriminate].
  destruct (take_key_split r) as [Hr Hk].
  destruct (take_key r) as [k r']; cbn [fst snd] in *.
  destruct (k =? "") eqn:Hne; [discriminate|].
  destruct (strip_prefix placeholder_close r') as [rest'|] eqn:Hc; [|discriminate].
  intros H; inversion H; subst; clear H.
  apply strip_prefix_split in Ho, Hc. subst.
  split; [reflexivity|]. unfold is_key. now rewrite Hne, Hk.
Qed.

Lemma strip_open_first (c : ascii) (s : string) :
  Ascii.eqb c open_brace = false -> strip_prefix placeholder_open (String c s) = None.
Proof.
  intros H. unfold placeholder_open. cbn [strip_prefix].
  change "{"%char with open_brace. now rewrite Ascii.eqb_sym, H.
Qed.

Lemma strip_open_second (c c' : ascii) (s : string) :
  Ascii.eqb c' open_brace = false ->
  strip_prefix placeholder_open (String c (String c' s)) = None.
Proof.
  intros H. unfold placeholder_open. cbn [strip_prefix].
  change "{"%char with open_brace. rewrite (Ascii.eqb_sym open_brace c'), H.
  now destruct (Ascii.eqb open_brace c).
Qed.

Lemma quiet_no_match (c : ascii) (t u : string) :
  quiet (String c t) = true -> match_here (String c t ++ u) = None.
Proof.
  cbn [quiet append]. unfold match_here.
  destruct (Ascii.eqb c open_brace) eqn:E.
  - destruct t as [|c' t']; [discriminate|]. intros H.
    apply andb_prop in H as [H _]. apply negb_true_iff in H.
    cbn [append]. now rewrite strip_open_second.
  - intros _. now rewrite strip_open_first.
Qed.

Lemma quiet_tail (c : ascii) (t : string) : quiet (String c t) = true -> quiet t = true.
Proof.
  cbn [quiet]. destruct (Ascii.eqb c open_brace); [|auto].
  destruct t as [|c' t']; [discriminate|]. intros H. now apply andb_prop in H.
Qed.

Lemma replace_all_text (context : Context) (t u : string) :
  quiet t = true -> replace_all context (t ++ u) = t ++ replace_all context u.
Proof.
  induction t as [|c t IH]; intros H; [reflexivity|].
  change (String c t ++ u) with (String c (t ++ u)).
  rewrite replace_all_copy by (apply (quiet_no_match c t u H)).
  simpl. now rewrite (IH (quiet_tail _ _ H)).
Qed.

End TemplateFacts.

Section TemplateClaims.

Lemma string_dict_get (o : Obj) (k : string) :
  forallb (fun kv => is_string (snd kv)) o = true ->
  obj_has o k = true -> exists v, obj_get o k = JStr v.
Proof.
  induction o as [|[k' v'] o IH]; simpl; [discriminate|].
  intros H Hk. apply andb_prop in H as [Hv Ho].
  destruct (k' =? k); simpl in Hk.
  - destruct v'; try discriminate. now eexists.
  - now apply IH.
Qed.

Lemma replacement_spec (wid : JValue) (storage : Obj) (key : string) :
  is_optional_string_dict (JObj storage) = true ->
  own_or_unknown storage (Placeholder key) = true ->
  replacement {| widgetId := wid; miyagiStorage := JObj storage |} key
  = spec_substitute storage (Placeholder key).
Proof.
  intros Hd Hk. unfold replacement, index, obj_index. simpl in *.
  destruct (obj_has storage key) eqn:Hh.
  - destruct (string_dict_get storage key Hd Hh) as [v Hv]. rewrite Hv.
    unfold js_or. simpl. now destruct (v =? "") eqn:E; [apply String.eqb_eq in E; subst|].
  - simpl in Hk. apply negb_true_iff in Hk. now rewrite Hk.
Qed.

Lemma no_placeholder_tail (c : ascii) (s : string) :
  ~ has_placeholder (String c s) -> ~ has_placeholder s.
Proof.
  intros H (before & key & rest & -> & Hk). apply H.
  now exists (String c before), key, rest.
Qed.

Lemma replace_all_pieces (wid : JValue) (storage : Obj) (ps : list Piece) :
  is_optional_string_dict (JObj storage) = true ->
  forallb well_formed ps = true ->
  forallb (own_or_unknown storage) ps = true ->
  replace_all {| widgetId := wid; miyagiStorage := JObj storage |} (render ps)
  = spec_substitute_all storage ps.
Proof.
  intros Hd. induction ps as [|p ps IH]; intros Hw Hk; [reflexivity|].
  cbn [forallb] in Hw, Hk.
  apply andb_prop in Hw as [Hp Hw]. apply andb_prop in Hk as [Hkp Hk].
  cbn [render spec_substitute_all]. destruct p as [t|key].
  - cbn [render_piece spec_substitute]. rewrite replace_all_text by exact Hp.
    now rewrite (IH Hw Hk).
  - cbn [render_piece]. rewrite !append_assoc.
    rewrite (replace_all_match _ _ key (render ps)) by (now apply match_here_placeholder).
    rewrite (IH Hw Hk). now rewrite replacement_spec.
Qed.

Lemma replace_all_verbatim (context : Context) (s : string) :
  ~ has_placeholder s -> replace_all context s = s.
Proof.
  induction s as [|c s IH]; intros H; [reflexivity|].
  rewrite replace_all_copy.
  - now rewrite (IH (no_placeholder_tail _ _ H)).
  - destruct (match_here (String c s)) as [[key rest]|] eqn:E; [|reflexivity].
    exfalso. apply H. apply match_here_inv in E as [E Hk].
    exists EmptyString, key, rest. now split.
Qed.

Lemma replace_all_leftmost (context : Context) (before key after : string) :
  is_key key = true ->
  leftmost before key after ->
  replace_all context (before ++ placeholder_open ++ key ++ placeholder_close ++ after)
  = before ++ replacement context key ++ replace_all context after.
Proof.
  intros Hk. induction before as [|c before IH]; intros Hl.
  - cbn [append]. now apply replace_all_match, match_here_placeholder.
  - cbn [append]. rewrite replace_all_copy.
    + rewrite IH; [reflexivity|].
      intros before' key' after' E Hk'.
      specialize (Hl (String c before') key' after').
      cbn [append String.length] in Hl. rewrite E in Hl.
      specialize (Hl eq_refl Hk'). lia.
    + destruct (match_here _) as [[key' after']|] eqn:E; [|reflexivity].
      apply match_here_inv in E as [E Hk'].
      specialize (Hl EmptyString key' after').
      cbn [append String.length] in Hl. specialize (Hl E Hk'). lia.
Qed.

(** C4 (as amended): a placeholder of the namespace [miyagi-storage] (that
    namespace only) is replaced with [storage[key]] when the key is present
    and with the empty string when it is absent, for every occurrence in the
    text, for a storage of strings and keys that are own keys or names the
    storage does not inherit; the occurrences are taken from the left, each
    text before the first placeholder staying as it is; a text that holds no
    such placeholder stays verbatim; the two examples of the spec hold with
    that namespace. *)
Theorem processTemplate_substitutes :
  (forall (wid : JValue) (storage : Obj) (ps : list Piece),
      is_optional_string_dict (JObj storage) = true ->
      forallb well_formed ps = true ->
      forallb (own_or_unknown storage) ps = true ->
      processTemplate (render ps) {| widgetId := wid; miyagiStorage := JObj storage |}
      = spec_substitute_all storage ps)
  /\ (forall (context : Context) (before key after : string),
         is_key key = true ->
         leftmost before key after ->
         processTemplate (before ++ placeholder_open ++ key ++ placeholder_close ++ after)
           context
         = before ++ replacement context key ++ processTemplate after context)
  /\ (forall (context : Context) (s : string),
         ~ has_placeholder s -> processTemplate s context = s)
  /\ (forall wid : JValue,
         processTemplate "Hi {{miyagi-storage:name}}!"
           {| widgetId := wid; miyagiStorage := JObj [("name", JStr "Ann")] |} = "Hi Ann!"
         /\ processTemplate "Hi {{miyagi-storage:name}}!"
              {| widgetId := wid; miyagiStorage := JObj [] |} = "Hi !").
Proof.
  unfold processTemplate. split; [|split; [|split]].
  - exact replace_all_pieces.
  - exact replace_all_leftmost.
  - exact replace_all_verbatim.
  - intros wid. split.
    + exact (replace_all_pieces wid [("name", JStr "Ann")]
               [Text "Hi "; Placeholder "name"; Text "!"] eq_refl eq_refl eq_refl).
    + exact (replace_all_pieces wid []
               [Text "Hi "; Placeholder "name"; Text "!"] eq_refl eq_refl eq_refl).
Qed.

(** C4, witness: a text with a style block, two placeholders and a storage
    that holds one of the keys. *)
Lemma processTemplate_substitutes_witness :
  processTemplate "<style>p{margin:0}</style>{{miyagi-storage:a}}-{{miyagi-storage:b}}"
    {| widgetId := JStr "w_1"; miyagiStorage := JObj [("a", JStr "1")] |}
  = "<style>p{margin:0}</style>1-".
Proof.
  exact (proj1 processTemplate_substitutes (JStr "w_1") [("a", JStr "1")]
           [Text "<style>p{margin:0}</style>"; Placeholder "a"; Text "-"; Placeholder "b"]
           eq_refl eq_refl eq_refl).
Defined.

(** C4, as stated, fails: a placeholder of another namespace is not touched
    (the spec's own example keeps its braces), and a key that is absent from
    the storage but names an inherited member is not replaced with the empty
    string. *)
Lemma processTemplate_any_namespace_fails :
  processTemplate "Hi {{ns:name}}!"
    {| widgetId := JStr "w_1"; miyagiStorage := JObj [("name", JStr "Ann")] |}
  = "Hi {{ns:name}}!"
  /\ processTemplate "Hi {{ns:name}}!"
       {| widgetId := JStr "w_1"; miyagiStorage := JObj [("name", JStr "Ann")] |}
     <> "Hi Ann!"
  /\ obj_has [] "toString" = false
  /\ processTemplate "{{miyagi-storage:toString}}"
       {| widgetId := JStr "w_1"; miyagiStorage := JObj [] |}
     = "function toString() { [native code] }".
Proof. repeat split; vm_compute; discriminate. Qed.

End TemplateClaims.

(** ** The store *)

Section StoreFacts.

Lemma same_id_str (v : JValue) (s : string) : same_id v (JStr s) = str_eq v s.
Proof. now destruct v. Qed.

(** A record that was put is the one found under its identifier. *)
Lemma find_put (shapeId : string) (store : Store) (record : Obj) :
  is_widget_with_id shapeId record = true ->
  find (is_widget_with_id shapeId) (put store record) = Some record.
Proof.
  intros Hp.
  assert (Hid : str_eq (obj_get record "id") shapeId = true).
  { unfold is_widget_with_id in Hp. now apply andb_prop in Hp as [Hp%andb_prop _]. }
  assert (Hrec : obj_get record "id" = JStr shapeId).
  { destruct (obj_get record "id"); try discriminate.
    simpl in Hid. apply String.eqb_eq in Hid. now subst. }
  induction store as [|r store IH]; simpl.
  - now rewrite Hp.
  - rewrite Hrec, same_id_str.
    destruct (str_eq (obj_get r "id") shapeId) eqn:E; simpl.
    + now rewrite Hp.
    + unfold is_widget_with_id at 1. rewrite E. simpl. exact IH.
Qed.

(** Putting a record leaves every record stored under another identifier
    where it was. *)
Lemma put_nth_other (store : Store) (record : Obj) (i : nat) (r : Obj) :
  nth_error store i = Some r ->
  same_id (obj_get r "id") (obj_get record "id") = false ->
  nth_error (put store record) i = Some r.
Proof.
  revert i. induction store as [|r0 store IH]; intros i Hn Hr.
  - now destruct i.
  - simpl. destruct (same_id (obj_get r0 "id") (obj_get record "id")) eqn:E.
    + destruct i as [|i]; simpl in *; [|exact Hn].
      inversion Hn; subst. congruence.
    + destruct i as [|i]; simpl in *; [exact Hn|]. now apply IH.
Qed.

Lemma put_length_present (store : Store) (record r : Obj) :
  In r store ->
  same_id (obj_get r "id") (obj_get record "id") = true ->
  List.length (put store record) = List.length store.
Proof.
  induction store as [|r0 store IH]; intros Hin Hr; [contradiction|].
  simpl. destruct (same_id (obj_get r0 "id") (obj_get record "id")) eqn:E; [reflexivity|].
  simpl. f_equal. destruct Hin as [->|Hin]; [congruence|]. now apply IH.
Qed.

(** In a store that passed the schema a widget carries an object of
    properties. *)
Lemma widget_props_object (store : Store) (shapeId : string) (shape : Obj) :
  store_ok store = true ->
  find (is_widget_with_id shapeId) store = Some shape ->
  exists props, obj_get shape "props" = JObj props
                /\ miyagiWidgetShapeSchema (JObj props) = true.
Proof.
  intros Hok Hf. apply find_some in Hf as [Hin Hp].
  unfold store_ok in Hok. rewrite forallb_forall in Hok. specialize (Hok _ Hin).
  unfold is_widget_with_id in Hp. apply andb_prop in Hp as [Hp Ht].
  apply andb_prop in Hp as [_ Hn].
  unfold is_widget in Hok. rewrite Hn, Ht in Hok. simpl in Hok.
  destruct (obj_get shape "props"); try discriminate. now eexists.
Qed.

End StoreFacts.

(** ** [edit_widget_html] *)

Section EditFacts.

Lemma updatedShape_get_other (shape : Obj) (html : string) (keep : JValue) (k : string) :
  k <> "props" -> obj_get (updatedShape shape html keep) k = obj_get shape k.
Proof. intros H. unfold updatedShape. now apply obj_get_set_other. Qed.

Lemma updatedShape_has_other (shape : Obj) (html : string) (keep : JValue) (k : string) :
  k <> "props" -> obj_has (updatedShape shape html keep) k = obj_has shape k.
Proof. intros H. unfold updatedShape. now apply obj_has_set_other. Qed.

Lemma updatedShape_props (shape : Obj) (html : string) (keep : JValue) :
  obj_get (updatedShape shape html keep) "props"
  = JObj (obj_set (obj_set (own_props (obj_get shape "props")) "htmlContent" (JStr html))
            "miyagiStorage"
            (if truthy keep then opt_get (obj_get shape "props") "miyagiStorage" else JObj [])).
Proof. unfold updatedShape. apply obj_get_set_same. Qed.

Lemma own_props_get (v : JValue) (k : string) : obj_get (own_props v) k = opt_get v k.
Proof. now destruct v. Qed.

Lemma updatedShape_is_widget (shapeId : string) (shape : Obj) (html : string) (keep : JValue) :
  is_widget_with_id shapeId (updatedShape shape html keep) = is_widget_with_id shapeId shape.
Proof.
  unfold is_widget_with_id.
  now rewrite !updatedShape_get_other by discriminate.
Qed.

(** What a call that answered with a success did. *)
Lemma handleEditWidgetHtml_success (shapeId : string) (body : JValue) (store : Store)
    (payload : Obj) (effect : Effect) :
  handleEditWidgetHtml shapeId body (inr store) = (Ok payload, effect) ->
  exists shape html wid,
    find (is_widget_with_id shapeId) store = Some shape
    /\ opt_get body "htmlContent" = JStr html
    /\ member (obj_get shape "props") "widgetId" = Some wid
    /\ let processedHtml :=
         processTemplate html
           {| widgetId := wid;
              miyagiStorage := js_or (opt_get (obj_get shape "props") "miyagiStorage") (JObj []) |} in
       payload = [ ("success", JBool true); ("processedHtml", JStr processedHtml) ]
       /\ effect = Put (updatedShape shape processedHtml (opt_get body "preserveStorage")).
Proof.
  unfold handleEditWidgetHtml.
  destruct (member body "htmlContent") as [htmlContent|] eqn:Hm; [|discriminate].
  destruct (negb (truthy htmlContent)); [discriminate|].
  destruct (find (is_widget_with_id shapeId) store) as [shape|]; [|discriminate].
  destruct (negb (str_eq (obj_get shape "type") "miyagi-widget")); [discriminate|].
  destruct (member (obj_get shape "props") "widgetId") as [wid|] eqn:Hw; [|discriminate].
  destruct htmlContent as [| | | |html| | |]; try discriminate.
  intros H; inversion H; subst; clear H.
  exists shape, html, wid. repeat split; try reflexivity; try assumption.
  destruct body; try discriminate; simpl in *; congruence.
Qed.

End EditFacts.

Section EditClaims.

(** C3 (as amended): [edit_widget_html] fails with the missing-content error
    when [htmlContent] is absent or empty and, given a content, with the
    not-found error when no widget shape has the identifier; otherwise it
    substitutes the supplied content with the widget's current [widgetId] and
    storage, stores the substituted text as the widget's [htmlContent],
    empties the storage unless [preserveStorage] is true (then the storage is
    kept), and returns the substituted text. *)
Theorem handleEditWidgetHtml_spec (shapeId : string) (body : Obj) (store : Store) :
  let htmlContent := obj_get body "htmlContent" in
  let preserveStorage := obj_get body "preserveStorage" in
  (truthy htmlContent = false ->
     handleEditWidgetHtml shapeId (JObj body) (inr store)
     = (Failure 400 "Missing htmlContent", NoWrite))
  /\ (truthy htmlContent = true ->
      find (is_widget_with_id shapeId) store = None ->
      handleEditWidgetHtml shapeId (JObj body) (inr store)
      = (Failure 404 ("Widget shape not found: " ++ shapeId), NoWrite))
  /\ (forall (html : string) (shape : Obj),
        htmlContent = JStr html -> html <> "" ->
        find (is_widget_with_id shapeId) store = Some shape ->
        store_ok store = true ->
        let props := obj_get shape "props" in
        let processedHtml :=
          processTemplate html
            {| widgetId := opt_get props "widgetId";
               miyagiStorage := js_or (opt_get props "miyagiStorage") (JObj []) |} in
        exists stored : Obj,
          handleEditWidgetHtml shapeId (JObj body) (inr store)
          = (Ok [ ("success", JBool true); ("processedHtml", JStr processedHtml) ],
             Put stored)
          /\ find (is_widget_with_id shapeId) (put store stored) = Some stored
          /\ opt_get (obj_get stored "props") "htmlContent" = JStr processedHtml
          /\ opt_get (obj_get stored "props") "miyagiStorage"
             = if truthy preserveStorage then opt_get props "miyagiStorage" else JObj []).
Proof.
  cbv zeta. unfold handleEditWidgetHtml. cbn [member opt_get]. split; [|split].
  - intros ->. reflexivity.
  - intros -> ->. reflexivity.
  - intros html shape Hh Hne Hf Hok.
    destruct (widget_props_object _ _ _ Hok Hf) as (props & Hp & _).
    rewrite Hh, Hf. cbn [truthy].
    apply String.eqb_neq in Hne. rewrite Hne. cbn [negb].
    pose proof Hf as Hw. apply find_some in Hw as [_ Hw].
    pose proof Hw as Ht. unfold is_widget_with_id in Ht. apply andb_prop in Ht as [_ Ht].
    rewrite Ht. cbn [negb]. rewrite Hp. cbn [member opt_get].
    eexists. split; [reflexivity|]. split; [|split].
    + apply find_put. now rewrite updatedShape_is_widget.
    + rewrite updatedShape_props. cbn [opt_get].
      rewrite obj_get_set_other by discriminate. apply obj_get_set_same.
    + rewrite updatedShape_props. cbn [opt_get].
      rewrite obj_get_set_same. now rewrite Hp.
Qed.

(** C3, witness: the content of a stored widget is replaced, its storage
    filling the placeholder and then being emptied. *)
Lemma handleEditWidgetHtml_spec_witness :
  exists stored : Obj,
    handleEditWidgetHtml "shape:w1"
      (JObj [("htmlContent", JStr "Hi {{miyagi-storage:name}}!")]) (inr Sample.store)
    = (Ok [ ("success", JBool true); ("processedHtml", JStr "Hi Ann!") ], Put stored)
    /\ find (is_widget_with_id "shape:w1") (put Sample.store stored) = Some stored
    /\ opt_get (obj_get stored "props") "htmlContent" = JStr "Hi Ann!"
    /\ opt_get (obj_get stored "props") "miyagiStorage" = JObj [].
Proof.
  assert (Hne : "Hi {{miyagi-storage:name}}!" <> "") by discriminate.
  exact (proj2 (proj2 (handleEditWidgetHtml_spec "shape:w1"
                         [("htmlContent", JStr "Hi {{miyagi-storage:name}}!")] Sample.store))
           "Hi {{miyagi-storage:name}}!" Sample.widget1 eq_refl Hne eq_refl eq_refl).
Defined.

(** C3, as stated, fails: a content that is supplied but empty is refused as
    missing although the widget exists, and nothing is written. *)
Lemma handleEditWidgetHtml_empty_content_refused :
  obj_has [("htmlContent", JStr "")] "htmlContent" = true
  /\ find (is_widget_with_id "shape:w1") Sample.store = Some Sample.widget1
  /\ handleEditWidgetHtml "shape:w1" (JObj [("htmlContent", JStr "")]) (inr Sample.store)
     = (Failure 400 "Missing htmlContent", NoWrite).
Proof. repeat split. Qed.

End EditClaims.

Section EditFrame.

(** C10: a successful [edit_widget_html] writes one record, the target
    widget, in which every field other than [props] reads as before and, in
    [props], every property other than [htmlContent] and [miyagiStorage]
    reads as before; the store keeps its length and every record stored
    under another identifier stays where it was, unchanged. *)
Theorem handleEditWidgetHtml_frame (shapeId : string) (body : JValue) (store : Store)
    (payload : Obj) (effect : Effect) :
  handleEditWidgetHtml shapeId body (inr store) = (Ok payload, effect) ->
  exists shape stored : Obj,
    find (is_widget_with_id shapeId) store = Some shape
    /\ effect = Put stored
    /\ (forall k : string, k <> "props" ->
          obj_get stored k = obj_get shape k /\ obj_has stored k = obj_has shape k)
    /\ (forall k : string, k <> "htmlContent" -> k <> "miyagiStorage" ->
          opt_get (obj_get stored "props") k = opt_get (obj_get shape "props") k)
    /\ List.length (apply_effect store effect) = List.length store
    /\ (forall (i : nat) (r : Obj),
          nth_error store i = Some r ->
          str_eq (obj_get r "id") shapeId = false ->
          nth_error (apply_effect store effect) i = Some r).
Proof.
  intros H.
  apply handleEditWidgetHtml_success in H as (shape & html & wid & Hf & _ & _ & H).
  cbv zeta in H. destruct H as [_ ->].
  eexists shape, _. split; [exact Hf|]. split; [reflexivity|].
  pose proof Hf as Hw. apply find_some in Hw as [Hin Hw].
  assert (Hid : obj_get shape "id" = JStr shapeId).
  { unfold is_widget_with_id in Hw. apply andb_prop in Hw as [Hw _].
    apply andb_prop in Hw as [Hw _].
    destruct (obj_get shape "id"); try discriminate.
    simpl in Hw. apply String.eqb_eq in Hw. now subst. }
  split; [|split; [|split]].
  - intros k Hk. split; [now apply updatedShape_get_other | now apply updatedShape_has_other].
  - intros k Hk1 Hk2. rewrite updatedShape_props. cbn [opt_get].
    rewrite !obj_get_set_other by assumption. apply own_props_get.
  - cbn [apply_effect]. apply (put_length_present _ _ shape Hin).
    rewrite updatedShape_get_other by discriminate.
    rewrite Hid. simpl. apply String.eqb_refl.
  - intros i r Hn Hr. cbn [apply_effect]. apply put_nth_other; [exact Hn|].
    rewrite updatedShape_get_other by discriminate.
    now rewrite Hid, same_id_str.
Qed.

(** C10, witness: editing the second widget of the sample room. *)
Lemma handleEditWidgetHtml_frame_witness :
  exists shape stored : Obj,
    find (is_widget_with_id "shape:w2") Sample.store = Some shape
    /\ Put (updatedShape Sample.widget2 "<b>new</b>" JUndefined) = Put stored
    /\ (forall k : string, k <> "props" ->
          obj_get stored k = obj_get shape k /\ obj_has stored k = obj_has shape k)
    /\ (forall k : string, k <> "htmlContent" -> k <> "miyagiStorage" ->
          opt_get (obj_get stored "props") k = opt_get (obj_get shape "props") k)
    /\ List.length
         (apply_effect Sample.store (Put (updatedShape Sample.widget2 "<b>new</b>" JUndefined)))
       = List.length Sample.store
    /\ (forall (i : nat) (r : Obj),
          nth_error Sample.store i = Some r ->
          str_eq (obj_get r "id") "shape:w2" = false ->
          nth_error
            (apply_effect Sample.store (Put (updatedShape Sample.widget2 "<b>new</b>" JUndefined))) i
          = Some r).
Proof.
  exact (handleEditWidgetHtml_frame "shape:w2" (JObj [("htmlContent", JStr "<b>new</b>")])
           Sample.store
           [ ("success", JBool true); ("processedHtml", JStr "<b>new</b>") ]
           (Put (updatedShape Sample.widget2 "<b>new</b>" JUndefined))
           eq_refl).
Defined.

End EditFrame.

(** ** [add_widget] and [generate_widget] *)

Section CreateFacts.

Variable getTemplateHtml : JValue -> JValue.
Variable generateBasicWidget : JValue -> option JValue.
Variable validate : Obj -> option string.
Variable rand : string.
Variable now : Z.

Lemma js_or_truthy (a b : JValue) : truthy a = true -> js_or a b = a.
Proof. unfold js_or. now intros ->. Qed.

Lemma js_or_falsy (a b : JValue) : truthy a = false -> js_or a b = b.
Proof. unfold js_or. now intros ->. Qed.

Lemma js_or_num (n d : Z) : js_or (JNum n) (JNum d) = JNum (if (n =? 0)%Z then d else n).
Proof. unfold js_or. simpl. now destruct (n =? 0)%Z. Qed.

(** For a body with a template [handleAddWidget] builds one record and
    offers it to the store, which decides. *)
Lemma handleAddWidget_writes (body : Obj) (store : Store) :
  truthy (obj_get body "templateId") = true ->
  exists (payload record : Obj),
    handleAddWidget getTemplateHtml validate rand now (JObj body) (inr store)
    = match validate record with
      | Some message => (Caught (Rejected message), NoWrite)
      | None => (Ok payload, Put record)
      end
    /\ obj_get record "parentId" = js_or (obj_get body "pageId") (JStr "page:page")
    /\ obj_get record "x" = js_or (opt_get (obj_get body "position") "x") (JNum 300)
    /\ obj_get record "y" = js_or (opt_get (obj_get body "position") "y") (JNum 200)
    /\ opt_get (obj_get record "props") "w" = js_or (opt_get (obj_get body "size") "w") (JNum 300)
    /\ opt_get (obj_get record "props") "h" = js_or (opt_get (obj_get body "size") "h") (JNum 200).
Proof.
  intros Ht. unfold handleAddWidget. cbn [member opt_get]. rewrite Ht. cbn [negb].
  eexists _, _. split; [reflexivity|]. repeat split.
Qed.

(** The same of [handleGenerateWidget] when it is asked to add its widget. *)
Lemma handleGenerateWidget_writes (body : Obj) (store : Store) (html : JValue) :
  truthy (obj_get body "prompt") = true ->
  truthy (obj_get body "autoAdd") = true ->
  generateBasicWidget (obj_get body "prompt") = Some html ->
  exists (payload record : Obj),
    handleGenerateWidget generateBasicWidget validate rand now (JObj body) (inr store)
    = match validate record with
      | Some message => (Caught (Rejected message), NoWrite)
      | None => (Ok payload, Put record)
      end
    /\ obj_get record "parentId" = js_or (obj_get body "pageId") (JStr "page:page")
    /\ obj_get record "x" = js_or (opt_get (obj_get body "position") "x") (JNum 400)
    /\ obj_get record "y" = js_or (opt_get (obj_get body "position") "y") (JNum 300)
    /\ opt_get (obj_get record "props") "w" = JNum 300
    /\ opt_get (obj_get record "props") "h" = JNum 200.
Proof.
  intros Hp Ha Hg. unfold handleGenerateWidget. cbn [member opt_get].
  rewrite Hp, Hg, Ha. cbn [negb].
  eexists _, _. split; [reflexivity|]. repeat split.
Qed.

(** A call of [handleAddWidget] that wrote: the store accepted the record,
    and the answer and the record are the ones built from the body. *)
Lemma handleAddWidget_wrote (body : Obj) (store : Store) (answer record : Obj) :
  handleAddWidget getTemplateHtml validate rand now (JObj body) (inr store)
  = (Ok answer, Put record) ->
  let templateId := obj_get body "templateId" in
  let widgetId := JStr (to_text templateId ++ "_" ++ to_text (JNum now)) in
  truthy templateId = true
  /\ validate record = None
  /\ answer = [ ("success", JBool true);
                ("shapeId", JStr ("shape:" ++ rand));
                ("widgetId", widgetId);
                ("templateId", templateId) ]
  /\ record = [ ("id", JStr ("shape:" ++ rand));
                ("typeName", JStr "shape");
                ("type", JStr "miyagi-widget");
                ("parentId", js_or (obj_get body "pageId") (JStr "page:page"));
                ("index", JStr "a1");
                ("x", js_or (opt_get (obj_get body "position") "x") (JNum 300));
                ("y", js_or (opt_get (obj_get body "position") "y") (JNum 200));
                ("rotation", JNum 0);
                ("isLocked", JBool false);
                ("opacity", JNum 1);
                ("meta", JObj []);
                ("props", JObj
                   [ ("w", js_or (opt_get (obj_get body "size") "w") (JNum 300));
                     ("h", js_or (opt_get (obj_get body "size") "h") (JNum 200));
                     ("widgetId", widgetId);
                     ("templateId", templateId);
                     ("htmlContent", getTemplateHtml templateId);
                     ("color", JStr "black");
                     ("miyagiStorage", JObj []) ]) ].
Proof.
  unfold handleAddWidget. cbn [member opt_get].
  destruct (truthy (obj_get body "templateId")); cbn [negb]; [|discriminate].
  match goal with |- context [validate ?r] => destruct (validate r) eqn:Hv end;
    [discriminate|].
  intros H. injection H as <- <-. cbv zeta. repeat split. exact Hv.
Qed.

End CreateFacts.

Section CreateClaims.

(** C6 (as amended): the record that [add_widget], and [generate_widget]
    with [autoAdd], builds and offers to the store has the literal
    ["page:page"] as its [parentId] when [pageId] is omitted or is the empty
    string, and the supplied [pageId] itself when that is a string that is
    not empty; the call writes that record and answers with a success when
    the store accepts it, and writes nothing and answers with the caught
    refusal when the store refuses it. *)
Theorem created_widget_parentId
    (getTemplateHtml : JValue -> JValue) (generateBasicWidget : JValue -> option JValue)
    (validate : Obj -> option string) (rand : string) (now : Z) (body : Obj) (store : Store) :
  let pageId := obj_get body "pageId" in
  let placed (record : Obj) :=
    (obj_has body "pageId" = false -> obj_get record "parentId" = JStr "page:page")
    /\ (pageId = JStr "" -> obj_get record "parentId" = JStr "page:page")
    /\ (forall p : string, pageId = JStr p -> p <> "" -> obj_get record "parentId" = JStr p) in
  let decided (payload record : Obj) : Response * Effect :=
    match validate record with
    | Some message => (Caught (Rejected message), NoWrite)
    | None => (Ok payload, Put record)
    end in
  (truthy (obj_get body "templateId") = true ->
     exists payload record : Obj,
       handleAddWidget getTemplateHtml validate rand now (JObj body) (inr store)
       = decided payload record
       /\ placed record)
  /\ (forall html : JValue,
        truthy (obj_get body "prompt") = true ->
        truthy (obj_get body "autoAdd") = true ->
        generateBasicWidget (obj_get body "prompt") = Some html ->
        exists payload record : Obj,
          handleGenerateWidget generateBasicWidget validate rand now (JObj body) (inr store)
          = decided payload record
          /\ placed record).
Proof.
  cbv zeta.
  assert (P : forall record : Obj,
             obj_get record "parentId" = js_or (obj_get body "pageId") (JStr "page:page") ->
             (obj_has body "pageId" = false -> obj_get record "parentId" = JStr "page:page")
             /\ (obj_get body "pageId" = JStr "" -> obj_get record "parentId" = JStr "page:page")
             /\ (forall p : string, obj_get body "pageId" = JStr p -> p <> "" ->
                   obj_get record "parentId" = JStr p)).
  { intros record ->. split; [|split].
    - intros H. now rewrite (obj_get_absent _ _ H).
    - now intros ->.
    - intros p -> Hp. apply js_or_truthy. simpl.
      apply String.eqb_neq in Hp. now rewrite Hp. }
  split.
  - intros Ht.
    destruct (handleAddWidget_writes getTemplateHtml validate rand now body store Ht)
      as (payload & record & H & Hp & _).
    exists payload, record. split; [exact H | now apply P].
  - intros html Hp Ha Hg.
    destruct (handleGenerateWidget_writes generateBasicWidget validate rand now body store
                html Hp Ha Hg)
      as (payload & record & H & Hpar & _).
    exists payload, record. split; [exact H | now apply P].
Qed.

(** C6, witness: a template added without a page, on a store that refuses
    the widgets whose properties fail the schema. *)
Lemma created_widget_parentId_witness :
  exists payload record : Obj,
    handleAddWidget (fun _ => JStr "<div>Timer</div>") Sample.validate "k3x9" 1700000000000
      (JObj [("templateId", JStr "timer")]) (inr Sample.store)
    = match Sample.validate record with
      | Some message => (Caught (Rejected message), NoWrite)
      | None => (Ok payload, Put record)
      end
    /\ (obj_has [("templateId", JStr "timer")] "pageId" = false ->
        obj_get record "parentId" = JStr "page:page")
    /\ (obj_get [("templateId", JStr "timer")] "pageId" = JStr "" ->
        obj_get record "parentId" = JStr "page:page")
    /\ (forall p : string,
          obj_get [("templateId", JStr "timer")] "pageId" = JStr p -> p <> "" ->
          obj_get record "parentId" = JStr p).
Proof.
  exact (proj1 (created_widget_parentId (fun _ => JStr "<div>Timer</div>") (fun _ => None)
                  Sample.validate "k3x9" 1700000000000 [("templateId", JStr "timer")]
                  Sample.store)
           eq_refl).
Defined.

(** C6, as stated, fails: a [pageId] that is supplied as the empty string is
    not the [parentId] of the record written. *)
Lemma created_widget_empty_pageId :
  exists payload record : Obj,
    handleAddWidget (fun _ => JStr "<div>Timer</div>") Sample.validate "k3x9" 1700000000000
      (JObj [("templateId", JStr "timer"); ("pageId", JStr "")]) (inr Sample.store)
    = (Ok payload, Put record)
    /\ obj_get record "parentId" = JStr "page:page"
    /\ obj_get record "parentId" <> JStr "".
Proof. eexists _, _. split; [reflexivity|]. split; [reflexivity | discriminate]. Qed.

(** C9: in the record that [add_widget], and [generate_widget] with
    [autoAdd], builds and offers to the store, a coordinate or a size that is
    supplied as zero is replaced by the built-in default of its component
    (300, 200, 300, 200 for [add_widget]; 400, 300 for [generate_widget],
    whose size is always 300 by 200), and a supplied number other than zero
    is kept as it is; that record is the widget created when the store
    accepts it, and nothing is created when the store refuses it. *)
Theorem created_widget_zero_defaults
    (getTemplateHtml : JValue -> JValue) (generateBasicWidget : JValue -> option JValue)
    (validate : Obj -> option string) (rand : string) (now : Z) (body : Obj) (store : Store) :
  let position := obj_get body "position" in
  let size := obj_get body "size" in
  let decided (payload record : Obj) : Response * Effect :=
    match validate record with
    | Some message => (Caught (Rejected message), NoWrite)
    | None => (Ok payload, Put record)
    end in
  (truthy (obj_get body "templateId") = true ->
     exists payload record : Obj,
       handleAddWidget getTemplateHtml validate rand now (JObj body) (inr store)
       = decided payload record
       /\ (forall n : Z, opt_get position "x" = JNum n ->
             obj_get record "x" = JNum (if (n =? 0)%Z then 300 else n))
       /\ (forall n : Z, opt_get position "y" = JNum n ->
             obj_get record "y" = JNum (if (n =? 0)%Z then 200 else n))
       /\ (forall n : Z, opt_get size "w" = JNum n ->
             opt_get (obj_get record "props") "w" = JNum (if (n =? 0)%Z then 300 else n))
       /\ (forall n : Z, opt_get size "h" = JNum n ->
             opt_get (obj_get record "props") "h" = JNum (if (n =? 0)%Z then 200 else n)))
  /\ (forall html : JValue,
        truthy (obj_get body "prompt") = true ->
        truthy (obj_get body "autoAdd") = true ->
        generateBasicWidget (obj_get body "prompt") = Some html ->
        exists payload record : Obj,
          handleGenerateWidget generateBasicWidget validate rand now (JObj body) (inr store)
          = decided payload record
          /\ (forall n : Z, opt_get position "x" = JNum n ->
                obj_get record "x" = JNum (if (n =? 0)%Z then 400 else n))
          /\ (forall n : Z, opt_get position "y" = JNum n ->
                obj_get record "y" = JNum (if (n =? 0)%Z then 300 else n))
          /\ opt_get (obj_get record "props") "w" = JNum 300
          /\ opt_get (obj_get record "props") "h" = JNum 200).
Proof.
  cbv zeta. split.
  - intros Ht.
    destruct (handleAddWidget_writes getTemplateHtml validate rand now body store Ht)
      as (payload & record & H & _ & Hx & Hy & Hw & Hh).
    exists payload, record. split; [exact H|].
    repeat split; intros n Hn.
    + now rewrite Hx, Hn, js_or_num.
    + now rewrite Hy, Hn, js_or_num.
    + now rewrite Hw, Hn, js_or_num.
    + now rewrite Hh, Hn, js_or_num.
  - intros html Hp Ha Hg.
    destruct (handleGenerateWidget_writes generateBasicWidget validate rand now body store
                html Hp Ha Hg)
      as (payload & record & H & _ & Hx & Hy & Hw & Hh).
    exists payload, record. split; [exact H|].
    split; [|split; [|split; assumption]]; intros n Hn.
    + now rewrite Hx, Hn, js_or_num.
    + now rewrite Hy, Hn, js_or_num.
Qed.

(** C9, witness: a widget asked for at the origin, 0 wide and 150 high, on a
    store that refuses the widgets whose properties fail the schema: the
    record is accepted and is written with the defaults. *)
Lemma created_widget_zero_defaults_witness :
  exists payload record : Obj,
    handleAddWidget (fun _ => JStr "<div>Timer</div>") Sample.validate "k3x9" 1700000000000
      (JObj [ ("templateId", JStr "timer");
              ("position", JObj [("x", JNum 0); ("y", JNum 0)]);
              ("size", JObj [("w", JNum 0); ("h", JNum 150)]) ])
      (inr Sample.store)
    = match Sample.validate record with
      | Some message => (Caught (Rejected message), NoWrite)
      | None => (Ok payload, Put record)
      end
    /\ obj_get record "x" = JNum 300
    /\ obj_get record "y" = JNum 200
    /\ opt_get (obj_get record "props") "w" = JNum 300
    /\ opt_get (obj_get record "props") "h" = JNum 150.
Proof.
  destruct (proj1 (created_widget_zero_defaults (fun _ => JStr "<div>Timer</div>")
                     (fun _ => None) Sample.validate "k3x9" 1700000000000
                     [ ("templateId", JStr "timer");
                       ("position", JObj [("x", JNum 0); ("y", JNum 0)]);
                       ("size", JObj [("w", JNum 0); ("h", JNum 150)]) ]
                     Sample.store) eq_refl)
    as (payload & record & H & Hx & Hy & Hw & Hh).
  exists payload, record. split; [exact H|].
  split; [exact (Hx 0%Z eq_refl)|]. split; [exact (Hy 0%Z eq_refl)|].
  split; [exact (Hw 0%Z eq_refl) | exact (Hh 150%Z eq_refl)].
Defined.

End CreateClaims.

(** ** [list_pages] *)

Section PagesClaims.

Lemma Forall2_map_right {A B : Type} (R : A -> B -> Prop) (g : A -> B) (l : list A) :
  (forall x, In x l -> R x (g x)) -> Forall2 R l (map g l).
Proof.
  induction l as [|x l IH]; intros H; simpl; constructor.
  - apply H. now left.
  - apply IH. intros y Hy. apply H. now right.
Qed.

(** C7 (as amended): on a room that [getRoom] delivered, [list_pages]
    answers with a success that lists the page records, in the order of the
    store, each projected to its [id], its [name] and its [index], the name
    being ["Untitled"] when the page has none or an empty one, and with
    [defaultPage] the identifier (not empty, as identifiers are) of the first
    page listed; with no page the list is empty and [defaultPage] is [null];
    with the pages [p1], [p2] in that order [defaultPage] is [p1]'s
    identifier. *)
Theorem handleGetPages_spec (store : Store) :
  let pages := filter is_page store in
  exists (entries : list Obj) (defaultPage : JValue),
    handleGetPages (inr store)
    = Ok [ ("pages", JArr (map JObj entries)); ("defaultPage", defaultPage) ]
    /\ Forall2 (fun page entry =>
         (exists name : JValue,
            entry = [ ("id", obj_get page "id"); ("name", name);
                      ("index", obj_get page "index") ]
            /\ (obj_has page "name" = false -> name = JStr "Untitled")
            /\ (obj_get page "name" = JStr "" -> name = JStr "Untitled")
            /\ (forall n : string, obj_get page "name" = JStr n -> n <> "" -> name = JStr n)))
         pages entries
    /\ (pages = [] -> entries = [] /\ defaultPage = JNull)
    /\ (forall (p : Obj) (rest : list Obj),
          pages = p :: rest -> truthy (obj_get p "id") = true ->
          defaultPage = obj_get p "id")
    /\ (store = [ [("id", JStr "p1"); ("typeName", JStr "page"); ("index", JStr "a1")];
                  [("id", JStr "p2"); ("typeName", JStr "page"); ("index", JStr "a2")] ] ->
        defaultPage = JStr "p1").
Proof.
  cbv zeta. unfold handleGetPages.
  eexists _, _. split; [reflexivity|]. split; [|split; [|split]].
  - apply Forall2_map_right. intros page _.
    exists (js_or (obj_get page "name") (JStr "Untitled")).
    split; [reflexivity|]. split; [|split].
    + intros H. now rewrite (obj_get_absent _ _ H).
    + now intros ->.
    + intros n -> Hn. apply js_or_truthy. simpl.
      apply String.eqb_neq in Hn. now rewrite Hn.
  - intros ->. now split.
  - intros p rest -> Hp. cbn [map first_id page_entry obj_get String.eqb].
    simpl. now apply js_or_truthy.
  - intros ->. reflexivity.
Qed.

(** C7, as stated, fails: a page whose name is present but empty is listed
    under the name ["Untitled"], not under its own; and the call does fail,
    with the [catch] block's answer, when [getRoom] throws for want of a room
    identifier. *)
Lemma handleGetPages_empty_name :
  obj_has [("id", JStr "page:p1"); ("typeName", JStr "page"); ("name", JStr "");
           ("index", JStr "a1")] "name" = true
  /\ handleGetPages
       (inr [ [("id", JStr "page:p1"); ("typeName", JStr "page"); ("name", JStr "");
               ("index", JStr "a1")] ])
     = Ok [ ("pages", JArr [ JObj [ ("id", JStr "page:p1"); ("name", JStr "Untitled");
                                    ("index", JStr "a1") ] ]);
            ("defaultPage", JStr "page:p1") ]
  /\ handleGetPages (inl MissingRoomId) = Caught MissingRoomId.
Proof. repeat split. Qed.

End PagesClaims.

(** C7, witness: the sample room has two pages, the second one unnamed. *)
Lemma handleGetPages_spec_witness :
  exists (entries : list Obj) (defaultPage : JValue),
    handleGetPages (inr Sample.store)
    = Ok [ ("pages", JArr (map JObj entries)); ("defaultPage", defaultPage) ]
    /\ defaultPage = JStr "page:p1".
Proof.
  destruct (handleGetPages_spec Sample.store) as (entries & d & H & _ & _ & Hd & _).
  exists entries, d. split; [exact H|].
  exact (Hd Sample.page1 [Sample.page2] eq_refl eq_refl).
Defined.

(** ** [list_widgets] *)

Section WidgetsFacts.

Lemma split_comma_nonempty (s : string) : split_comma s <> [].
Proof.
  induction s as [|c s IH]; simpl; [discriminate|].
  destruct (Ascii.eqb c ","%char); [discriminate|].
  now destruct (split_comma s).
Qed.

Lemma filter_filter {A : Type} (f g : A -> bool) (l : list A) :
  filter f (filter g l) = filter (fun x => g x && f x) l.
Proof.
  induction l as [|x l IH]; simpl; [reflexivity|].
  destruct (g x); simpl; [|exact IH].
  destruct (f x); now rewrite IH.
Qed.

Lemma traverse_total {A B : Type} (f : A -> option B) (g : A -> B) (l : list A) :
  (forall x, In x l -> f x = Some (g x)) -> traverse f l = Some (map g l).
Proof.
  induction l as [|x l IH]; intros H; simpl; [reflexivity|].
  rewrite (H x) by now left.
  now rewrite IH by (intros y Hy; apply H; now right).
Qed.


Lemma select_widgets_filter (pageId ids : option string) (store : Store) :
  select_widgets pageId (option_map split_comma ids) store
  = filter (selected pageId (option_map split_comma ids)) store.
Proof.
  unfold select_widgets, selected.
  assert (E : forall r, on_page pageId r
                        = match pageId with
                          | Some p => (p =? "") || str_eq (obj_get r "parentId") p
                          | None => true
                          end).
  { intros r. unfold on_page. destruct pageId as [p|]; simpl; [|reflexivity].
    now rewrite negb_involutive. }
  destruct ids as [l|]; simpl.
  - destruct (split_comma l) eqn:El; [now apply split_comma_nonempty in El|].
    simpl. rewrite filter_filter. apply filter_ext. intros r. now rewrite E.
  - apply filter_ext. intros r. rewrite E. now rewrite andb_true_r.
Qed.


Lemma widget_entry_object (fields : option (list string)) (shape props : Obj) :
  obj_get shape "props" = JObj props ->
  widget_entry fields shape = Some (entry_of fields shape props).
Proof. intros H. unfold widget_entry. now rewrite H. Qed.

Lemma obj_has_set (o : Obj) (k k0 : string) (v : JValue) :
  obj_has (obj_set o k v) k0 = (k =? k0) || obj_has o k0.
Proof.
  destruct (k =? k0) eqn:E.
  - apply String.eqb_eq in E; subst. apply obj_has_set_same.
  - apply obj_has_set_other. intros ->. now rewrite String.eqb_refl in E.
Qed.

Lemma obj_has_when (b : bool) (o : Obj) (k k0 : string) (v : JValue) :
  obj_has (when b k v o) k0 = (b && (k =? k0)) || obj_has o k0.
Proof. destruct b; simpl; [apply obj_has_set | reflexivity]. Qed.

End WidgetsFacts.

Section WidgetsClaims.


Lemma entry_of_keys (fields : option (list string)) (shape props : Obj) (k : string) :
  obj_has (entry_of fields shape props) k = true
  <-> In k always_listed \/ (In k optional_projections /\ wants fields k = true).
Proof.
  unfold entry_of. rewrite !obj_has_when. cbn [obj_has].
  rewrite orb_false_r, !orb_true_iff, !andb_true_iff, !String.eqb_eq.
  unfold always_listed, optional_projections. cbn [In]. split.
  - intros [[H <-]|[[H <-]|[[H <-]|[[H <-]|[[H <-]|[<-|[<-|<-]]]]]]]; auto 12.
  - intros [[<-|[<-|[<-|[]]]]|[[<-|[<-|[<-|[<-|[<-|[]]]]]] H]]; auto 12.
Qed.

Lemma entry_of_values (fields : option (list string)) (shape props : Obj) :
  let widget := entry_of fields shape props in
  obj_get widget "id" = obj_get shape "id"
  /\ obj_get widget "widgetId" = obj_get props "widgetId"
  /\ obj_get widget "templateId" = obj_get props "templateId"
  /\ (wants fields "htmlContent" = true ->
      obj_get widget "htmlContent" = obj_get props "htmlContent")
  /\ (wants fields "miyagiStorage" = true ->
      obj_get widget "miyagiStorage" = js_or (obj_get props "miyagiStorage") (JObj []))
  /\ (wants fields "position" = true ->
      obj_get widget "position" = JObj [ ("x", obj_get shape "x"); ("y", obj_get shape "y") ])
  /\ (wants fields "size" = true ->
      obj_get widget "size" = JObj [ ("w", obj_get props "w"); ("h", obj_get props "h") ])
  /\ (wants fields "properties" = true -> obj_get widget "properties" = JObj props).
Proof.
  cbv zeta. unfold entry_of.
  destruct (wants fields "htmlContent"), (wants fields "miyagiStorage"),
    (wants fields "position"), (wants fields "size"), (wants fields "properties");
    repeat split; intros; try discriminate; reflexivity.
Qed.

Lemma wants_unknown (unknown name : string) (l : list string) :
  In name optional_projections -> ~ In unknown optional_projections ->
  wants (Some (unknown :: l)) name = wants (Some l) name.
Proof.
  intros Hn Hu. unfold wants, includes. cbn [existsb].
  destruct (name =? unknown) eqn:E; [|reflexivity].
  apply String.eqb_eq in E. subst. contradiction.
Qed.

(** C8 (as amended): [list_widgets] lists exactly the shape records of widget
    type, in the order of the store, restricted by exact [parentId] match
    when [pageId] is supplied and not empty and by membership of the
    identifier when [ids] is supplied; each widget listed always carries
    [id], [widgetId] and [templateId] and carries an optional projection
    exactly when [fields] is absent or names it; a name in [fields] that is
    not a projection changes nothing. *)
Theorem handleGetWidgets_spec (pageId ids fields : option string) (store : Store) :
  store_ok store = true ->
  let idList := option_map split_comma ids in
  let fieldList := option_map split_comma fields in
  exists widgets : list Obj,
    handleGetWidgets pageId ids fields (inr store)
    = Ok [ ("widgets", JArr (map JObj widgets));
           ("pageId", js_or (param pageId) (JStr "page:page")) ]
    /\ Forall2 (fun shape widget =>
         let props := obj_get shape "props" in
         (forall k : string,
            obj_has widget k = true
            <-> In k always_listed
                \/ (In k optional_projections /\ wants fieldList k = true))
         /\ obj_get widget "id" = obj_get shape "id"
         /\ obj_get widget "widgetId" = opt_get props "widgetId"
         /\ obj_get widget "templateId" = opt_get props "templateId"
         /\ (wants fieldList "htmlContent" = true ->
             obj_get widget "htmlContent" = opt_get props "htmlContent")
         /\ (wants fieldList "miyagiStorage" = true ->
             obj_get widget "miyagiStorage" = js_or (opt_get props "miyagiStorage") (JObj []))
         /\ (wants fieldList "position" = true ->
             obj_get widget "position"
             = JObj [ ("x", obj_get shape "x"); ("y", obj_get shape "y") ])
         /\ (wants fieldList "size" = true ->
             obj_get widget "size"
             = JObj [ ("w", opt_get props "w"); ("h", opt_get props "h") ])
         /\ (wants fieldList "properties" = true -> obj_get widget "properties" = props))
       (filter (selected pageId idList) store) widgets
    /\ (forall (unknown : string) (l : list string) (shape : Obj),
          ~ In unknown optional_projections ->
          widget_entry (Some (unknown :: l)) shape = widget_entry (Some l) shape).
Proof.
  intros Hok. cbv zeta. unfold handleGetWidgets.
  rewrite select_widgets_filter.
  set (fieldList := option_map split_comma fields).
  set (keep := selected pageId (option_map split_comma ids)).
  assert (Hprops : forall shape, In shape (filter keep store) ->
                     exists props, obj_get shape "props" = JObj props).
  { intros shape Hin. apply filter_In in Hin as [Hin Hk].
    unfold store_ok in Hok. rewrite forallb_forall in Hok. specialize (Hok _ Hin).
    unfold keep, selected in Hk. apply andb_prop in Hk as [Hk _].
    apply andb_prop in Hk as [Hk _]. rewrite Hk in Hok.
    destruct (obj_get shape "props"); try discriminate. now eexists. }
  rewrite (traverse_total _ (fun shape => entry_of fieldList shape (own_props (obj_get shape "props")))).
  2:{ intros shape Hin. destruct (Hprops shape Hin) as [props Hp].
      rewrite Hp. now apply widget_entry_object. }
  eexists. split; [reflexivity|]. split.
  - apply Forall2_map_right. intros shape Hin.
    destruct (Hprops shape Hin) as [props Hp]. rewrite Hp. cbn [own_props opt_get].
    split; [intros k; apply entry_of_keys|]. apply entry_of_values.
  - intros unknown l shape Hu. unfold widget_entry.
    destruct (member (obj_get shape "props") "widgetId"); [|reflexivity].
    now rewrite !(wants_unknown unknown _ l) by (assumption || (simpl; auto 8)).
Qed.

(** C8, witness: the widgets of one page of the sample room, with their
    positions and a name that is no projection. *)
Lemma handleGetWidgets_spec_witness :
  exists widgets : list Obj,
    handleGetWidgets (Some "page:p2") None (Some "position,colour") (inr Sample.store)
    = Ok [ ("widgets", JArr (map JObj widgets)); ("pageId", JStr "page:p2") ]
    /\ widgets = [ [ ("id", JStr "shape:w2"); ("widgetId", JStr "notepad_2");
                     ("templateId", JStr "notepad");
                     ("position", JObj [ ("x", JNum 10); ("y", JNum 20) ]) ] ].
Proof.
  destruct (handleGetWidgets_spec (Some "page:p2") None (Some "position,colour")
              Sample.store eq_refl) as (widgets & H & _).
  exists widgets. split; [exact H|].
  inversion H as [E].
  destruct widgets as [|w [|w' ws]]; try discriminate E.
  now inversion E.
Defined.

(** C8, as stated, fails: with [pageId] supplied as the empty string the
    widgets of every page are listed, none of which has that [parentId]. *)
Lemma handleGetWidgets_empty_pageId :
  handleGetWidgets (Some "") None (Some "id") (inr Sample.store)
  = Ok [ ("widgets",
          JArr [ JObj [ ("id", JStr "shape:w1"); ("widgetId", JStr "timer_1");
                        ("templateId", JStr "timer") ];
                 JObj [ ("id", JStr "shape:w2"); ("widgetId", JStr "notepad_2");
                        ("templateId", JStr "notepad") ] ]);
         ("pageId", JStr "page:page") ]
  /\ filter (fun r => str_eq (obj_get r "parentId") "") Sample.store = [].
Proof. split; reflexivity. Qed.

End WidgetsClaims.

(** ** The canvas tool routes *)

Section RouteClaims.

Import Routes.

Variable getTemplateHtml : JValue -> JValue.
Variable generateBasicWidget : JValue -> option JValue.
Variable validate : Obj -> option string.
Variable rand : string.
Variable now : Z.

(** C5: the route of [update_widget_storage] calls a method the handler
    class does not declare.  Whatever the request and whatever [getRoom]
    would give, the call throws a [TypeError] before any handler runs: no
    storage is merged or replaced, no key is reported, the room is left as it
    was; every other tool route reaches the handler it names. *)
Theorem update_storage_route_throws (q : ToolRequest) (room : RoomResult) (store : Store) :
  route getTemplateHtml generateBasicWidget validate rand now UpdateStorage q room
  = Thrown TypeError
  /\ left_by store
       (route getTemplateHtml generateBasicWidget validate rand now UpdateStorage q
          (inr store))
     = store
  /\ (forall r : Route, r <> UpdateStorage ->
        exists (answer : Response) (effect : Effect),
          route getTemplateHtml generateBasicWidget validate rand now r q room
          = Handled answer effect).
Proof.
  split; [reflexivity|]. split; [reflexivity|].
  intros r Hr. unfold route.
  destruct (method getTemplateHtml generateBasicWidget validate rand now (target r))
    as [handle|] eqn:E.
  - destruct (handle q room) as [answer effect]. now exists answer, effect.
  - destruct r; try congruence;
      cbn [target method String.eqb Ascii.eqb Bool.eqb] in E; discriminate E.
Qed.

End RouteClaims.

(** C5, at a request: the empty storage of the second sample widget is to
    get the key [a]; the route throws and the widget keeps its storage. *)
Example update_storage_route_run :
  let q := {| Routes.pageId := None; Routes.ids := None; Routes.fields := None;
              Routes.shapeId := "shape:w2";
              Routes.json := JObj [ ("storageData", JObj [ ("a", JStr "1") ]);
                                    ("merge", JBool true) ] |} in
  let outcome := Routes.route Markup.getTemplateHtml (fun _ => None) Sample.validate
                   "k3x9" 1700000000000 Routes.UpdateStorage q (inr Sample.store) in
  outcome = Routes.Thrown TypeError
  /\ option_map (fun w => opt_get (obj_get w "props") "miyagiStorage")
       (find (is_widget_with_id "shape:w2") (Routes.left_by Sample.store outcome))
     = Some (JObj []).
Proof. split; reflexivity. Qed.


(** ** [getRoom] *)

Section RoomFacts.

Import TldrawDurableObject.


Lemma init_constructed_once (stored : option string) : constructed_once (init stored).
Proof. left. now repeat split. Qed.

Lemma getRoom_constructed_once (s : State) :
  constructed_once s -> constructed_once (snd (getRoom s)).
Proof.
  intros H. unfold getRoom. destruct (unbound s) eqn:Hu; [exact H|].
  destruct (roomPromise s) as [p|] eqn:Hp; cbn [snd]; [exact H|].
  destruct H as [(_ & Hl & Hn & Hr)|(Hp' & _)]; [|congruence].
  right. cbn. rewrite Hl, Hn, Hr. repeat split; auto.
Qed.

Lemma getRoom_returns_first (s : State) (p : nat) :
  constructed_once s -> fst (getRoom s) = inr p -> p = 0.
Proof.
  intros H. unfold getRoom. destruct (unbound s); [discriminate|].
  destruct H as [(Hp & Hl & _)|(Hp & _)]; rewrite Hp; cbn [fst].
  - rewrite Hl. simpl. congruence.
  - congruence.
Qed.

Lemma resume_constructed_once (s : State) (p : nat) (l : Load) :
  constructed_once s -> constructed_once (resume s p l).
Proof.
  intros H. unfold resume.
  destruct (is_pending (promises s) p) eqn:Hpend; [|exact H].
  destruct H as [(Hp & Hl & Hn & Hr)|(Hp & Hn & Hu & Hs)].
  - rewrite Hl in Hpend. now destruct p.
  - destruct Hs as [[Hl Hr]|[[Hl Hr]|[m [Hl Hr]]]];
      rewrite Hl in Hpend; destruct p as [|[|p]]; try discriminate.
    right. destruct l; cbn; rewrite ?Hl, ?Hr; cbn; repeat split; eauto.
Qed.

Lemma bind_constructed_once (s : State) (r : string) :
  constructed_once s -> constructed_once (bind s r).
Proof.
  intros H. unfold bind. destruct (unbound s) eqn:Hu; [|exact H].
  destruct H as [H|(_ & _ & Hb & _)]; [now left | congruence].
Qed.

Lemma step_constructed_once (s : State) (e : Event) :
  constructed_once s -> constructed_once (fst (step s e)).
Proof.
  intros H. destruct e as [r| |p l]; cbn [step fst].
  - now apply bind_constructed_once.
  - pose proof (getRoom_constructed_once s H) as H'.
    destruct (getRoom s) as [[e|p] s']; exact H'.
  - now apply resume_constructed_once.
Qed.

Lemma step_returns_first (s : State) (e : Event) (p : nat) :
  constructed_once s -> In (Returned p) (snd (step s e)) -> p = 0.
Proof.
  intros H. destruct e as [r| |q l]; cbn [step snd]; try contradiction.
  pose proof (getRoom_returns_first s) as G.
  destruct (getRoom s) as [[e|q] s']; cbn [snd In]; intros [E|[]]; [discriminate|].
  inversion E; subst. now apply G.
Qed.

Lemma run_cons (s : State) (e : Event) (es : list Event) :
  run s (e :: es)
  = (fst (run (fst (step s e)) es), (snd (step s e) ++ snd (run (fst (step s e)) es))%list).
Proof.
  cbn [run]. destruct (step s e) as [s1 o1]. cbn [fst snd].
  now destruct (run s1 es).
Qed.

Lemma run_constructed_once (s : State) (es : list Event) :
  constructed_once s ->
  constructed_once (fst (run s es))
  /\ forall p, In (Returned p) (snd (run s es)) -> p = 0.
Proof.
  revert s. induction es as [|e es IH]; intros s H.
  - split; [exact H | intros p []].
  - rewrite run_cons. cbn [fst snd].
    destruct (IH _ (step_constructed_once s e H)) as [H1 H2].
    split; [exact H1|]. intros p Hin. apply in_app_or in Hin as [Hin|Hin].
    + now apply (step_returns_first s e).
    + now apply H2.
Qed.

End RoomFacts.

Section RoomClaims.

Import TldrawDurableObject.

Lemma fulfilled_in_range (l : list Settled) (p r : nat) :
  nth p l Pending = Fulfilled r -> p < List.length l.
Proof.
  intros H. destruct (Nat.lt_ge_cases p (List.length l)) as [|Hge]; [assumption|].
  rewrite (nth_overflow l Pending Hge) in H. discriminate.
Qed.

Lemma settle_keeps (l : list Settled) (q : nat) (v : Settled) (p r : nat) :
  nth p l Pending = Fulfilled r -> nth p (settle l q v) Pending = Fulfilled r.
Proof.
  revert q p. induction l as [|x l IH]; intros q p H; [now destruct q|].
  destruct q as [|q]; destruct p as [|p]; simpl in *.
  - subst x. reflexivity.
  - now destruct x.
  - destruct x; exact H.
  - destruct x; now apply IH.
Qed.

Lemma step_keeps (s : State) (e : Event) (p r : nat) :
  awaited s p = Fulfilled r -> awaited (fst (step s e)) p = Fulfilled r.
Proof.
  unfold awaited. intros H. destruct e as [b| |q l]; cbn [step fst].
  - unfold bind. now destruct (unbound s).
  - unfold getRoom. destruct (unbound s); [exact H|].
    destruct (roomPromise s); cbn [fst promises]; [exact H|].
    rewrite app_nth1; [exact H | now apply fulfilled_in_range in H].
  - unfold resume. destruct (is_pending (promises s) q); [|exact H].
    destruct l; cbn [promises]; now apply settle_keeps.
Qed.

Lemma run_keeps (s : State) (es : list Event) (p r : nat) :
  awaited s p = Fulfilled r -> awaited (fst (run s es)) p = Fulfilled r.
Proof.
  revert s. induction es as [|e es IH]; intros s H; [exact H|].
  rewrite run_cons. cbn [fst]. apply IH. now apply step_keeps.
Qed.

(** C1: however the object is used from its start, the bucket is read at
    most once and at most one room is created; all the calls of [getRoom]
    that return, return one and the same promise, whether they come while
    the construction is pending or after it; a fulfilled promise holds the
    one room that was created, and keeps it whatever happens next; and a
    call on an object without a room identifier throws the
    missing-identifier error and changes nothing, while a call on a bound
    object returns that same promise. *)
Theorem getRoom_single_instance (stored : option string) (es : list Event) :
  let s := fst (run (init stored) es) in
  let outs := snd (run (init stored) es) in
  loads s <= 1 /\ rooms s <= 1
  /\ (forall p q : nat, In (Returned p) outs -> In (Returned q) outs -> p = q)
  /\ (forall p r : nat, awaited s p = Fulfilled r -> p = 0 /\ r = 1 /\ rooms s = 1)
  /\ (forall (p r : nat) (es' : list Event),
        awaited s p = Fulfilled r -> awaited (fst (run s es')) p = Fulfilled r)
  /\ (unbound s = true -> getRoom s = (inl MissingRoomId, s))
  /\ (unbound s = false ->
      exists p : nat,
        fst (getRoom s) = inr p
        /\ (forall q : nat, In (Returned q) outs -> q = p)
        /\ loads (snd (getRoom s)) = 1).
Proof.
  cbv zeta.
  destruct (run_constructed_once (init stored) es (init_constructed_once stored)) as [Hs Ho].
  set (s := fst (run (init stored) es)) in *.
  set (outs := snd (run (init stored) es)) in *.
  split; [|split; [|split; [|split; [|split; [|split]]]]].
  - destruct Hs as [(_ & _ & -> & _)|(_ & -> & _)]; lia.
  - destruct Hs as [(_ & _ & _ & ->)|(_ & _ & _ & [[_ ->]|[[_ ->]|[m [_ ->]]]])]; lia.
  - intros p q Hp Hq. now rewrite (Ho p Hp), (Ho q Hq).
  - intros p r. unfold awaited.
    destruct Hs as [(_ & -> & _)|(_ & _ & _ & [[-> _]|[[-> Hr]|[m [-> _]]]])];
      destruct p as [|[|p]]; simpl; intros H; try discriminate.
    inversion H. now subst.
  - intros p r es' H. now apply run_keeps.
  - intros Hu. unfold getRoom. now rewrite Hu.
  - intros Hu. exists 0.
    pose proof (getRoom_returns_first s) as G.
    pose proof (getRoom_constructed_once s Hs) as Hs'.
    unfold getRoom in *. rewrite Hu in *.
    destruct (roomPromise s) as [p|] eqn:Hp; cbn [fst snd] in *.
    + rewrite (G p Hs eq_refl). split; [reflexivity|]. split; [exact Ho|].
      destruct Hs as [(Hn & _)|(_ & Hl & _)]; [congruence | exact Hl].
    + destruct Hs as [(_ & Hl & Hn & _)|(Hn & _)]; [|congruence].
      rewrite Hl. split; [reflexivity|]. split; [exact Ho|]. now rewrite Hn.
Qed.

(** C1, witness: a call before the identifier is bound, two while the
    construction is pending and one after it; a further call returns the
    promise the earlier ones returned. *)
Lemma getRoom_single_instance_witness :
  let es := [ CallGetRoom; Connect "room-1"; CallGetRoom; CallGetRoom;
              Resume 0 Absent; CallGetRoom ] in
  let s := fst (run (init None) es) in
  let outs := snd (run (init None) es) in
  exists p : nat,
    fst (getRoom s) = inr p
    /\ (forall q : nat, In (Returned q) outs -> q = p)
    /\ loads (snd (getRoom s)) = 1.
Proof.
  cbv zeta.
  pose proof (getRoom_single_instance None
                [ CallGetRoom; Connect "room-1"; CallGetRoom; CallGetRoom;
                  Resume 0 Absent; CallGetRoom ]) as H.
  cbv zeta in H. destruct H as (_ & _ & _ & _ & _ & _ & H).
  exact (H eq_refl).
Defined.

(** The same run, step by step. *)
Example getRoom_run :
  run (init None)
    [ CallGetRoom; Connect "room-1"; CallGetRoom; CallGetRoom; Resume 0 Absent; CallGetRoom ]
  = ({| roomId := Some "room-1"; roomPromise := Some 0; promises := [Fulfilled 1];
        loads := 1; rooms := 1 |},
     [ Threw MissingRoomId; Returned 0; Returned 0; Returned 0 ]).
Proof. reflexivity. Qed.

End RoomClaims.

(** ** Throttled persistence *)

Section PersistenceClaims.

Import Persistence.

Lemma last_cons {A : Type} (l : list A) (a d : A) : last (a :: l) d = last l a.
Proof.
  revert a d. induction l as [|b l IH]; intros a d; [reflexivity|].
  change (last (a :: b :: l) d) with (last (b :: l) d).
  now rewrite !IH.
Qed.

Lemma last_app_default {A : Type} (l1 l2 : list A) (d : A) :
  last (l1 ++ l2) d = last l2 (last l1 d).
Proof.
  revert d. induction l1 as [|a l1 IH]; intros d; [reflexivity|].
  cbn [app]. now rewrite !last_cons, IH.
Qed.

Lemma fire_throttle (v : World) (d : Z) :
  timerId (throttle v) = Some d ->
  throttle (fire v) = fst (expire (throttle v) d).
Proof.
  intros Ed. unfold fire. rewrite Ed.
  destruct (expire (throttle v) d) as [th invoked].
  destruct invoked; unfold invoke; cbn [bound]; try destruct (bound v); reflexivity.
Qed.

(** A timer armed anew is due when a call is to be invoked. *)
Lemma expire_twice (th : Throttle) (d : Z) :
  shouldInvoke th d = false ->
  shouldInvoke (fst (expire th d)) (d + remainingWait th d) = true.
Proof.
  intros Es. unfold expire. rewrite Es. cbn [fst].
  unfold shouldInvoke, remainingWait in *. cbn [lastCallTime lastInvokeTime].
  destruct (lastCallTime th) as [c|]; [|reflexivity].
  apply orb_false_iff in Es as [Es E3]. apply orb_false_iff in Es as [E1 E2].
  apply Z.leb_gt in E1, E3. apply Z.ltb_ge in E2.
  apply orb_true_iff.
  destruct (Z.min_spec (wait - (d - c)) (wait - (d - lastInvokeTime th)))
    as [[_ ->]|[_ ->]].
  - left. apply orb_true_iff. left. apply Z.leb_le. lia.
  - right. apply Z.leb_le. lia.
Qed.

(** Two rounds are all that [advance] needs: no timer is left due. *)
Lemma advance_settled (w : World) (time : Z) : due_by (advance w time) time = false.
Proof.
  unfold advance.
  destruct (due_by w time) eqn:E1; [|now rewrite E1].
  destruct (due_by (fire w) time) eqn:E2; [|exact E2].
  unfold due_by in E1, E2 |- *.
  destruct (timerId (throttle w)) as [d|] eqn:Ed; [|discriminate E1].
  rewrite (fire_throttle w d Ed) in E2.
  destruct (shouldInvoke (throttle w) d) eqn:Es.
  - unfold expire in E2. rewrite Es in E2. discriminate E2.
  - assert (Ed2 : timerId (throttle (fire w)) = Some (d + remainingWait (throttle w) d)%Z).
    { rewrite (fire_throttle w d Ed). unfold expire. now rewrite Es. }
    rewrite (fire_throttle (fire w) _ Ed2), (fire_throttle w d Ed).
    unfold expire at 1. now rewrite (expire_twice _ _ Es).
Qed.

Lemma advance_idle (w : World) (time : Z) :
  due_by w time = false -> advance w time = w.
Proof. intros H. unfold advance. cbv zeta. rewrite H. cbv iota. now rewrite H. Qed.

Lemma call_opened (t0 called time : Z) (waiting : bool) :
  (t0 <= called)%Z -> (called <= time)%Z -> (time < t0 + wait)%Z ->
  call (opened t0 called waiting) time = (opened t0 time true, false).
Proof.
  intros H0 H1 H2. unfold call, shouldInvoke, opened.
  cbn [lastCallTime lastInvokeTime timerId].
  replace (wait <=? time - called)%Z with false by (symmetry; apply Z.leb_gt; lia).
  replace (time - called <? 0)%Z with false by (symmetry; apply Z.ltb_ge; lia).
  replace (wait <=? time - t0)%Z with false by (symmetry; apply Z.leb_gt; lia).
  reflexivity.
Qed.

(** Inside the window a mutation changes the room and leaves a call
    waiting; nothing is invoked. *)
Lemma notify_opened (w : World) (t0 called time : Z) (waiting : bool) (store' : Store) :
  throttle w = opened t0 called waiting ->
  (t0 <= called)%Z -> (called <= time)%Z -> (time < t0 + wait)%Z ->
  notify time w store'
  = {| bound := bound w; room := store'; throttle := opened t0 time true;
       reading := reading w; saved := saved w |}.
Proof.
  intros Ht H0 H1 H2. unfold notify.
  now rewrite Ht, (call_opened t0 called time waiting H0 H1 H2).
Qed.

Lemma fold_notify_opened (ms : list Store) (w : World) (t0 called time : Z)
    (waiting : bool) :
  throttle w = opened t0 called waiting ->
  (t0 <= called)%Z -> (called <= time)%Z -> (time < t0 + wait)%Z ->
  let w' := fold_left (notify time) ms w in
  bound w' = bound w /\ saved w' = saved w /\ reading w' = reading w
  /\ room w' = last ms (room w)
  /\ exists called' : Z,
       throttle w' = opened t0 called' (waiting || negb (Nat.eqb (List.length ms) 0))
       /\ (t0 <= called')%Z /\ (called' <= time)%Z.
Proof.
  revert w called waiting.
  induction ms as [|m ms IH]; intros w called waiting Ht H0 H1 H2; cbn [fold_left].
  - cbv zeta. repeat split. exists called. rewrite orb_false_r. now repeat split.
  - rewrite (notify_opened w t0 called time waiting m Ht H0 H1 H2).
    destruct (IH {| bound := bound w; room := m; throttle := opened t0 time true;
                    reading := reading w; saved := saved w |}
                time true eq_refl ltac:(lia) ltac:(lia) H2)
      as (Hb & Hs & Hr & Hroom & c' & Hth & Hc1 & Hc2).
    cbn [bound saved reading room] in *. cbv zeta.
    repeat split; try assumption.
    + rewrite Hroom. now rewrite last_cons.
    + exists c'. cbn [List.length Nat.eqb negb]. rewrite orb_true_r.
      now repeat split.
Qed.

(** A task inside the window saves nothing. *)
Lemma task_opened (w : World) (t0 called : Z) (waiting : bool) (k : Task) :
  throttle w = opened t0 called waiting -> reading w = 0 ->
  (t0 <= called)%Z -> (called <= fst k)%Z -> (fst k < t0 + wait)%Z ->
  let w' := task w k in
  bound w' = bound w /\ saved w' = saved w /\ reading w' = 0
  /\ room w' = last (snd k) (room w)
  /\ exists called' : Z,
       throttle w' = opened t0 called' (waiting || negb (Nat.eqb (List.length (snd k)) 0))
       /\ (t0 <= called')%Z /\ (called' <= fst k)%Z.
Proof.
  destruct k as [time ms]. cbn [fst snd]. intros Ht Hr H0 H1 H2. cbv zeta.
  unfold task.
  assert (Ha : advance w time = w).
  { apply advance_idle. unfold due_by. rewrite Ht. cbn [opened timerId].
    apply Z.leb_gt. lia. }
  rewrite Ha.
  destruct (fold_notify_opened ms w t0 called time waiting Ht H0 H1 H2)
    as (Hb & Hs & Hrd & Hroom & c' & Hth & Hc1 & Hc2).
  unfold end_task. cbn [bound saved reading room throttle].
  rewrite Hrd, Hr. cbn [repeat]. rewrite app_nil_r.
  repeat split; try assumption. now exists c'.
Qed.

Lemma tasks_opened (tasks : list Task) (w : World) (t0 called : Z) (waiting : bool) :
  throttle w = opened t0 called waiting -> reading w = 0 ->
  (t0 <= called)%Z ->
  in_order called tasks -> Forall (fun k => (fst k < t0 + wait)%Z) tasks ->
  let w' := fold_left task tasks w in
  bound w' = bound w /\ saved w' = saved w /\ reading w' = 0
  /\ room w' = last (mutations tasks) (room w)
  /\ exists called' : Z,
       throttle w'
       = opened t0 called' (waiting || negb (Nat.eqb (List.length (mutations tasks)) 0)).
Proof.
  revert w called waiting.
  induction tasks as [|k tasks IH]; intros w called waiting Ht Hr H0 Ho Hw;
    cbn [fold_left]; cbv zeta.
  - repeat split; try assumption. exists called. cbn. now rewrite orb_false_r.
  - destruct Ho as [Hk Ho]. inversion Hw as [|? ? Hk2 Hw2]; subst.
    destruct (task_opened w t0 called waiting k Ht Hr H0 Hk Hk2)
      as (Hb & Hs & Hrd & Hroom & c' & Hth & Hc1 & Hc2).
    assert (Ho' : in_order c' tasks).
    { destruct tasks as [|k' tasks']; [exact I|].
      destruct Ho as [Hk' Ho]. split; [lia | exact Ho]. }
    destruct (IH (task w k) c' _ Hth Hrd Hc1 Ho' Hw2)
      as (Hb' & Hs' & Hrd' & Hroom' & c'' & Hth').
    repeat split; try congruence.
    + rewrite Hroom', Hroom. unfold mutations. cbn [map concat].
      now rewrite last_app_default.
    + exists c''. rewrite Hth'. f_equal.
      unfold mutations. cbn [map concat]. rewrite length_app.
      destruct (snd k); cbn [List.length Nat.add Nat.eqb negb];
        [now rewrite orb_false_r | now rewrite !orb_true_r].
Qed.

Lemma expire_opened (t0 called : Z) (waiting : bool) :
  expire (opened t0 called waiting) (t0 + wait)
  = ({| timerId := None; lastArgs := false; lastCallTime := Some called;
        lastInvokeTime := if waiting then (t0 + wait)%Z else t0 |}, waiting).
Proof.
  unfold expire, shouldInvoke, opened. cbn [lastCallTime lastInvokeTime lastArgs].
  replace (wait <=? t0 + wait - t0)%Z with true by (symmetry; apply Z.leb_le; lia).
  now rewrite orb_true_r.
Qed.

(** The timer of the window saves the room if a call is waiting, and only
    then; no timer is armed after it. *)
Lemma drain_opened (w : World) (t0 called : Z) (waiting : bool) :
  throttle w = opened t0 called waiting -> bound w = true -> reading w = 0 ->
  saved (drain w)
  = (saved w ++ if waiting then [((t0 + wait)%Z, room w)] else [])%list.
Proof.
  intros Ht Hb Hr. unfold drain.
  assert (Hf : timerId (throttle (fire w)) = None
               /\ saved (fire w)
                  = (saved w ++ if waiting then [((t0 + wait)%Z, room w)] else [])%list).
  { unfold fire. rewrite Ht.
    change (timerId (opened t0 called waiting)) with (Some (t0 + wait)%Z).
    cbv iota. rewrite expire_opened.
    destruct waiting; unfold invoke, end_task;
      cbn [bound room throttle reading saved timerId]; rewrite ?Hb, Hr;
      cbn [bound room throttle reading saved timerId repeat]; now split. }
  destruct Hf as [Hn Hs]. unfold fire at 1. now rewrite Hn.
Qed.

(** C2 (as amended): in a window that a notification opens on a throttle
    ready to fire, that notification is saved at once, with the state the
    room has when the task that raised it ends; the notifications that
    follow inside the window, if there are any, coalesce into one save at
    window end, with the state the last mutation left; a lone notification
    has no trailing save.  So a window sees one save at its start and at most
    one at its end. *)
Theorem persist_window (w : World) (t0 : Z) (first : Store) (same : list Store)
    (others : list Task) :
  ready w t0 ->
  within t0 others ->
  let later := (same ++ mutations others)%list in
  saved (run w ((t0, first :: same) :: others))
  = (saved w
     ++ (t0, last same first)
        :: match later with
           | [] => []
           | _ :: _ => [ ((t0 + wait)%Z, last later first) ]
           end)%list.
Proof.
  intros (Hb & Hr & Ht & Hs) [Ho Hw]. cbv zeta.
  unfold run. cbn [fold_left].
  (* the task that opens the window *)
  set (w1 := task w (t0, first :: same)).
  assert (H1 : bound w1 = true /\ saved w1 = (saved w ++ [(t0, last same first)])%list
               /\ reading w1 = 0 /\ room w1 = last same first
               /\ exists c : Z,
                    throttle w1 = opened t0 c (negb (Nat.eqb (List.length same) 0))
                    /\ (t0 <= c)%Z /\ (c <= t0)%Z).
  { subst w1. unfold task.
    assert (Ha : advance w t0 = w) by (apply advance_idle; unfold due_by; now rewrite Ht).
    rewrite Ha. cbn [fold_left].
    assert (Hn : notify t0 w first
                 = {| bound := bound w; room := first; throttle := opened t0 t0 false;
                      reading := 1; saved := saved w |}).
    { unfold notify, call. rewrite Hs, Ht. unfold invoke. cbn [bound].
      now rewrite Hb, Hr. }
    rewrite Hn.
    assert (Hwait : (t0 < t0 + wait)%Z) by (unfold wait; lia).
    destruct (fold_notify_opened same
                {| bound := bound w; room := first; throttle := opened t0 t0 false;
                   reading := 1; saved := saved w |}
                t0 t0 t0 false eq_refl ltac:(lia) ltac:(lia) Hwait)
      as (Hb' & Hs' & Hrd' & Hroom' & c & Hth & Hc1 & Hc2).
    cbn [bound saved reading room] in *.
    unfold end_task. cbn [bound saved reading room throttle].
    rewrite Hb', Hs', Hrd', Hroom'. cbn [repeat].
    repeat split; try assumption. exists c. now repeat split. }
  destruct H1 as (Hb1 & Hs1 & Hr1 & Hroom1 & c & Hth1 & Hc1 & Hc2).
  assert (Ho1 : in_order c others).
  { destruct others as [|k others']; [exact I|].
    destruct Ho as [Hk Ho]. split; [lia | exact Ho]. }
  destruct (tasks_opened others w1 t0 c _ Hth1 Hr1 Hc1 Ho1 Hw)
    as (Hb2 & Hs2 & Hr2 & Hroom2 & c2 & Hth2).
  set (w2 := fold_left task others w1) in *.
  (* the timer of the window *)
  rewrite (drain_opened w2 t0 c2 _ Hth2 ltac:(congruence) Hr2).
  rewrite Hs2, Hs1, Hroom2, Hroom1. rewrite <- app_assoc. cbn [app].
  do 2 f_equal.
  rewrite last_app_default.
  destruct same as [|s same'].
  - cbn [app List.length Nat.eqb negb orb].
    destruct (mutations others) as [|m ms]; reflexivity.
  - cbn [List.length Nat.eqb negb orb app]. reflexivity.
Qed.

(** C2, witness: three mutations within ten seconds, each in a task of its
    own, on a room just constructed. *)
Lemma persist_window_witness :
  saved (run (start []) [ (0%Z, [ [Sample.page1] ]);
                          (3000%Z, [ [Sample.page1; Sample.widget1] ]);
                          (9999%Z, [ Sample.store ]) ])
  = [ (0%Z, [Sample.page1]); (10000%Z, Sample.store) ].
Proof.
  assert (Hr : ready (start []) 0) by (repeat split).
  assert (Hw : within 0 [ (3000%Z, [ [Sample.page1; Sample.widget1] ]);
                          (9999%Z, [ Sample.store ]) ]).
  { split; [cbn; lia|]. unfold wait. repeat constructor; cbn [fst]; lia. }
  exact (persist_window (start []) 0 [Sample.page1] [] _ Hr Hw).
Defined.

(** C2, as stated, fails: a lone notification is saved at once and has no
    save at window end; and two notifications in one window make two saves,
    the first of them with the state the last mutation had not yet left. *)
Lemma persist_window_leading_edge :
  saved (run (start []) [ (0%Z, [ Sample.store ]) ]) = [ (0%Z, Sample.store) ]
  /\ saves_at (0 + wait) (run (start []) [ (0%Z, [ Sample.store ]) ]) = []
  /\ saved (run (start []) [ (0%Z, [ [Sample.page1] ]); (5000%Z, [ Sample.store ]) ])
     = [ (0%Z, [Sample.page1]); (10000%Z, Sample.store) ].
Proof. repeat split. Qed.

(** Two mutations of one task are both in the save that the first of them
    started, and a notification that comes when the window has just closed
    waits for a window of its own. *)
Example persist_runs :
  saved (run (start []) [ (0%Z, [ [Sample.page1]; Sample.store ]) ])
  = [ (0%Z, Sample.store); (10000%Z, Sample.store) ]
  /\ map fst (saved (run (start []) [ (0%Z, [ [Sample.page1] ]);
                                      (5000%Z, [ [Sample.page1; Sample.page2] ]);
                                      (10000%Z, [ Sample.store ]) ]))
     = [ 0%Z; 10000%Z; 20000%Z ].
Proof. split; reflexivity. Qed.

End PersistenceClaims.

(* ===================================================================== *)
(** * Further properties of the handlers *)
(* ===================================================================== *)

(** ** Refusals, failures and writes *)

Section AnswersAndWrites.

Variable getTemplateHtml : JValue -> JValue.
Variable generateBasicWidget : JValue -> option JValue.
Variable validate : Obj -> option string.
Variable rand : string.
Variable now : Z.

Lemma member_opt_get (v : JValue) (k : string) (x : JValue) :
  member v k = Some x -> x = opt_get v k.
Proof. destruct v; simpl; intros H; inversion H; reflexivity. Qed.

(** X1: a call that lacks its required field is answered without the room
    being consulted: [add_widget] without a template, [edit_widget_html]
    without a content and [generate_widget] without a prompt or without
    [autoAdd] answer the same whatever [getRoom] gives, failure included. *)
Theorem room_not_consulted (shapeId : string) (body : JValue) (room room' : RoomResult) :
  (truthy (opt_get body "templateId") = false ->
     handleAddWidget getTemplateHtml validate rand now body room
     = handleAddWidget getTemplateHtml validate rand now body room')
  /\ (truthy (opt_get body "htmlContent") = false ->
      handleEditWidgetHtml shapeId body room = handleEditWidgetHtml shapeId body room')
  /\ (truthy (opt_get body "prompt") = false \/ truthy (opt_get body "autoAdd") = false ->
      handleGenerateWidget generateBasicWidget validate rand now body room
      = handleGenerateWidget generateBasicWidget validate rand now body room').
Proof.
  split; [|split].
  - intros H. unfold handleAddWidget.
    destruct (member body "templateId") as [t|] eqn:E; [|reflexivity].
    apply member_opt_get in E. subst t. now rewrite H.
  - intros H. unfold handleEditWidgetHtml.
    destruct (member body "htmlContent") as [t|] eqn:E; [|reflexivity].
    apply member_opt_get in E. subst t. now rewrite H.
  - intros H. unfold handleGenerateWidget.
    destruct (member body "prompt") as [t|] eqn:E; [|reflexivity].
    apply member_opt_get in E. subst t.
    destruct (truthy (opt_get body "prompt")); [|reflexivity]. cbn [negb].
    destruct H as [H|H]; [discriminate|].
    destruct (generateBasicWidget (opt_get body "prompt")); [|reflexivity].
    now rewrite H.
Qed.

(** X2: the three writing handlers write exactly when they answer with a
    success, save that [generate_widget] succeeds without writing when it is
    not asked to add: a refusal or a caught failure never leaves a record
    behind, and a success of [add_widget] or [edit_widget_html] always writes
    one. *)
Theorem writes_iff_success (shapeId : string) (body : JValue) (room : RoomResult) :
  let succeeded (r : Response * Effect) := exists payload, fst r = Ok payload in
  let wrote (r : Response * Effect) := exists record, snd r = Put record in
  (succeeded (handleAddWidget getTemplateHtml validate rand now body room)
   <-> wrote (handleAddWidget getTemplateHtml validate rand now body room))
  /\ (succeeded (handleEditWidgetHtml shapeId body room)
      <-> wrote (handleEditWidgetHtml shapeId body room))
  /\ (wrote (handleGenerateWidget generateBasicWidget validate rand now body room)
      <-> succeeded (handleGenerateWidget generateBasicWidget validate rand now body room)
          /\ truthy (opt_get body "autoAdd") = true).
Proof.
  cbv zeta. split; [|split].
  - unfold handleAddWidget.
    destruct (member body "templateId") as [t|];
      [destruct (negb (truthy t)); [|destruct room]|];
      try match goal with |- context [validate ?r] => destruct (validate r) end;
      cbn [fst snd]; split; intros [x H]; try discriminate; eauto.
  - unfold handleEditWidgetHtml.
    destruct (member body "htmlContent") as [t|];
      [destruct (negb (truthy t));
       [|destruct room as [e|store];
         [|destruct (find (is_widget_with_id shapeId) store) as [shape|];
           [destruct (negb (str_eq (obj_get shape "type") "miyagi-widget"));
            [|destruct (member (obj_get shape "props") "widgetId"); [destruct t|]]|]]]|];
      cbn [fst snd not_found]; split; intros [x H]; try discriminate; eauto.
  - unfold handleGenerateWidget.
    destruct (member body "prompt") as [t|];
      [destruct (negb (truthy t));
       [|destruct (generateBasicWidget t);
         [destruct (truthy (opt_get body "autoAdd")) eqn:Ha; [destruct room|]|]]|];
      try match goal with |- context [validate ?r] => destruct (validate r) end;
      cbn [fst snd]; split;
      try (intros [x H]; discriminate);
      try (intros [[x H] Ha']; discriminate);
      try (intros _; split; eauto); eauto.
Qed.

End AnswersAndWrites.

(** X1, witness: a body without a template, on a room and on a failed
    [getRoom]. *)
Lemma room_not_consulted_witness :
  handleAddWidget Markup.getTemplateHtml Sample.validate "k3x9" 1700000000000
    (JObj [("pageId", JStr "page:p1")]) (inr Sample.store)
  = handleAddWidget Markup.getTemplateHtml Sample.validate "k3x9" 1700000000000
      (JObj [("pageId", JStr "page:p1")]) (inl MissingRoomId).
Proof.
  exact (proj1 (room_not_consulted Markup.getTemplateHtml (fun _ => None) Sample.validate "k3x9"
                  1700000000000 "shape:w1" (JObj [("pageId", JStr "page:p1")])
                  (inr Sample.store) (inl MissingRoomId)) eq_refl).
Defined.

(** ** The canned markup *)

Section MarkupFacts.

Lemma templates_own (t : string) :
  obj_has Markup.templates t = true ->
  inherited t = false /\ exists m, obj_get Markup.templates t = JStr m /\ m <> "".
Proof.
  unfold Markup.templates. cbn [obj_has obj_get].
  destruct ("timer" =? t) eqn:E1; [apply String.eqb_eq in E1; subst|].
  { intros _. split; [reflexivity|]. eexists. split; [reflexivity | discriminate]. }
  destruct ("notepad" =? t) eqn:E2; [apply String.eqb_eq in E2; subst|].
  { intros _. split; [reflexivity|]. eexists. split; [reflexivity | discriminate]. }
  destruct ("clock" =? t) eqn:E3; [apply String.eqb_eq in E3; subst|].
  { intros _. split; [reflexivity|]. eexists. split; [reflexivity | discriminate]. }
  destruct ("weather" =? t) eqn:E4; [apply String.eqb_eq in E4; subst|].
  { intros _. split; [reflexivity|]. eexists. split; [reflexivity | discriminate]. }
  discriminate.
Qed.

(** X3: [getTemplateHtml] always has a markup to give: for every identifier
    the result is truthy; it is a string exactly when the identifier is not
    the name of a member every object inherits (then the member itself comes
    back); and an identifier that is neither a known template nor such a name
    gets the generic markup with the identifier, as written, for heading. *)
Theorem getTemplateHtml_total (t : string) :
  truthy (Markup.getTemplateHtml (JStr t)) = true
  /\ is_string (Markup.getTemplateHtml (JStr t)) = negb (inherited t)
  /\ (obj_has Markup.templates t = false -> inherited t = false ->
      Markup.getTemplateHtml (JStr t) = JStr (Markup.fallback_markup t)).
Proof.
  unfold Markup.getTemplateHtml, obj_index. cbn [to_text].
  destruct (obj_has Markup.templates t) eqn:Ho.
  - destruct (templates_own t Ho) as (Hi & m & Hm & Hne). rewrite Hm, Hi.
    apply String.eqb_neq in Hne. unfold js_or. cbn [truthy]. rewrite Hne.
    cbn. rewrite Hne. repeat split; intros; discriminate.
  - destruct (inherited t) eqn:Hi.
    + cbn. repeat split; intros; discriminate.
    + cbn. repeat split.
Qed.

Variable toLowerCase : string -> string.

(** X4: [generate_widget] without [autoAdd] needs no room: for a prompt that
    is a non-empty string the answer is a success that carries one of the
    three markups (the calculator whenever the lowered prompt holds
    [calculator], else the list of tasks whenever it holds [todo] or [task],
    else the generic markup around the prompt as written) and the fixed
    template identifier, and nothing is written, whether [getRoom] would have
    given a room or failed. *)
Theorem handleGenerateWidget_without_room (validate : Obj -> option string) (rand : string) (now : Z) (body : Obj)
    (p : string) (room : RoomResult) :
  obj_get body "prompt" = JStr p -> p <> "" ->
  truthy (obj_get body "autoAdd") = false ->
  let lowered := toLowerCase p in
  let markup :=
    if Markup.contains "calculator" lowered then Markup.calculator_markup
    else if Markup.contains "todo" lowered || Markup.contains "task" lowered
         then Markup.todo_markup
         else Markup.generic_markup p in
  handleGenerateWidget (Markup.generateBasicWidget toLowerCase) validate rand now (JObj body) room
  = (Ok [ ("htmlContent", JStr markup); ("templateId", JStr "generated-widget") ], NoWrite).
Proof.
  intros Hp Hne Ha. cbv zeta. unfold handleGenerateWidget. cbn [member opt_get].
  rewrite Hp, Ha. cbn [truthy]. apply String.eqb_neq in Hne. rewrite Hne. cbn [negb].
  unfold Markup.generateBasicWidget.
  destruct (Markup.contains "calculator" (toLowerCase p)); [reflexivity|].
  destruct (Markup.contains "todo" (toLowerCase p) || Markup.contains "task" (toLowerCase p));
    reflexivity.
Qed.

End MarkupFacts.

(** X4, witness: a prompt for a list of tasks, on an object without a room
    identifier; letters are lowered by a function that leaves a lower-case
    prompt as it is. *)
Lemma handleGenerateWidget_without_room_witness :
  handleGenerateWidget (Markup.generateBasicWidget (fun s => s)) Sample.validate "k3x9" 1700000000000
    (JObj [("prompt", JStr "a todo list")]) (inl MissingRoomId)
  = (Ok [ ("htmlContent", JStr Markup.todo_markup);
          ("templateId", JStr "generated-widget") ], NoWrite).
Proof.
  assert (Hne : "a todo list" <> "") by discriminate.
  exact (handleGenerateWidget_without_room (fun s => s) Sample.validate "k3x9" 1700000000000
           [("prompt", JStr "a todo list")] "a todo list" (inl MissingRoomId)
           eq_refl Hne eq_refl).
Defined.

(** ** A widget that was added *)

Section AddedWidget.

Lemma put_fresh (store : Store) (record : Obj) (id : string) :
  obj_get record "id" = JStr id -> fresh id store = true ->
  put store record = (store ++ [record])%list.
Proof.
  intros Hid. induction store as [|r store IH]; intros Hf; [reflexivity|].
  cbn [fresh forallb] in Hf. apply andb_prop in Hf as [Hr Hf].
  apply negb_true_iff in Hr. cbn [put]. rewrite Hid, same_id_str, Hr.
  cbn [app]. now rewrite (IH Hf).
Qed.

Lemma traverse_app {A B : Type} (f : A -> option B) (l1 l2 : list A) (b1 b2 : list B) :
  traverse f l1 = Some b1 -> traverse f l2 = Some b2 ->
  traverse f (l1 ++ l2) = Some (b1 ++ b2)%list.
Proof.
  revert b1. induction l1 as [|a l1 IH]; intros b1 H1 H2; simpl in *.
  - inversion H1. exact H2.
  - destruct (f a) as [b|]; [|discriminate].
    destruct (traverse f l1) as [bs|] eqn:E; [|discriminate].
    inversion H1; subst. now rewrite (IH bs eq_refl H2).
Qed.

(** Listing succeeds on widgets that passed the schema. *)
Lemma listing_total (fields : option (list string)) (keep : Obj -> bool) (store : Store) :
  store_ok store = true ->
  (forall r, keep r = true -> is_widget r = true) ->
  traverse (widget_entry fields) (filter keep store)
  = Some (map (fun shape => entry_of fields shape (own_props (obj_get shape "props")))
            (filter keep store)).
Proof.
  intros Hok Hk. apply traverse_total. intros shape Hin.
  apply filter_In in Hin as [Hin Hs].
  unfold store_ok in Hok. rewrite forallb_forall in Hok. specialize (Hok _ Hin).
  rewrite (Hk _ Hs) in Hok.
  destruct (obj_get shape "props") eqn:Hp; try discriminate.
  cbn [own_props]. now apply widget_entry_object.
Qed.

(** X5: a widget that was added under an identifier no record had is
    listed last and changes nothing else: when [add_widget] has written (the
    store accepted the record), the unfiltered [list_widgets] after the call
    lists what it listed before, followed by one entry for the new widget,
    which carries the [shapeId], [widgetId] and [templateId] the call
    returned. *)
Theorem add_then_list (getTemplateHtml : JValue -> JValue)
    (validate : Obj -> option string) (rand : string) (now : Z)
    (body : Obj) (fields : option string) (store : Store) (answer record : Obj) :
  handleAddWidget getTemplateHtml validate rand now (JObj body) (inr store)
  = (Ok answer, Put record) ->
  fresh ("shape:" ++ rand) store = true ->
  store_ok store = true ->
  exists (entry : Obj) (listed : list Obj),
    handleGetWidgets None None fields (inr store)
    = Ok [ ("widgets", JArr (map JObj listed)); ("pageId", JStr "page:page") ]
    /\ handleGetWidgets None None fields (inr (put store record))
       = Ok [ ("widgets", JArr (map JObj (listed ++ [entry])));
              ("pageId", JStr "page:page") ]
    /\ obj_get entry "id" = obj_get answer "shapeId"
    /\ obj_get entry "widgetId" = obj_get answer "widgetId"
    /\ obj_get entry "templateId" = obj_get answer "templateId".
Proof.
  intros H Hf Hok.
  apply handleAddWidget_wrote in H as (_ & _ & -> & ->).
  set (fieldList := option_map split_comma fields).
  eexists _, _.
  erewrite put_fresh; [|reflexivity|exact Hf].
  unfold handleGetWidgets. rewrite !(select_widgets_filter None None).
  fold fieldList. rewrite filter_app.
  assert (Hsel : forall r, selected None (option_map split_comma None) r = true ->
                           is_widget r = true).
  { intros r Hr. unfold selected in Hr. cbn in Hr. now rewrite !andb_true_r in Hr. }
  pose proof (listing_total fieldList _ store Hok Hsel) as Hl. rewrite Hl.
  split; [reflexivity|]. split.
  - erewrite traverse_app; [reflexivity | exact Hl | reflexivity].
  - destruct (wants fieldList "htmlContent"), (wants fieldList "miyagiStorage"),
      (wants fieldList "position"), (wants fieldList "size"),
      (wants fieldList "properties"); repeat split.
Qed.

(** X5, witness: a timer added to the sample room, whose store accepts it. *)
Lemma add_then_list_witness :
  exists (answer record entry : Obj) (listed : list Obj),
    handleAddWidget Markup.getTemplateHtml Sample.validate "k3x9" 1700000000000
      (JObj [("templateId", JStr "timer")]) (inr Sample.store)
    = (Ok answer, Put record)
    /\ handleGetWidgets None None (Some "position") (inr Sample.store)
       = Ok [ ("widgets", JArr (map JObj listed)); ("pageId", JStr "page:page") ]
    /\ handleGetWidgets None None (Some "position") (inr (put Sample.store record))
       = Ok [ ("widgets", JArr (map JObj (listed ++ [entry])));
              ("pageId", JStr "page:page") ]
    /\ obj_get entry "id" = obj_get answer "shapeId"
    /\ obj_get entry "widgetId" = obj_get answer "widgetId"
    /\ obj_get entry "templateId" = obj_get answer "templateId".
Proof.
  destruct (add_then_list Markup.getTemplateHtml Sample.validate "k3x9" 1700000000000
              [("templateId", JStr "timer")] (Some "position") Sample.store _ _
              eq_refl eq_refl eq_refl)
    as (entry & listed & H).
  eexists _, _, entry, listed. split; [reflexivity | exact H].
Defined.

End AddedWidget.

(** ** The schema as an invariant of the writes *)

Section SchemaKept.

Lemma forallb_obj_set (P : string -> bool) (o : Obj) (k : string) (v : JValue) :
  forallb (fun kv => P (fst kv)) o = true -> P k = true ->
  forallb (fun kv => P (fst kv)) (obj_set o k v) = true.
Proof.
  intros Ho Hk. induction o as [|[k' v'] o IH]; cbn [obj_set forallb fst] in *.
  - now rewrite Hk.
  - apply andb_prop in Ho as [Hk' Ho].
    destruct (k' =? k); cbn [forallb fst]; rewrite Hk'; [exact Ho | now apply IH].
Qed.

(** New content and a storage of strings keep a widget's properties within
    the schema. *)
Lemma schema_after_edit (props : Obj) (html : string) (storage : JValue) :
  miyagiWidgetShapeSchema (JObj props) = true ->
  is_optional_string_dict storage = true ->
  miyagiWidgetShapeSchema
    (JObj (obj_set (obj_set props "htmlContent" (JStr html)) "miyagiStorage" storage)) = true.
Proof.
  unfold miyagiWidgetShapeSchema. intros H Hs.
  repeat (apply andb_prop in H as [H ?]).
  rewrite obj_get_set_same.
  rewrite !(obj_get_set_other _ "miyagiStorage") by discriminate.
  rewrite obj_get_set_same.
  rewrite !(obj_get_set_other _ "htmlContent") by discriminate.
  repeat (apply andb_true_intro; split); try assumption; try reflexivity.
  pose (P := fun k : string => existsb (String.eqb k) widget_prop_names).
  apply (forallb_obj_set P); [apply (forallb_obj_set P)|]; auto.
Qed.

Lemma store_ok_put (store : Store) (record : Obj) :
  store_ok store = true ->
  (is_widget record = true -> miyagiWidgetShapeSchema (obj_get record "props") = true) ->
  store_ok (put store record) = true.
Proof.
  intros Hs Hr.
  assert (Hrec : (if is_widget record then miyagiWidgetShapeSchema (obj_get record "props")
                  else true) = true).
  { destruct (is_widget record); [now apply Hr | reflexivity]. }
  unfold store_ok in *. induction store as [|r store IH]; cbn [put forallb] in *.
  - now rewrite Hrec.
  - apply andb_prop in Hs as [H1 H2].
    destruct (same_id (obj_get r "id") (obj_get record "id")); cbn [forallb].
    + now rewrite Hrec.
    + rewrite H1. now apply IH.
Qed.

(** What a call of [edit_widget_html] that wrote, wrote. *)
Lemma handleEditWidgetHtml_put (shapeId : string) (body : JValue) (store : Store)
    (answer : Response) (record : Obj) :
  handleEditWidgetHtml shapeId body (inr store) = (answer, Put record) ->
  exists (shape : Obj) (html : string),
    find (is_widget_with_id shapeId) store = Some shape
    /\ record = updatedShape shape html (opt_get body "preserveStorage").
Proof.
  unfold handleEditWidgetHtml.
  destruct (member body "htmlContent") as [htmlContent|]; [|discriminate].
  destruct (negb (truthy htmlContent)); [discriminate|].
  destruct (find (is_widget_with_id shapeId) store) as [shape|]; [|discriminate].
  destruct (negb (str_eq (obj_get shape "type") "miyagi-widget")); [discriminate|].
  destruct (member (obj_get shape "props") "widgetId") as [wid|]; [|discriminate].
  destruct htmlContent; try discriminate.
  intros H. inversion H. now eexists _, _.
Qed.

(** X6: [edit_widget_html] keeps the room within the widget schema: on a
    store whose widgets pass [miyagiWidgetShapeSchema], whatever the request,
    the store after the call passes it too (the content written is a string,
    the storage written is empty or the one that was there). *)
Theorem edit_keeps_schema (shapeId : string) (body : JValue) (store : Store) :
  store_ok store = true ->
  store_ok (after store (handleEditWidgetHtml shapeId body)) = true.
Proof.
  intros Hok. unfold after.
  destruct (handleEditWidgetHtml shapeId body (inr store)) as [answer [|record]] eqn:E;
    cbn [snd apply_effect]; [exact Hok|].
  apply handleEditWidgetHtml_put in E as (shape & html & Hf & ->).
  destruct (widget_props_object _ _ _ Hok Hf) as (props & Hp & Hs).
  apply store_ok_put; [exact Hok|]. intros _.
  rewrite updatedShape_props, Hp. cbn [own_props opt_get].
  apply schema_after_edit; [exact Hs|].
  destruct (truthy (opt_get body "preserveStorage")); [|reflexivity].
  unfold miyagiWidgetShapeSchema in Hs.
  repeat (apply andb_prop in Hs as [Hs ?]). assumption.
Qed.

(** X6, witness: an edit of the sample room that keeps the storage. *)
Lemma edit_keeps_schema_witness :
  store_ok (after Sample.store
              (handleEditWidgetHtml "shape:w1"
                 (JObj [ ("htmlContent", JStr "<i>{{miyagi-storage:name}}</i>");
                         ("preserveStorage", JBool true) ]))) = true.
Proof.
  exact (edit_keeps_schema "shape:w1"
           (JObj [ ("htmlContent", JStr "<i>{{miyagi-storage:name}}</i>");
                   ("preserveStorage", JBool true) ])
           Sample.store eq_refl).
Defined.

(** The markup of [getTemplateHtml] is a string but for the names every
    object inherits. *)
Lemma getTemplateHtml_string (t : string) :
  is_string (Markup.getTemplateHtml (JStr t)) = negb (inherited t).
Proof.
  unfold Markup.getTemplateHtml, obj_index. cbn [to_text].
  destruct (obj_has Markup.templates t) eqn:Ho.
  - destruct (templates_own t Ho) as (Hi & m & Hm & Hne). rewrite Hm, Hi.
    apply String.eqb_neq in Hne. unfold js_or. cbn [truthy]. now rewrite Hne.
  - destruct (inherited t) eqn:Hi; reflexivity.
Qed.

Lemma schema_strings (props : Obj) :
  miyagiWidgetShapeSchema (JObj props) = true ->
  is_string (obj_get props "templateId") = true
  /\ is_string (obj_get props "htmlContent") = true.
Proof.
  unfold miyagiWidgetShapeSchema. intros H.
  repeat (apply andb_prop in H as [H ?]). now split.
Qed.

(** X7: on a store that refuses the widgets whose properties fail the
    schema, [add_widget] keeps the room within the schema whatever the
    request, and it cannot add a widget under a template identifier that is
    the name of a member every object inherits: for such a name the markup
    looked up is not a string, the store refuses the record, and the call
    answers with the caught refusal and writes nothing.  A call that wrote
    had a non-empty string that is no such name for template identifier. *)
Theorem add_keeps_schema (validate : Obj -> option string) (rand : string) (now : Z)
    (body : JValue) (store : Store) :
  (forall r : Obj, validate r = None -> is_widget r = true ->
     miyagiWidgetShapeSchema (obj_get r "props") = true) ->
  store_ok store = true ->
  let call := handleAddWidget Markup.getTemplateHtml validate rand now body in
  store_ok (after store call) = true
  /\ (forall t : string,
        opt_get body "templateId" = JStr t -> t <> "" -> inherited t = true ->
        exists message : string, call (inr store) = (Caught (Rejected message), NoWrite))
  /\ (forall answer record : Obj,
        call (inr store) = (Ok answer, Put record) ->
        exists t : string,
          opt_get body "templateId" = JStr t /\ t <> "" /\ inherited t = false).
Proof.
  intros Hval Hok. cbv zeta.
  assert (Hwrote : forall answer record : Obj,
             handleAddWidget Markup.getTemplateHtml validate rand now body (inr store)
             = (Ok answer, Put record) ->
             exists t : string,
               opt_get body "templateId" = JStr t /\ t <> "" /\ inherited t = false).
  { intros answer record H.
    destruct body as [| | | | | |o|]; try discriminate H.
    apply handleAddWidget_wrote in H as (Ht & Hv & _ & Hr). cbv zeta in Hr.
    assert (Hs : miyagiWidgetShapeSchema (obj_get record "props") = true).
    { apply Hval; [exact Hv | now rewrite Hr]. }
    rewrite Hr in Hs. cbn [obj_get String.eqb Ascii.eqb Bool.eqb] in Hs.
    apply schema_strings in Hs as [Hid Hhtml].
    cbn [obj_get String.eqb Ascii.eqb Bool.eqb] in Hid, Hhtml.
    cbn [opt_get]. destruct (obj_get o "templateId") as [| | | |t| | |]; try discriminate Hid.
    exists t. split; [reflexivity|]. split.
    - intros ->. discriminate Ht.
    - rewrite getTemplateHtml_string in Hhtml. now apply negb_true_iff in Hhtml. }
  split; [|split].
  - unfold after.
    destruct (handleAddWidget Markup.getTemplateHtml validate rand now body (inr store))
      as [answer [|record]] eqn:E; cbn [snd apply_effect]; [exact Hok|].
    apply store_ok_put; [exact Hok|]. intros Hw. apply Hval; [|exact Hw].
    destruct answer as [payload| |];
      [destruct body as [| | | | | |o|]; try discriminate E;
       now apply handleAddWidget_wrote in E as (_ & Hv & _)| |];
      exfalso; revert E; unfold handleAddWidget;
      destruct (member body "templateId") as [t|]; try discriminate;
      destruct (negb (truthy t)); try discriminate;
      match goal with |- context [validate ?r] => destruct (validate r) end; discriminate.
  - intros t Ht Hne Hi.
    destruct (handleAddWidget Markup.getTemplateHtml validate rand now body (inr store))
      as [answer effect] eqn:E.
    destruct body as [| | | | | |o|]; try discriminate Ht. cbn [opt_get] in Ht.
    revert E. unfold handleAddWidget. cbn [member opt_get]. rewrite Ht.
    cbn [truthy]. apply String.eqb_neq in Hne. rewrite Hne. cbn [negb].
    match goal with |- context [validate ?r] => destruct (validate r) as [m|] eqn:Hv end.
    + intros E. inversion E. now exists m.
    + exfalso.
      match type of Hv with validate ?r = None =>
        assert (Hs : miyagiWidgetShapeSchema (obj_get r "props") = true)
          by (apply Hval; [exact Hv | reflexivity])
      end.
      cbn [obj_get String.eqb Ascii.eqb Bool.eqb] in Hs.
      apply schema_strings in Hs as [_ Hhtml].
      cbn [obj_get String.eqb Ascii.eqb Bool.eqb] in Hhtml.
      rewrite getTemplateHtml_string, Hi in Hhtml. discriminate Hhtml.
  - exact Hwrote.
Qed.

(** The validator of the examples refuses what the schema refuses. *)
Lemma sample_validate_schema (r : Obj) :
  Sample.validate r = None -> is_widget r = true ->
  miyagiWidgetShapeSchema (obj_get r "props") = true.
Proof.
  unfold Sample.validate. intros Hv Hw. rewrite Hw in Hv.
  destruct (miyagiWidgetShapeSchema (obj_get r "props")); [reflexivity | discriminate Hv].
Qed.

(** X7, witness: a widget asked for under the template [constructor], on
    the sample room. *)
Lemma add_keeps_schema_witness :
  let call := handleAddWidget Markup.getTemplateHtml Sample.validate "k3x9" 1700000000000
                (JObj [ ("templateId", JStr "constructor") ]) in
  store_ok (after Sample.store call) = true
  /\ (forall t : string,
        opt_get (JObj [ ("templateId", JStr "constructor") ]) "templateId" = JStr t ->
        t <> "" -> inherited t = true ->
        exists message : string, call (inr Sample.store) = (Caught (Rejected message), NoWrite))
  /\ (forall answer record : Obj,
        call (inr Sample.store) = (Ok answer, Put record) ->
        exists t : string,
          opt_get (JObj [ ("templateId", JStr "constructor") ]) "templateId" = JStr t
          /\ t <> "" /\ inherited t = false).
Proof.
  exact (add_keeps_schema Sample.validate "k3x9" 1700000000000
           (JObj [ ("templateId", JStr "constructor") ]) Sample.store
           sample_validate_schema eq_refl).
Defined.

(** X8: [generate_widget] keeps the room within the widget schema whatever
    the request: the widget it adds has the fixed size, a string for content
    and an empty storage, so on a store whose widgets pass the schema the
    store after the call passes it too; unlike [add_widget], no request makes
    it write properties the schema rejects. *)
Theorem generate_keeps_schema (toLowerCase : string -> string) (validate : Obj -> option string) (rand : string) (now : Z)
    (body : JValue) (store : Store) :
  store_ok store = true ->
  store_ok (after store
              (handleGenerateWidget (Markup.generateBasicWidget toLowerCase) validate rand now body))
  = true.
Proof.
  intros Hok. unfold after, handleGenerateWidget.
  destruct (member body "prompt") as [prompt|]; [|exact Hok].
  destruct (negb (truthy prompt)); [exact Hok|].
  destruct prompt as [| | | |p| | |]; try exact Hok.
  assert (Hm : exists m, Markup.generateBasicWidget toLowerCase (JStr p) = Some (JStr m)).
  { unfold Markup.generateBasicWidget.
    destruct (Markup.contains "calculator" (toLowerCase p)); [now eexists|].
    destruct (Markup.contains "todo" (toLowerCase p) || Markup.contains "task" (toLowerCase p));
      now eexists. }
  destruct Hm as [m ->].
  destruct (truthy (opt_get body "autoAdd")); [|exact Hok].
  match goal with |- context [validate ?r] => destruct (validate r) end; [exact Hok|].
  cbn [snd apply_effect]. apply store_ok_put; [exact Hok|]. intros _. reflexivity.
Qed.

(** X8, witness: a prompt with [autoAdd] on the sample room. *)
Lemma generate_keeps_schema_witness :
  store_ok (after Sample.store
              (handleGenerateWidget (Markup.generateBasicWidget (fun s => s))
                 Sample.validate "k3x9" 1700000000000
                 (JObj [ ("prompt", JStr "a todo list"); ("autoAdd", JBool true) ])))
  = true.
Proof.
  exact (generate_keeps_schema (fun s => s) Sample.validate "k3x9" 1700000000000
           (JObj [ ("prompt", JStr "a todo list"); ("autoAdd", JBool true) ])
           Sample.store eq_refl).
Defined.

End SchemaKept.

(** ** One widget, several calls *)

Section CallsInSequence.

Lemma obj_set_same_value (o : Obj) (k : string) (v : JValue) :
  obj_has o k = true -> obj_get o k = v -> obj_set o k v = o.
Proof.
  induction o as [|[k' v'] o IH]; cbn [obj_has obj_get obj_set]; [discriminate|].
  destruct (k' =? k); cbn [orb].
  - now intros _ ->.
  - intros Hh Hg. now rewrite IH.
Qed.

Lemma put_put (store : Store) (record : Obj) (id : string) :
  obj_get record "id" = JStr id ->
  put (put store record) record = put store record.
Proof.
  intros Hid.
  assert (Hs : same_id (obj_get record "id") (obj_get record "id") = true).
  { rewrite Hid. cbn [same_id]. apply String.eqb_refl. }
  induction store as [|r store IH]; cbn [put].
  - now rewrite Hs.
  - destruct (same_id (obj_get r "id") (obj_get record "id")) eqn:E; cbn [put].
    + now rewrite Hs.
    + now rewrite E, IH.
Qed.

(** A call of [edit_widget_html] that wrote: what it found, answered and
    wrote. *)
Lemma handleEditWidgetHtml_wrote (shapeId : string) (body : JValue) (store : Store)
    (answer : Response) (record : Obj) :
  handleEditWidgetHtml shapeId body (inr store) = (answer, Put record) ->
  exists (shape : Obj) (html : string) (wid : JValue),
    find (is_widget_with_id shapeId) store = Some shape
    /\ member body "htmlContent" = Some (JStr html)
    /\ truthy (JStr html) = true
    /\ member (obj_get shape "props") "widgetId" = Some wid
    /\ let processedHtml :=
         processTemplate html
           {| widgetId := wid;
              miyagiStorage := js_or (opt_get (obj_get shape "props") "miyagiStorage")
                                 (JObj []) |} in
       answer = Ok [ ("success", JBool true); ("processedHtml", JStr processedHtml) ]
       /\ record = updatedShape shape processedHtml (opt_get body "preserveStorage").
Proof.
  unfold handleEditWidgetHtml.
  destruct (member body "htmlContent") as [htmlContent|]; [|discriminate].
  destruct (negb (truthy htmlContent)) eqn:Ht; [discriminate|].
  destruct (find (is_widget_with_id shapeId) store) as [shape|]; [|discriminate].
  destruct (negb (str_eq (obj_get shape "type") "miyagi-widget")); [discriminate|].
  destruct (member (obj_get shape "props") "widgetId") as [wid|] eqn:Hw; [|discriminate].
  destruct htmlContent as [| | | |html| | |]; try discriminate.
  intros H. inversion H. exists shape, html, wid.
  apply negb_false_iff in Ht. repeat split; assumption || reflexivity.
Qed.

(** A call of [edit_widget_html] on a widget that is there. *)
Lemma handleEditWidgetHtml_found (shapeId : string) (body : JValue) (store : Store)
    (shape : Obj) (html : string) (wid : JValue) :
  find (is_widget_with_id shapeId) store = Some shape ->
  member body "htmlContent" = Some (JStr html) ->
  truthy (JStr html) = true ->
  member (obj_get shape "props") "widgetId" = Some wid ->
  let processedHtml :=
    processTemplate html
      {| widgetId := wid;
         miyagiStorage := js_or (opt_get (obj_get shape "props") "miyagiStorage") (JObj []) |} in
  handleEditWidgetHtml shapeId body (inr store)
  = (Ok [ ("success", JBool true); ("processedHtml", JStr processedHtml) ],
     Put (updatedShape shape processedHtml (opt_get body "preserveStorage"))).
Proof.
  intros Hf Hb Ht Hw. unfold handleEditWidgetHtml. rewrite Hb, Ht, Hf. cbn [negb].
  apply find_some in Hf as [_ Hp]. unfold is_widget_with_id in Hp.
  apply andb_prop in Hp as [_ Hty]. rewrite Hty, Hw. reflexivity.
Qed.

Lemma member_own_props (v : JValue) (k : string) (x : JValue) :
  member v k = Some x -> obj_get (own_props v) k = x.
Proof. destruct v; cbn; congruence. Qed.

Lemma opt_get_own_props (v : JValue) (k : string) :
  obj_get (own_props v) k = opt_get v k.
Proof. now destruct v. Qed.

Lemma widget_with_id (shapeId : string) (shape : Obj) :
  is_widget_with_id shapeId shape = true -> obj_get shape "id" = JStr shapeId.
Proof.
  unfold is_widget_with_id. intros H.
  apply andb_prop in H as [H _]. apply andb_prop in H as [H _].
  destruct (obj_get shape "id"); try discriminate.
  cbn in H. apply String.eqb_eq in H. now subst.
Qed.

(** X9: the [shapeId] that [add_widget] returns addresses the new widget:
    when [add_widget] has written (the store accepted the record), on any
    room, an [edit_widget_html] with non-empty content under the returned
    identifier, run on the room after the addition, succeeds; having no
    stored value to draw on, it resolves the placeholders of the content
    against the empty storage, under the [widgetId] the addition returned,
    and rewrites the record that was added. *)
Theorem add_then_edit (getTemplateHtml : JValue -> JValue)
    (validate : Obj -> option string) (rand : string) (now : Z)
    (body edit : Obj) (html : string) (store : Store) (answer record : Obj) :
  handleAddWidget getTemplateHtml validate rand now (JObj body) (inr store)
  = (Ok answer, Put record) ->
  obj_get edit "htmlContent" = JStr html -> html <> "" ->
  exists shapeId : string,
    obj_get answer "shapeId" = JStr shapeId
    /\ let processedHtml :=
         processTemplate html
           {| widgetId := obj_get answer "widgetId"; miyagiStorage := JObj [] |} in
       handleEditWidgetHtml shapeId (JObj edit) (inr (put store record))
       = (Ok [ ("success", JBool true); ("processedHtml", JStr processedHtml) ],
          Put (updatedShape record processedHtml (obj_get edit "preserveStorage"))).
Proof.
  intros H Hh Hne.
  apply handleAddWidget_wrote in H as (_ & _ & -> & ->).
  eexists. split; [reflexivity|].
  cbv zeta.
  erewrite handleEditWidgetHtml_found; cycle 1.
  - apply find_put. unfold is_widget_with_id.
    cbn [obj_get String.eqb Ascii.eqb Bool.eqb str_eq]. now rewrite String.eqb_refl.
  - cbn [member]. now rewrite Hh.
  - cbn [truthy]. apply String.eqb_neq in Hne. now rewrite Hne.
  - reflexivity.
  - reflexivity.
Qed.

(** X9, witness: a timer is added to the sample room, whose store accepts
    it, and given content with a placeholder. *)
Lemma add_then_edit_witness :
  exists (answer record : Obj) (shapeId : string),
    handleAddWidget Markup.getTemplateHtml Sample.validate "k3x9" 1700000000000
      (JObj [ ("templateId", JStr "timer") ]) (inr Sample.store)
    = (Ok answer, Put record)
    /\ obj_get answer "shapeId" = JStr shapeId
    /\ let processedHtml :=
         processTemplate "<b>{{miyagi-storage:name}}</b>"
           {| widgetId := obj_get answer "widgetId"; miyagiStorage := JObj [] |} in
       handleEditWidgetHtml shapeId
         (JObj [ ("htmlContent", JStr "<b>{{miyagi-storage:name}}</b>") ])
         (inr (put Sample.store record))
       = (Ok [ ("success", JBool true); ("processedHtml", JStr processedHtml) ],
          Put (updatedShape record processedHtml
                 (obj_get [ ("htmlContent", JStr "<b>{{miyagi-storage:name}}</b>") ]
                    "preserveStorage"))).
Proof.
  assert (Hne : "<b>{{miyagi-storage:name}}</b>" <> "") by discriminate.
  destruct (add_then_edit Markup.getTemplateHtml Sample.validate "k3x9" 1700000000000
              [ ("templateId", JStr "timer") ]
              [ ("htmlContent", JStr "<b>{{miyagi-storage:name}}</b>") ]
              "<b>{{miyagi-storage:name}}</b>" Sample.store _ _ eq_refl eq_refl Hne)
    as (shapeId & Hid & H).
  eexists _, _, shapeId. split; [reflexivity|]. split; [exact Hid | exact H].
Defined.

(** The record an edit wrote is found under the same identifier. *)
Lemma find_after_edit (shapeId : string) (store : Store) (shape : Obj) (html : string)
    (keep : JValue) :
  find (is_widget_with_id shapeId) store = Some shape ->
  find (is_widget_with_id shapeId) (put store (updatedShape shape html keep))
  = Some (updatedShape shape html keep).
Proof.
  intros Hf. apply find_put. apply find_some in Hf as [_ Hp].
  unfold is_widget_with_id in *. unfold updatedShape.
  rewrite !obj_get_set_other by discriminate. exact Hp.
Qed.

(** X10: an edit that preserves the storage can be repeated: with a truthy
    [preserveStorage], the same call of [edit_widget_html] on the room it
    left gives the answer it gave and leaves the room as it is; the stored
    values are still there for the second substitution. *)
Theorem edit_preserving_idempotent (shapeId : string) (body : JValue) (store : Store) :
  truthy (opt_get body "preserveStorage") = true ->
  let call := handleEditWidgetHtml shapeId body in
  call (inr (after store call)) = call (inr store)
  /\ after (after store call) call = after store call.
Proof.
  intros Hk call. unfold after.
  destruct (call (inr store)) as [answer [|record]] eqn:E; cbn [snd apply_effect].
  - rewrite E. split; reflexivity.
  - subst call.
    destruct (handleEditWidgetHtml_wrote _ _ _ _ _ E)
      as (shape & html & wid & Hf & Hb & Ht & Hw & Ha & Hr).
    cbv zeta in Ha, Hr. subst answer.
    set (processed := processTemplate html _) in *.
    assert (Hid : obj_get record "id" = JStr shapeId).
    { subst record. unfold updatedShape. rewrite obj_get_set_other by discriminate.
      apply find_some in Hf as [_ Hp]. now apply widget_with_id. }
    assert (E2 : handleEditWidgetHtml shapeId body (inr (put store record))
                 = (Ok [ ("success", JBool true); ("processedHtml", JStr processed) ],
                    Put record)).
    { pose proof (find_after_edit shapeId store shape processed
                    (opt_get body "preserveStorage") Hf) as Hf2.
      rewrite <- Hr in Hf2.
      assert (Hp2 : obj_get record "props"
                    = JObj (obj_set (obj_set (own_props (obj_get shape "props"))
                                       "htmlContent" (JStr processed))
                              "miyagiStorage"
                              (opt_get (obj_get shape "props") "miyagiStorage"))).
      { rewrite Hr. unfold updatedShape. rewrite obj_get_set_same. now rewrite Hk. }
      assert (Hw2 : member (obj_get record "props") "widgetId" = Some wid).
      { rewrite Hp2. cbn [member]. rewrite !obj_get_set_other by discriminate.
        now rewrite (member_own_props _ _ _ Hw). }
      rewrite (handleEditWidgetHtml_found shapeId body (put store record) record html wid
                 Hf2 Hb Ht Hw2).
      cbv zeta.
      assert (Hst : opt_get (obj_get record "props") "miyagiStorage"
                    = opt_get (obj_get shape "props") "miyagiStorage").
      { rewrite Hp2. cbn [opt_get]. now rewrite obj_get_set_same. }
      rewrite Hst. fold processed.
      do 2 f_equal.
      rewrite Hr at 2. unfold updatedShape at 2.
      unfold updatedShape. rewrite Hk, Hst, Hp2. cbn [own_props].
      rewrite (obj_set_same_value _ "htmlContent").
      - rewrite (obj_set_same_value _ "miyagiStorage").
        + rewrite Hr. unfold updatedShape. rewrite Hk.
          apply obj_set_same_value; [apply obj_has_set_same | apply obj_get_set_same].
        + apply obj_has_set_same.
        + apply obj_get_set_same.
      - rewrite obj_has_set_other by discriminate. apply obj_has_set_same.
      - rewrite obj_get_set_other by discriminate. apply obj_get_set_same. }
    rewrite E2. cbn [snd apply_effect]. split; [reflexivity|].
    now apply (put_put store record shapeId).
Qed.

(** X10, witness: the sample widget with a stored name is edited, the
    storage kept. *)
Lemma edit_preserving_idempotent_witness :
  let call := handleEditWidgetHtml "shape:w1"
                (JObj [ ("htmlContent", JStr "<i>{{miyagi-storage:name}}</i>");
                        ("preserveStorage", JBool true) ]) in
  call (inr (after Sample.store call)) = call (inr Sample.store)
  /\ after (after Sample.store call) call = after Sample.store call.
Proof.
  exact (edit_preserving_idempotent "shape:w1"
           (JObj [ ("htmlContent", JStr "<i>{{miyagi-storage:name}}</i>");
                   ("preserveStorage", JBool true) ])
           Sample.store eq_refl).
Defined.

(** X11: an edit that does not preserve the storage uses it up: after a
    successful [edit_widget_html] without a truthy [preserveStorage], any
    further edit of the widget with non-empty content resolves its
    placeholders against the empty storage, whatever the widget had stored
    before the first edit. *)
Theorem edit_consumes_storage (shapeId : string) (first second : JValue) (store : Store)
    (payload : Obj) (html : string) :
  truthy (opt_get first "preserveStorage") = false ->
  fst (handleEditWidgetHtml shapeId first (inr store)) = Ok payload ->
  member second "htmlContent" = Some (JStr html) -> html <> "" ->
  exists wid : JValue,
    fst (handleEditWidgetHtml shapeId second
           (inr (after store (handleEditWidgetHtml shapeId first))))
    = Ok [ ("success", JBool true);
           ("processedHtml",
            JStr (processTemplate html {| widgetId := wid; miyagiStorage := JObj [] |})) ].
Proof.
  intros Hk Hok Hb Hne. unfold after.
  destruct (handleEditWidgetHtml shapeId first (inr store)) as [answer effect] eqn:E.
  cbn [fst] in Hok. subst answer.
  destruct (handleEditWidgetHtml_success _ _ _ _ _ E)
    as (shape & html1 & wid & Hf & _ & Hw & Hr).
  cbv zeta in Hr. destruct Hr as [_ ->]. cbn [snd apply_effect].
  set (processed := processTemplate html1 _).
  exists wid.
  pose proof (find_after_edit shapeId store shape processed
                (opt_get first "preserveStorage") Hf) as Hf2.
  assert (Hp2 : obj_get (updatedShape shape processed (opt_get first "preserveStorage")) "props"
                = JObj (obj_set (obj_set (own_props (obj_get shape "props"))
                                   "htmlContent" (JStr processed))
                          "miyagiStorage" (JObj []))).
  { unfold updatedShape. rewrite obj_get_set_same. now rewrite Hk. }
  assert (Ht : truthy (JStr html) = true).
  { cbn [truthy]. apply String.eqb_neq in Hne. now rewrite Hne. }
  erewrite handleEditWidgetHtml_found; [| exact Hf2 | exact Hb | exact Ht |].
  - cbn [fst]. rewrite Hp2. cbn [opt_get]. rewrite obj_get_set_same. reflexivity.
  - rewrite Hp2. cbn [member]. rewrite !obj_get_set_other by discriminate.
    now rewrite (member_own_props _ _ _ Hw).
Qed.

(** X11, witness: the stored name of the sample widget is gone at the
    second edit. *)
Lemma edit_consumes_storage_witness :
  exists wid : JValue,
    fst (handleEditWidgetHtml "shape:w1"
           (JObj [ ("htmlContent", JStr "<i>{{miyagi-storage:name}}</i>") ])
           (inr (after Sample.store
                   (handleEditWidgetHtml "shape:w1"
                      (JObj [ ("htmlContent", JStr "<b>{{miyagi-storage:name}}</b>") ])))))
    = Ok [ ("success", JBool true);
           ("processedHtml",
            JStr (processTemplate "<i>{{miyagi-storage:name}}</i>"
                    {| widgetId := wid; miyagiStorage := JObj [] |})) ].
Proof.
  apply (edit_consumes_storage "shape:w1"
           (JObj [ ("htmlContent", JStr "<b>{{miyagi-storage:name}}</b>") ])
           (JObj [ ("htmlContent", JStr "<i>{{miyagi-storage:name}}</i>") ])
           Sample.store
           [ ("success", JBool true); ("processedHtml", JStr "<b>Ann</b>") ]
           "<i>{{miyagi-storage:name}}</i>" eq_refl eq_refl eq_refl).
  discriminate.
Defined.

End CallsInSequence.

(** ** Listings and the writes *)

Section ListingsAndWrites.

Lemma traverse_none {A B : Type} (f : A -> option B) (l : list A) :
  traverse f l = None <-> exists x, In x l /\ f x = None.
Proof.
  induction l as [|a l IH]; cbn [traverse].
  - split; [discriminate | now intros (x & [] & _)].
  - destruct (f a) as [b|] eqn:Ea.
    + destruct (traverse f l) as [bs|].
      * split; [discriminate|]. intros (x & [<-|Hin] & Hx); [congruence|].
        assert (Hn : @Some (list B) bs = None) by (apply IH; now exists x).
        discriminate Hn.
      * split; [|reflexivity]. intros _.
        destruct (proj1 IH eq_refl) as (x & Hin & Hx). exists x. split; [now right | exact Hx].
    + split; [|reflexivity]. intros _. exists a. split; [now left | exact Ea].
Qed.

Lemma widget_entry_none (fields : option (list string)) (shape : Obj) :
  widget_entry fields shape = None
  <-> (obj_get shape "props" = JUndefined \/ obj_get shape "props" = JNull).
Proof.
  unfold widget_entry.
  destruct (obj_get shape "props"); cbn [member];
    (split; [intros H; try discriminate H; auto | intros [H|H]; try discriminate H; auto]).
Qed.

(** X12: one widget without properties fails the listing it falls in, and
    only that: [list_widgets] answers with the caught [TypeError] exactly
    when a widget shape that the page and identifier filters select has
    [props] undefined or null; a listing whose filters pass such a shape by
    succeeds. *)
Theorem list_widgets_failure (pageId ids fields : option string) (store : Store) :
  handleGetWidgets pageId ids fields (inr store) = Caught TypeError
  <-> exists shape : Obj,
        In shape store
        /\ selected pageId (option_map split_comma ids) shape = true
        /\ (obj_get shape "props" = JUndefined \/ obj_get shape "props" = JNull).
Proof.
  unfold handleGetWidgets. rewrite select_widgets_filter.
  destruct (traverse _ _) as [widgets|] eqn:E.
  - split; [discriminate|]. intros (shape & Hin & Hs & Hp).
    assert (Hn : traverse (widget_entry (option_map split_comma fields))
                   (filter (selected pageId (option_map split_comma ids)) store) = None).
    { apply traverse_none. exists shape. split; [now apply filter_In|].
      now apply widget_entry_none. }
    congruence.
  - split; [|reflexivity]. intros _.
    apply traverse_none in E as (shape & Hin & Hx).
    apply filter_In in Hin as [Hin Hs]. exists shape.
    repeat split; [exact Hin | exact Hs |].
    exact (proj1 (widget_entry_none _ shape) Hx).
Qed.

Lemma pages_put (store : Store) (record : Obj) (id : string) :
  is_page record = false -> obj_get record "id" = JStr id ->
  page_free id store = true ->
  filter is_page (put store record) = filter is_page store.
Proof.
  intros Hp Hid. induction store as [|r store IH]; intros Hf; cbn [put filter].
  - now rewrite Hp.
  - cbn [page_free forallb] in Hf. apply andb_prop in Hf as [Hr Hf].
    rewrite Hid, same_id_str.
    destruct (str_eq (obj_get r "id") id) eqn:E; cbn [filter].
    + rewrite andb_true_r in Hr. apply negb_true_iff in Hr. now rewrite Hp, Hr.
    + now rewrite (IH Hf).
Qed.

Lemma pages_after (store : Store) (effect : Effect) (id : string) :
  (forall record, effect = Put record ->
     is_page record = false /\ obj_get record "id" = JStr id) ->
  page_free id store = true ->
  handleGetPages (inr (apply_effect store effect)) = handleGetPages (inr store).
Proof.
  intros He Hf. destruct effect as [|record]; [reflexivity|].
  destruct (He record eq_refl) as [Hp Hid].
  cbn [apply_effect handleGetPages]. now rewrite (pages_put store record id Hp Hid Hf).
Qed.

(** X13: the writes of the handlers leave the list of pages alone: when no
    page is stored under the identifier a call writes under (the new
    [shapeId] for [add_widget] and [generate_widget], the addressed one for
    [edit_widget_html]), [list_pages] answers after the call what it answered
    before, pages and default page alike, whatever the call was given. *)
Theorem writes_keep_pages (getTemplateHtml : JValue -> JValue)
    (generateBasicWidget : JValue -> option JValue) (validate : Obj -> option string) (rand : string) (now : Z)
    (shapeId : string) (body : JValue) (store : Store) :
  page_free ("shape:" ++ rand) store = true ->
  page_free shapeId store = true ->
  handleGetPages (inr (after store (handleAddWidget getTemplateHtml validate rand now body)))
  = handleGetPages (inr store)
  /\ handleGetPages (inr (after store (handleGenerateWidget generateBasicWidget validate rand now body)))
     = handleGetPages (inr store)
  /\ handleGetPages (inr (after store (handleEditWidgetHtml shapeId body)))
     = handleGetPages (inr store).
Proof.
  intros Hnew Hold. unfold after. repeat split.
  - apply (pages_after store _ ("shape:" ++ rand)); [|exact Hnew].
    intros record. unfold handleAddWidget.
    destruct (member body "templateId") as [t|]; [|discriminate].
    destruct (negb (truthy t)); [discriminate|].
    match goal with |- context [validate ?r] => destruct (validate r) end; [discriminate|].
    cbn [snd]. intros H. inversion H. split; reflexivity.
  - apply (pages_after store _ ("shape:" ++ rand)); [|exact Hnew].
    intros record. unfold handleGenerateWidget.
    destruct (member body "prompt") as [t|]; [|discriminate].
    destruct (negb (truthy t)); [discriminate|].
    destruct (generateBasicWidget t); [|discriminate].
    destruct (truthy (opt_get body "autoAdd")); [|discriminate].
    match goal with |- context [validate ?r] => destruct (validate r) end; [discriminate|].
    cbn [snd]. intros H. inversion H. split; reflexivity.
  - apply (pages_after store _ shapeId); [|exact Hold].
    intros record Hr.
    destruct (handleEditWidgetHtml shapeId body (inr store)) as [answer effect] eqn:E.
    cbn [snd] in Hr. subst effect.
    apply handleEditWidgetHtml_put in E as (shape & html & Hf & ->).
    apply find_some in Hf as [_ Hp]. unfold updatedShape, is_page.
    rewrite !obj_get_set_other by discriminate.
    split; [|now apply widget_with_id].
    unfold is_widget_with_id in Hp.
    apply andb_prop in Hp as [Hp _]. apply andb_prop in Hp as [_ Hp].
    destruct (obj_get shape "typeName"); try discriminate.
    cbn [str_eq] in *. apply String.eqb_eq in Hp. now subst.
Qed.

(** X13, witness: the sample room, whose pages are stored under page
    identifiers. *)
Lemma writes_keep_pages_witness :
  let body := JObj [ ("templateId", JStr "timer"); ("prompt", JStr "a calculator");
                     ("autoAdd", JBool true); ("htmlContent", JStr "<p>hello</p>") ] in
  handleGetPages
    (inr (after Sample.store
            (handleAddWidget Markup.getTemplateHtml Sample.validate "k3x9" 1700000000000 body)))
  = handleGetPages (inr Sample.store)
  /\ handleGetPages
       (inr (after Sample.store
               (handleGenerateWidget (Markup.generateBasicWidget (fun s => s))
                  Sample.validate "k3x9" 1700000000000 body)))
     = handleGetPages (inr Sample.store)
  /\ handleGetPages (inr (after Sample.store (handleEditWidgetHtml "shape:w1" body)))
     = handleGetPages (inr Sample.store).
Proof.
  exact (writes_keep_pages Markup.getTemplateHtml (Markup.generateBasicWidget (fun s => s))
           Sample.validate "k3x9" 1700000000000 "shape:w1"
           (JObj [ ("templateId", JStr "timer"); ("prompt", JStr "a calculator");
                   ("autoAdd", JBool true); ("htmlContent", JStr "<p>hello</p>") ])
           Sample.store eq_refl eq_refl).
Defined.

End ListingsAndWrites.

(** ** The object and its room identifier *)

Section RoomIdentifier.

Import TldrawDurableObject Connection.

Lemma unbound_bound (s : State) (r : string) :
  roomId s = Some r -> r <> "" -> unbound s = false.
Proof.
  intros Hr Hne. unfold unbound. rewrite Hr. cbn [param truthy].
  apply String.eqb_neq in Hne. now rewrite Hne.
Qed.

Lemma getRoom_roomId (s : State) : roomId (snd (getRoom s)) = roomId s.
Proof.
  unfold getRoom. destruct (unbound s); [reflexivity|].
  now destruct (roomPromise s).
Qed.

Lemma resume_roomId (s : State) (p : nat) (l : Load) : roomId (resume s p l) = roomId s.
Proof.
  unfold resume. destruct (is_pending (promises s) p); [|reflexivity]. now destruct l.
Qed.

(** No request unsets or changes a room identifier that is set. *)
Lemma serve_bound (h : Hosted) (q : Request) (r : string) :
  r <> "" -> roomId (object h) = Some r -> storage h = Some r ->
  roomId (object (serve h q)) = Some r /\ storage (serve h q) = Some r.
Proof.
  intros Hne Hr Hs. pose proof (unbound_bound _ _ Hr Hne) as Hu.
  destruct q as [r' u| |p l|]; cbn [serve].
  - unfold connect_route. rewrite Hu. unfold handleConnect.
    destruct (negb (truthy (param u))); cbn [fst]; [now split|].
    pose proof (getRoom_roomId (object h)) as Hg.
    destruct (getRoom (object h)) as [[e|p] s]; cbn [fst object storage snd] in *;
      now rewrite Hg.
  - unfold tool_route. pose proof (getRoom_roomId (object h)) as Hg.
    destruct (getRoom (object h)) as [x s]. cbn [fst object storage snd] in *.
    now rewrite Hg.
  - cbn [object storage]. now rewrite resume_roomId.
  - unfold construct. cbn [object storage init roomId]. now rewrite Hs.
Qed.

Lemma serve_all_bound (rs : list Request) (h : Hosted) (r : string) :
  r <> "" -> roomId (object h) = Some r -> storage h = Some r ->
  roomId (object (serve_all h rs)) = Some r /\ storage (serve_all h rs) = Some r.
Proof.
  intros Hne. revert h. unfold serve_all.
  induction rs as [|q rs IH]; intros h Hr Hs; cbn [fold_left]; [now split|].
  destruct (serve_bound h q r Hne Hr Hs) as [Hr' Hs']. now apply IH.
Qed.

(** Until a connect request comes, nothing happens to a new object. *)
Lemma serve_all_unbound (rs : list Request) :
  forallb (fun q => negb (is_connect q)) rs = true ->
  serve_all (construct None) rs = construct None.
Proof.
  unfold serve_all.
  induction rs as [|q rs IH]; cbn [fold_left forallb]; [reflexivity|].
  intros H. apply andb_prop in H as [Hq H].
  assert (Hs : serve (construct None) q = construct None).
  { destruct q as [r' u| |p l|]; try discriminate Hq; try reflexivity.
    now destruct p. }
  rewrite Hs. now apply IH.
Qed.

(** X14: the first connect request decides the room for good: on a new
    object, whatever came before it other than connects, a connect request
    for a non-empty room identifier binds the object and its storage to that
    identifier, whether or not the request carried a [userId], and no later
    request (a connect for another room, a tool call, the end of a load, a
    restart of the object) changes or unsets it. *)
Theorem first_connect_wins (before rest : list Request) (r : string) (u : option string) :
  r <> "" ->
  forallb (fun q => negb (is_connect q)) before = true ->
  let h := serve_all (construct None) (before ++ ConnectTo r u :: rest) in
  roomId (object h) = Some r /\ storage h = Some r.
Proof.
  intros Hne Hb. cbv zeta. unfold serve_all.
  rewrite fold_left_app. fold (serve_all (construct None) before).
  rewrite (serve_all_unbound before Hb). cbn [fold_left].
  apply (serve_all_bound rest); [exact Hne | |].
  - cbn [serve]. unfold connect_route, handleConnect.
    cbn [construct object init unbound roomId param truthy negb].
    destruct (negb (truthy (param u))); cbn [fst object].
    + unfold bind. reflexivity.
    + rewrite (surjective_pairing (getRoom _)).
      destruct (fst (getRoom _)); cbn [fst object]; now rewrite getRoom_roomId.
  - cbn [serve]. unfold connect_route, handleConnect.
    cbn [construct object init unbound roomId param truthy negb].
    destruct (negb (truthy (param u))); cbn [fst storage]; [reflexivity|].
    rewrite (surjective_pairing (getRoom _)).
    now destruct (fst (getRoom _)).
Qed.

(** X14, witness: a tool call, a connect without a user, then a connect
    for another room and a restart. *)
Lemma first_connect_wins_witness :
  let h := serve_all (construct None)
             ([Tool] ++ ConnectTo "room-a" None
                :: [ConnectTo "room-b" (Some "ann"); Loaded 0 Absent; Restart; Tool]) in
  roomId (object h) = Some "room-a" /\ storage h = Some "room-a".
Proof.
  apply (first_connect_wins [Tool]
           [ConnectTo "room-b" (Some "ann"); Loaded 0 Absent; Restart; Tool]
           "room-a" None).
  - discriminate.
  - reflexivity.
Defined.

(** X15: the tool routes never bind the object: on a new object that no
    connect request has reached, tool calls, ends of loads and restarts leave
    everything as the constructor left it (no room identifier in the object
    or its storage, no load started, no socket made), and a tool call gets
    the [Missing roomId] error although its route carries a room
    identifier. *)
Theorem tools_never_bind (rs : list Request) :
  forallb (fun q => negb (is_connect q)) rs = true ->
  let h := serve_all (construct None) rs in
  h = construct None /\ snd (tool_route h) = inl MissingRoomId.
Proof.
  intros H. cbv zeta. rewrite (serve_all_unbound rs H). split; reflexivity.
Qed.

(** X15, witness: tool calls around a restart. *)
Lemma tools_never_bind_witness :
  let h := serve_all (construct None) [Tool; Restart; Tool; Loaded 0 Found] in
  h = construct None /\ snd (tool_route h) = inl MissingRoomId.
Proof.
  exact (tools_never_bind [Tool; Restart; Tool; Loaded 0 Found] eq_refl).
Defined.

Lemma settle_keeps_failed (l : list Settled) (q : nat) (v : Settled) (p : nat) (m : string) :
  nth p l Pending = Failed m -> nth p (settle l q v) Pending = Failed m.
Proof.
  revert q p. induction l as [|x l IH]; intros q p H; [now destruct q|].
  destruct q as [|q]; destruct p as [|p]; simpl in *.
  - subst x. reflexivity.
  - now destruct x.
  - destruct x; exact H.
  - destruct x; now apply IH.
Qed.

Lemma serve_load_failed (h : Hosted) (q : Request) (p : nat) (m : string) (n : nat) :
  is_restart q = false -> load_failed h p m n -> load_failed (serve h q) p m n.
Proof.
  intros Hq (Hu & Hp & Ha & Hl).
  assert (Hg : getRoom (object h) = (inr p, object h)).
  { unfold getRoom. now rewrite Hu, Hp. }
  destruct q as [r' u| |p' l|]; try discriminate Hq; cbn [serve].
  - unfold connect_route. rewrite Hu. unfold handleConnect.
    destruct (negb (truthy (param u))); cbn [fst]; [now repeat split|].
    rewrite Hg. cbn [fst]. now repeat split.
  - unfold tool_route. rewrite Hg. cbn [fst]. now repeat split.
  - unfold load_failed, unbound, awaited in *. cbn [object].
    rewrite resume_roomId. unfold resume.
    destruct (is_pending (promises (object h)) p'); [|now repeat split].
    destruct l; cbn [roomPromise promises loads]; repeat split; trivial;
      now apply settle_keeps_failed.
Qed.

(** X16: a failed load is never tried again by the object that made it:
    once the memoized promise has rejected, whatever requests follow short of
    a restart, every call of [getRoom] still returns that promise, it still
    rejects with the same message, and the bucket is not read again. *)
Theorem failed_load_sticky (h : Hosted) (p : nat) (m : string) (rs : list Request) :
  unbound (object h) = false ->
  roomPromise (object h) = Some p ->
  awaited (object h) p = Failed m ->
  forallb (fun q => negb (is_restart q)) rs = true ->
  let h' := serve_all h rs in
  snd (tool_route h') = inr p
  /\ awaited (object h') p = Failed m
  /\ loads (object h') = loads (object h).
Proof.
  intros Hu Hp Ha Hrs. cbv zeta.
  assert (H : load_failed (serve_all h rs) p m (loads (object h))).
  { assert (H0 : load_failed h p m (loads (object h))) by now repeat split.
    clear Hu Hp Ha. revert H0. generalize (loads (object h)) as n. revert h Hrs.
    unfold serve_all.
    induction rs as [|q rs IH]; intros h Hrs n H0; cbn [fold_left]; [exact H0|].
    cbn [forallb] in Hrs. apply andb_prop in Hrs as [Hq Hrs].
    apply negb_true_iff in Hq. apply IH; [exact Hrs|].
    now apply serve_load_failed. }
  destruct H as (Hu' & Hp' & Ha' & Hl').
  repeat split; try assumption.
  unfold tool_route, getRoom. now rewrite Hu', Hp'.
Qed.

(** X16, witness: the load of a room breaks; connects, tool calls and a
    late end of the load follow. *)
Lemma failed_load_sticky_witness :
  let h := serve_all (construct None)
             [ConnectTo "room-a" (Some "ann"); Loaded 0 (Broken "bucket unavailable")] in
  let h' := serve_all h [Tool; ConnectTo "room-b" (Some "bob"); Loaded 0 Found; Tool] in
  snd (tool_route h') = inr 0
  /\ awaited (object h') 0 = Failed "bucket unavailable"
  /\ loads (object h') = loads (object h).
Proof.
  exact (failed_load_sticky
           (serve_all (construct None)
              [ConnectTo "room-a" (Some "ann"); Loaded 0 (Broken "bucket unavailable")])
           0 "bucket unavailable"
           [Tool; ConnectTo "room-b" (Some "bob"); Loaded 0 Found; Tool]
           eq_refl eq_refl eq_refl eq_refl).
Defined.

(** X17: the object holds the room identifier its storage holds: after any
    requests on an object constructed over any storage, restarts among them,
    the [roomId] field equals the stored entry, so a restart, which reads the
    field back from storage, never changes which room the object serves. *)
Theorem roomId_mirrors_storage (stored : option string) (rs : list Request) :
  let h := serve_all (construct stored) rs in
  roomId (object h) = storage h
  /\ roomId (object (serve h Restart)) = roomId (object h).
Proof.
  cbv zeta.
  assert (H : forall h, roomId (object h) = storage h ->
                        roomId (object (serve_all h rs)) = storage (serve_all h rs)).
  { unfold serve_all. induction rs as [|q rs IH]; intros h Hh; cbn [fold_left]; [exact Hh|].
    apply IH. destruct q as [r' u| |p l|]; cbn [serve].
    - unfold connect_route, handleConnect.
      destruct (unbound (object h)) eqn:Hu;
        destruct (negb (truthy (param u))); cbn [fst object storage];
        try exact Hh.
      + unfold bind. now rewrite Hu.
      + rewrite (surjective_pairing (getRoom _)).
        destruct (fst (getRoom _)); cbn [fst object storage];
          rewrite getRoom_roomId; cbn [object]; unfold bind; now rewrite Hu.
      + rewrite (surjective_pairing (getRoom _)).
        destruct (fst (getRoom _)); cbn [fst object storage];
          now rewrite getRoom_roomId.
    - unfold tool_route. rewrite (surjective_pairing (getRoom _)).
      cbn [fst object storage]. now rewrite getRoom_roomId.
    - cbn [object storage]. now rewrite resume_roomId.
    - reflexivity. }
  specialize (H (construct stored) eq_refl).
  split; [exact H|]. cbn [serve construct object init roomId]. now rewrite H.
Qed.

End RoomIdentifier.
